(** * gojina: request encoding, response decoding and SSE reassembly

    A shallow embedding of the Go client library [gojina] (package [jina]):
    the custom JSON marshalers of the request types, the [Token] decoder,
    the header builders, the synchronous calls and the streaming loop
    [doStream] with its two users [VLMStream] and [DeepSearchStream].

    Conventions of the embedding.
    - A Go [string] / [[]byte] is a [string] (a sequence of bytes).
    - A Go [int] is a [Z]; nothing below depends on its width.
    - A Go slice is an [option (list A)]: [None] is the nil slice.
    - A Go pointer that is only tested against nil and read is an [option].
    - [json.Marshal] is modelled up to the JSON value it writes ([json]);
      [json.Unmarshal] / [json.Decoder] read bytes with [json_parse].
    - An [error] is the tree built by [fmt.Errorf]: the format string of the
      source together with its operands.
    - [http.Client.Do] is a parameter ([transport]); every call records the
      requests it hands to the transport. *)

From Stdlib Require Import ZArith Lia Ascii String.
From stdpp Require Import base strings list gmap pretty.

Local Open Scope Z_scope.
Local Open Scope string_scope.
Local Open Scope list_scope.

#[local] Set Warnings "-register-all".

(* ===================================================================== *)
(** * JSON values *)
(* ===================================================================== *)

(** A number is kept as the decimal it was written as: [JNum m e] is
    [m * 10^e].  A Go [int] [n] is written as [JNum n 0]. *)
Inductive json : Type :=
| JNull
| JBool (b : bool)
| JNum (m e : Z)
| JStr (s : string)
| JArr (l : list json)
| JObj (fields : list (string * json)).

Definition JInt (n : Z) : json := JNum n 0.

(** The member of an object under key [k] (the first one, as written). *)
Fixpoint assoc (k : string) (fields : list (string * json)) : option json :=
  match fields with
  | [] => None
  | (k', v) :: rest => if String.eqb k k' then Some v else assoc k rest
  end.

Definition json_field (k : string) (v : json) : option json :=
  match v with
  | JObj fields => assoc k fields
  | _ => None
  end.

(** Go slices. *)
Definition slice (A : Type) : Type := option (list A).

Definition len {A} (s : slice A) : Z :=
  match s with
  | None => 0
  | Some l => Z.of_nat (length l)
  end.

Definition elems {A} (s : slice A) : list A :=
  match s with
  | None => []
  | Some l => l
  end.

(** [json.Marshal] of a slice: nil is written [null]. *)
Definition json_of_slice {A} (f : A -> json) (s : slice A) : json :=
  match s with
  | None => JNull
  | Some l => JArr (map f l)
  end.

Definition nonempty (s : string) : bool :=
  match s with
  | EmptyString => false
  | String _ _ => true
  end.

(** A struct field tagged [omitempty]. *)
Definition omitempty_str (k v : string) : list (string * json) :=
  if nonempty v then [(k, JStr v)] else [].

Definition omitempty_int (k : string) (n : Z) : list (string * json) :=
  if Z.eqb n 0 then [] else [(k, JInt n)].

Definition omitempty_bool (k : string) (b : bool) : list (string * json) :=
  if b then [(k, JBool true)] else [].

(** A Go [map[string]interface{}] as [json.Marshal] writes it: keys in
    increasing byte order, one entry per key. *)
Definition gomap : Type := list (string * json).

Fixpoint map_set (k : string) (v : json) (m : gomap) : gomap :=
  match m with
  | [] => [(k, v)]
  | (k', v') :: m' =>
      match String.compare k k' with
      | Lt => (k, v) :: m
      | Eq => (k, v) :: m'
      | Gt => (k', v') :: map_set k v m'
      end
  end.

(* ===================================================================== *)
(** * Errors *)
(* ===================================================================== *)

Inductive error : Type :=
| EOF                                   (* io.EOF *)
| ErrTooLong                            (* bufio.ErrTooLong *)
| SyntaxError (msg : string)            (* *json.SyntaxError *)
| UnmarshalTypeError (msg : string)     (* *json.UnmarshalTypeError *)
| MarshalerError (msg : string)         (* *json.MarshalerError *)
| OtherError (msg : string)             (* transport and caller errors *)
| Errorf (format : string) (args : list fmtarg)   (* fmt.Errorf *)
with fmtarg : Type :=
| ArgInt (n : Z)
| ArgStr (s : string)
| ArgMap (m : gomap)
| ArgErr (e : error).

(** The sub-string test behind the [%w] verb. *)
Fixpoint has_substring (needle hay : string) : bool :=
  if String.prefix needle hay then true
  else match hay with
       | EmptyString => false
       | String _ hay' => has_substring needle hay'
       end.

(** Whether [e] is [io.EOF] or wraps it with [%w]. *)
Fixpoint wraps_EOF (e : error) : bool :=
  match e with
  | EOF => true
  | Errorf format args =>
      has_substring "%w" format &&
      (fix any (l : list fmtarg) : bool :=
         match l with
         | [] => false
         | ArgErr e' :: l' => wraps_EOF e' || any l'
         | _ :: l' => any l'
         end) args
  | _ => false
  end.

(** [errors.Is(err, io.EOF)] for a possibly nil [err]; the only target
    the library tests for is [io.EOF]. *)
Inductive target : Type := EOF_target.

Definition errors_Is (err : option error) (t : target) : bool :=
  match err with
  | Some e => wraps_EOF e
  | None => false
  end.

(** The result of a fallible Go function [(A, error)]. *)
Inductive result (A : Type) : Type :=
| Ok (a : A)
| Err (e : error).
Arguments Ok {A} a.
Arguments Err {A} e.

Definition is_Err {A} (r : result A) : bool :=
  match r with
  | Ok _ => false
  | Err _ => true
  end.

(* ===================================================================== *)
(** * Reading JSON text (package encoding/json)

    The reader follows the grammar [encoding/json] accepts (RFC 8259).
    Two things it does not reproduce: the replacement of invalid UTF-8 by
    U+FFFD inside strings (bytes above 127 are kept as they are), and the
    rounding of a number to [float64]. *)
(* ===================================================================== *)

Definition code (c : ascii) : Z := Z.of_N (N_of_ascii c).
Definition byte (n : Z) : ascii := ascii_of_N (Z.to_N n).

(** JSON text inside this file: [quoted s] is [s] between two double quotes. *)
Definition dquote : string := String (byte 34) EmptyString.
Definition quoted (s : string) : string := dquote +:+ s +:+ dquote.

Definition is_space (c : ascii) : bool :=
  let n := code c in
  Z.eqb n 32 || Z.eqb n 9 || Z.eqb n 10 || Z.eqb n 13.

Definition is_digit (c : ascii) : bool :=
  Z.leb 48 (code c) && Z.leb (code c) 57.

Fixpoint skip_ws (s : string) : string :=
  match s with
  | String c rest => if is_space c then skip_ws rest else s
  | EmptyString => s
  end.

Definition hexval (c : ascii) : option Z :=
  let n := code c in
  if Z.leb 48 n && Z.leb n 57 then Some (n - 48)
  else if Z.leb 97 n && Z.leb n 102 then Some (n - 87)
  else if Z.leb 65 n && Z.leb n 70 then Some (n - 55)
  else None.

Definition hex4 (a b c d : ascii) : option Z :=
  match hexval a, hexval b, hexval c, hexval d with
  | Some x, Some y, Some z, Some w => Some (((x * 16 + y) * 16 + z) * 16 + w)
  | _, _, _, _ => None
  end.

Definition utf8_encode (cp : Z) : string :=
  if Z.ltb cp 128 then String (byte cp) ""
  else if Z.ltb cp 2048 then
    String (byte (192 + cp / 64)) (String (byte (128 + cp mod 64)) "")
  else if Z.ltb cp 65536 then
    String (byte (224 + cp / 4096))
      (String (byte (128 + (cp / 64) mod 64))
         (String (byte (128 + cp mod 64)) ""))
  else
    String (byte (240 + cp / 262144))
      (String (byte (128 + (cp / 4096) mod 64))
         (String (byte (128 + (cp / 64) mod 64))
            (String (byte (128 + cp mod 64)) ""))).

Definition replacement_char : string := utf8_encode 65533.
Definition is_high_surrogate (cp : Z) : bool := Z.leb 55296 cp && Z.ltb cp 56320.
Definition is_low_surrogate (cp : Z) : bool := Z.leb 56320 cp && Z.ltb cp 57344.

Definition simple_escape (c : ascii) : option ascii :=
  let n := code c in
  if Z.eqb n 34 then Some (byte 34)            (* quote *)
  else if Z.eqb n 92 then Some (byte 92)       (* backslash *)
  else if Z.eqb n 47 then Some (byte 47)       (* slash *)
  else if Z.eqb n 98 then Some (byte 8)        (* backspace *)
  else if Z.eqb n 102 then Some (byte 12)      (* form feed *)
  else if Z.eqb n 110 then Some (byte 10)      (* newline *)
  else if Z.eqb n 114 then Some (byte 13)      (* carriage return *)
  else if Z.eqb n 116 then Some (byte 9)       (* tab *)
  else None.

Definition cons_str (p : string) (r : option (string * string))
  : option (string * string) :=
  match r with
  | Some (s, rest) => Some (p +:+ s, rest)
  | None => None
  end.

Definition flush (pending : option Z) : string :=
  match pending with
  | Some _ => replacement_char
  | None => ""
  end.

(** The characters of a string literal after its opening quote.  [pending]
    is a high surrogate read from a [\u] escape and not yet paired. *)
Fixpoint read_string (pending : option Z) (s : string) : option (string * string) :=
  match s with
  | EmptyString => None
  | String c rest =>
      if Z.eqb (code c) 34 then Some (flush pending, rest)
      else if Z.eqb (code c) 92 then
        match rest with
        | EmptyString => None
        | String e rest1 =>
            match simple_escape e with
            | Some ch => cons_str (flush pending +:+ String ch "") (read_string None rest1)
            | None =>
                if Z.eqb (code e) 117 then
                  match rest1 with
                  | String h1 (String h2 (String h3 (String h4 rest2))) =>
                      match hex4 h1 h2 h3 h4 with
                      | None => None
                      | Some cp =>
                          match pending with
                          | Some hi =>
                              if is_low_surrogate cp then
                                cons_str (utf8_encode (65536 + (hi - 55296) * 1024 + (cp - 56320)))
                                         (read_string None rest2)
                              else if is_high_surrogate cp then
                                cons_str replacement_char (read_string (Some cp) rest2)
                              else
                                cons_str (replacement_char +:+ utf8_encode cp)
                                         (read_string None rest2)
                          | None =>
                              if is_high_surrogate cp then read_string (Some cp) rest2
                              else if is_low_surrogate cp then
                                cons_str replacement_char (read_string None rest2)
                              else cons_str (utf8_encode cp) (read_string None rest2)
                          end
                      end
                  | _ => None
                  end
                else None
            end
        end
      else if Z.ltb (code c) 32 then None
      else cons_str (flush pending +:+ String c "") (read_string None rest)
  end.

(** A run of digits: its value after [acc], how many there were, the rest. *)
Fixpoint read_digits (s : string) (acc : Z) (n : Z) : Z * Z * string :=
  match s with
  | String c rest =>
      if is_digit c then read_digits rest (acc * 10 + (code c - 48)) (n + 1)
      else (acc, n, s)
  | EmptyString => (acc, n, s)
  end.

Definition read_exponent (s : string) : option (Z * string) :=
  match s with
  | String c rest =>
      if Z.eqb (code c) 101 || Z.eqb (code c) 69 then
        let '(sign, rest1) :=
          match rest with
          | String d rest' =>
              if Z.eqb (code d) 45 then (-1, rest')
              else if Z.eqb (code d) 43 then (1, rest')
              else (1, rest)
          | EmptyString => (1, rest)
          end in
        let '(v, n, rest2) := read_digits rest1 0 0 in
        if Z.eqb n 0 then None else Some (sign * v, rest2)
      else Some (0, s)
  | EmptyString => Some (0, s)
  end.

Definition read_fraction (s : string) (acc : Z) : option (Z * Z * string) :=
  match s with
  | String c rest =>
      if Z.eqb (code c) 46 then
        let '(v, n, rest1) := read_digits rest acc 0 in
        if Z.eqb n 0 then None else Some (v, n, rest1)
      else Some (acc, 0, s)
  | EmptyString => Some (acc, 0, s)
  end.

(** A number whose first character (after an optional minus) is a digit. *)
Definition read_number (sign : Z) (s : string) : option (json * string) :=
  match s with
  | String c rest =>
      if is_digit c then
        let '(int_part, rest1) :=
          if Z.eqb (code c) 48 then (0, rest)
          else let '(v, _, r) := read_digits s 0 0 in (v, r) in
        match read_fraction rest1 int_part with
        | None => None
        | Some (mant, nfrac, rest2) =>
            match read_exponent rest2 with
            | None => None
            | Some (ex, rest3) => Some (JNum (sign * mant) (ex - nfrac), rest3)
            end
        end
      else None
  | EmptyString => None
  end.

Definition read_literal (word : string) (v : json) (s : string) : option (json * string) :=
  if String.prefix word s
  then Some (v, String.substring (String.length word)
                                 (String.length s - String.length word) s)
  else None.

Fixpoint read_value (fuel : nat) (s : string) : option (json * string) :=
  match fuel with
  | O => None
  | S fuel' =>
      match skip_ws s with
      | EmptyString => None
      | String c rest =>
          let n := code c in
          if Z.eqb n 123 then                      (* { *)
            match skip_ws rest with
            | String d rest' =>
                if Z.eqb (code d) 125 then Some (JObj [], rest')
                else read_members fuel' (skip_ws rest) []
            | EmptyString => None
            end
          else if Z.eqb n 91 then                  (* [ *)
            match skip_ws rest with
            | String d rest' =>
                if Z.eqb (code d) 93 then Some (JArr [], rest')
                else read_elements fuel' (skip_ws rest) []
            | EmptyString => None
            end
          else if Z.eqb n 34 then                  (* quote *)
            match read_string None rest with
            | Some (str, rest') => Some (JStr str, rest')
            | None => None
            end
          else if Z.eqb n 45 then read_number (-1) rest
          else if is_digit c then read_number 1 (String c rest)
          else if Z.eqb n 116 then read_literal "true" (JBool true) (String c rest)
          else if Z.eqb n 102 then read_literal "false" (JBool false) (String c rest)
          else if Z.eqb n 110 then read_literal "null" JNull (String c rest)
          else None
      end
  end

with read_elements (fuel : nat) (s : string) (acc : list json) : option (json * string) :=
  match fuel with
  | O => None
  | S fuel' =>
      match read_value fuel' s with
      | None => None
      | Some (v, rest) =>
          match skip_ws rest with
          | String d rest' =>
              if Z.eqb (code d) 44 then read_elements fuel' rest' (v :: acc)
              else if Z.eqb (code d) 93 then Some (JArr (rev (v :: acc)), rest')
              else None
          | EmptyString => None
          end
      end
  end

with read_members (fuel : nat) (s : string) (acc : list (string * json)) : option (json * string) :=
  match fuel with
  | O => None
  | S fuel' =>
      match skip_ws s with
      | String q rest =>
          if Z.eqb (code q) 34 then
            match read_string None rest with
            | None => None
            | Some (key, rest1) =>
                match skip_ws rest1 with
                | String colon rest2 =>
                    if Z.eqb (code colon) 58 then
                      match read_value fuel' rest2 with
                      | None => None
                      | Some (v, rest3) =>
                          match skip_ws rest3 with
                          | String d rest4 =>
                              if Z.eqb (code d) 44 then read_members fuel' rest4 ((key, v) :: acc)
                              else if Z.eqb (code d) 125 then Some (JObj (rev ((key, v) :: acc)), rest4)
                              else None
                          | EmptyString => None
                          end
                      end
                    else None
                | EmptyString => None
                end
            end
          else None
      | EmptyString => None
      end
  end.

(** The first JSON value of [s] and what follows it. *)
Definition json_parse_prefix (s : string) : option (json * string) :=
  read_value (2 * String.length s + 2) s.

(** [s] as one JSON value, with white space around it only: what
    [json.Unmarshal] accepts. *)
Definition json_parse (s : string) : option json :=
  match json_parse_prefix s with
  | Some (v, rest) =>
      match skip_ws rest with
      | EmptyString => Some v
      | String _ _ => None
      end
  | None => None
  end.

(** [int(f)] for the [float64] read from a number: truncation toward zero. *)
Definition int_of_number (m e : Z) : Z :=
  if Z.leb 0 e then m * 10 ^ e else Z.quot m (10 ^ (- e)).

(* ===================================================================== *)
(** * HTTP requests and responses (package net/http) *)
(* ===================================================================== *)

Definition to_upper (c : ascii) : ascii :=
  if Z.leb 97 (code c) && Z.leb (code c) 122 then byte (code c - 32) else c.

Definition to_lower (c : ascii) : ascii :=
  if Z.leb 65 (code c) && Z.leb (code c) 90 then byte (code c + 32) else c.

(** [textproto.CanonicalMIMEHeaderKey] on the keys the library uses
    (letters, digits and hyphens). *)
Fixpoint canonical_from (upper : bool) (s : string) : string :=
  match s with
  | EmptyString => EmptyString
  | String c rest =>
      String (if upper then to_upper c else to_lower c)
             (canonical_from (Z.eqb (code c) 45) rest)
  end.

Definition CanonicalHeaderKey (s : string) : string := canonical_from true s.

(** [http.Header] is a [map[string][]string]. *)
Abbreviation Header := (gmap string (list string)).

Definition Header_Set (k v : string) (h : Header) : Header :=
  <[CanonicalHeaderKey k := [v]]> h.

Definition Header_Add (k v : string) (h : Header) : Header :=
  <[CanonicalHeaderKey k := (default [] (h !! CanonicalHeaderKey k) ++ [v])%list]> h.

Definition Header_Values (k : string) (h : Header) : option (list string) :=
  h !! CanonicalHeaderKey k.

Record Request : Type := {
  ReqMethod : string;
  ReqURL    : string;
  ReqHeader : Header;
  ReqBody   : json          (* the value json.Marshal wrote *)
}.

(** A response: its status, the bytes of its body, and the error the body
    reader reports after the last byte ([None]: a clean end, io.EOF). *)
Record Response : Type := {
  StatusCode : Z;
  Body       : string;
  BodyErr    : option error
}.

Definition StatusOK : Z := 200.

(** [http.NewRequestWithContext(ctx, http.MethodPost, url, body)].  The
    context is not modelled; with the constant URLs of the library and a
    non-nil context the constructor does not fail. *)
Definition NewRequest (url : string) (body : json) : Request :=
  {| ReqMethod := "POST"; ReqURL := url; ReqHeader := ∅; ReqBody := body |}.

Definition with_header (f : Header -> Header) (r : Request) : Request :=
  {| ReqMethod := ReqMethod r; ReqURL := ReqURL r;
     ReqHeader := f (ReqHeader r); ReqBody := ReqBody r |}.

(* ===================================================================== *)
(** * Lines of a body (bufio.Scanner with the default split, ScanLines) *)
(* ===================================================================== *)

Definition MaxScanTokenSize : Z := 65536.

Fixpoint rev_onto (s acc : string) : string :=
  match s with
  | EmptyString => acc
  | String c rest => rev_onto rest (String c acc)
  end.

(** The line whose bytes were collected in reverse in [cur], without one
    trailing carriage return ([dropCR]). *)
Definition finish_line (cur : string) : string :=
  match cur with
  | String c rest => if Z.eqb (code c) 13 then rev_onto rest EmptyString
                     else rev_onto cur EmptyString
  | EmptyString => EmptyString
  end.

(** The tokens [Scan] delivers from the bytes [s], and whether it stopped
    on a line that does not fit the buffer.  [cur] holds the [n] bytes of
    the line being read. *)
Fixpoint scan_lines (s : string) (cur : string) (n : Z) : list string * bool :=
  match s with
  | EmptyString => if Z.eqb n 0 then ([], false) else ([finish_line cur], false)
  | String c rest =>
      if Z.eqb (code c) 10 then
        let '(ls, long) := scan_lines rest EmptyString 0 in
        (finish_line cur :: ls, long)
      else if Z.leb MaxScanTokenSize (n + 1) then ([], true)
      else scan_lines rest (String c cur) (n + 1)
  end.

(** A scanner run over a whole body: the lines [Scan] returns [true] for,
    and the value of [Err()] once it returns [false]. *)
Definition Scanner (resp : Response) : list string * option error :=
  let '(ls, long) := scan_lines (Body resp) EmptyString 0 in
  (ls, if long then Some ErrTooLong
       else match BodyErr resp with
            | Some EOF => None
            | other => other
            end).

Definition HasPrefix (s prefix : string) : bool := String.prefix prefix s.

Definition TrimPrefix (s prefix : string) : string :=
  if HasPrefix s prefix
  then String.substring (String.length prefix)
                        (String.length s - String.length prefix) s
  else s.

(* ===================================================================== *)
(** * The streaming loop (client.go) *)
(* ===================================================================== *)

(** A Go callback [func(T) error] run by the caller: it may change the
    caller's state [S] and reports [nil] ([None]) or an error. *)
Definition callback (T S : Type) : Type := T -> S -> S * option error.

(** How the [for scanner.Scan()] loop is left: by a [return] inside its
    body, or because [Scan] returned [false]. *)
Inductive loop_exit : Type :=
| Returned (e : option error)
| ScanEnded.

Fixpoint stream_loop {S} (cb : callback string S) (lines : list string) (st : S)
  : S * loop_exit :=
  match lines with
  | [] => (st, ScanEnded)
  | line :: rest =>
      if HasPrefix line "data: " then
        let data := TrimPrefix line "data: " in
        if String.eqb data "[DONE]" then (st, Returned None)
        else match cb data st with
             | (st', Some err) => (st', Returned (Some err))
             | (st', None) => stream_loop cb rest st'
             end
      else stream_loop cb rest st
  end.

(** A body made of the given lines, each ended by a line feed. *)
Definition newline : string := String (byte 10) EmptyString.

Fixpoint body_of_lines (lines : list string) : string :=
  match lines with
  | [] => EmptyString
  | line :: rest => line +:+ newline +:+ body_of_lines rest
  end.

(** A line as it can stand in a body: no line feed and no carriage return
    in it, and short enough for the scanner's buffer. *)
Fixpoint no_line_break (s : string) : bool :=
  match s with
  | EmptyString => true
  | String c rest => negb (Z.eqb (code c) 10) && negb (Z.eqb (code c) 13) && no_line_break rest
  end.

Definition fits (line : string) : Prop :=
  no_line_break line = true /\ Z.of_nat (String.length line) < MaxScanTokenSize.

(** ** Observing the loop

    [spy cb] is [cb] together with a record of the arguments it was called
    with, in call order: the number and order of invocations of a callback
    are read off that record. *)
Definition spy {T S} (cb : callback T S) : callback T (S * list T) :=
  fun x st =>
    let '(st', r) := cb x (fst st) in ((st', (snd st ++ [x])%list), r).

(** What a line carries: the text after the prefix, for a data line. *)
Definition payload (line : string) : option string :=
  if HasPrefix line "data: " then Some (TrimPrefix line "data: ") else None.

Definition payloads (lines : list string) : list string := omap payload lines.

(** [cb] returns nil on each of [xs], called in turn from state [st]. *)
Fixpoint accepts {T S} (cb : callback T S) (xs : list T) (st : S) : bool :=
  match xs with
  | [] => true
  | x :: xs' =>
      match cb x st with
      | (st', None) => accepts cb xs' st'
      | (_, Some _) => false
      end
  end.

(** The caller's state after [cb] ran on each of [xs]. *)
Fixpoint final_state {T S} (cb : callback T S) (xs : list T) (st : S) : S :=
  match xs with
  | [] => st
  | x :: xs' => final_state cb xs' (fst (cb x st))
  end.

(** The loop as the payloads see it: what [stream_loop] does with the data
    lines once the other lines are set aside. *)
Fixpoint feed {S} (cb : callback string S) (ds : list string) (st : S) : S * loop_exit :=
  match ds with
  | [] => (st, ScanEnded)
  | d :: rest =>
      if String.eqb d "[DONE]" then (st, Returned None)
      else match cb d st with
           | (st', Some err) => (st', Returned (Some err))
           | (st', None) => feed cb rest st'
           end
  end.

Fixpoint no_line_feed (s : string) : bool :=
  match s with
  | EmptyString => true
  | String c rest => negb (Z.eqb (code c) 10) && no_line_feed rest
  end.

(** The same lines ended by a carriage return and a line feed. *)
Definition crlf : string := String (byte 13) (String (byte 10) EmptyString).

Fixpoint body_of_lines_crlf (lines : list string) : string :=
  match lines with
  | [] => EmptyString
  | line :: rest => line +:+ crlf +:+ body_of_lines_crlf rest
  end.

Section Transport.

(** [http.Client.Do]. *)
Variable transport : Request -> result Response.

(** Every call returns, next to its own results, the requests it handed
    to the transport. *)
Definition doStream {S} (req : Request) (cb : callback string S) (st : S)
  : list Request * (S * option error) :=
  match transport req with
  | Err err => ([req], (st, Some err))
  | Ok resp =>
      if negb (Z.eqb (StatusCode resp) StatusOK) then
        ([req], (st, Some (Errorf "API error with status code: %d"
                                  [ArgInt (StatusCode resp)])))
      else
        let '(lines, scan_err) := Scanner resp in
        match stream_loop cb lines st with
        | (st', Returned r) => ([req], (st', r))
        | (st', ScanEnded) =>
            if errors_Is scan_err EOF_target then ([req], (st', None))
            else match scan_err with
                 | Some err => ([req], (st', Some err))
                 | None => ([req], (st', None))
                 end
        end
  end.

End Transport.

(* ===================================================================== *)
(** * Calls: the requests sent and the result (a writer over [result]) *)
(* ===================================================================== *)

Definition IO (A : Type) : Type := (list Request * result A)%type.

Definition ret {A} (a : A) : IO A := ([], Ok a).
Definition fail {A} (e : error) : IO A := ([], Err e).
Definition lift {A} (r : result A) : IO A := ([], r).

Definition bind {A B} (m : IO A) (f : A -> IO B) : IO B :=
  match m with
  | (sent, Ok a) => let '(sent', r) := f a in ((sent ++ sent')%list, r)
  | (sent, Err e) => (sent, Err e)
  end.

Notation "'let*' x := m 'in' k" := (bind m (fun x => k))
  (at level 10, x name, m at level 100, k at level 200).

(** [fmt.Errorf(format, err)] around a failed step. *)
Definition wrap {A} (format : string) (r : result A) : result A :=
  match r with
  | Ok a => Ok a
  | Err e => Err (Errorf format [ArgErr e])
  end.

Definition wrap_io {A} (format : string) (m : IO A) : IO A :=
  (fst m, wrap format (snd m)).

Definition sent {A} (m : IO A) : list Request := fst m.
Definition outcome {A} (m : IO A) : result A := snd m.

(* ===================================================================== *)
(** * Decoding a response body *)
(* ===================================================================== *)

(** How [encoding/json] binds a JSON value to a Go value of type [T]
    (its reflection-driven struct decoding) is an interface here. *)
Class Unmarshal (T : Type) : Type := unmarshal : json -> result T.

(** [json.NewDecoder(resp.Body).Decode]: the first value of the body.  An
    object or an array ends at its closing bracket, and what follows is not
    looked at; any other value has to be followed by white space or by the
    end of the stream (a read error there is returned instead). *)
Definition Decode_value (resp : Response) : result json :=
  match json_parse_prefix (Body resp) with
  | Some (JObj fields, _) => Ok (JObj fields)
  | Some (JArr l, _) => Ok (JArr l)
  | Some (v, EmptyString) =>
      match BodyErr resp with
      | None | Some EOF => Ok v
      | Some e => Err e
      end
  | Some (v, String c _) =>
      if is_space c then Ok v
      else Err (SyntaxError "invalid character after top-level value")
  | None =>
      (* no complete value: the read error if there is one, io.EOF for an
         empty body, otherwise an error of the decoder (a syntax error or
         an unexpected end, not told apart here) *)
      match BodyErr resp with
      | Some e => Err e
      | None =>
          match skip_ws (Body resp) with
          | EmptyString => Err EOF
          | String _ _ => Err (SyntaxError "invalid JSON")
          end
      end
  end.


(** The map an object fills: a repeated key keeps its last value. *)
Definition gomap_of_fields (fields : list (string * json)) : gomap :=
  fold_left (fun m kv => map_set (fst kv) (snd kv) m) fields [].

(** [Decode(&errResp)] with [errResp map[string]interface{}]: an object
    fills the map, [null] leaves it nil, anything else is a type error. *)
Definition Decode_map (resp : Response) : result gomap :=
  match Decode_value resp with
  | Ok (JObj fields) => Ok (gomap_of_fields fields)
  | Ok JNull => Ok []
  | Ok _ => Err (UnmarshalTypeError "cannot unmarshal into Go value of type map[string]interface {}")
  | Err e => Err e
  end.

Definition Decode_into {T} `{Unmarshal T} (resp : Response) : result T :=
  match Decode_value resp with
  | Ok v => unmarshal v
  | Err e => Err e
  end.

(** [json.Unmarshal(data, &v)]. *)
Definition Unmarshal_into {T} `{Unmarshal T} (data : string) : result T :=
  match json_parse data with
  | Some v => unmarshal v
  | None => Err (SyntaxError "invalid JSON")
  end.

(** The closure [VLMStream] and [DeepSearchStream] hand to [doStream]:
    decode the payload as a chunk, then call the caller's callback. *)
Definition chunk_callback {T} `{Unmarshal T} {S} (cb : callback T S) : callback string S :=
  fun data st =>
    match Unmarshal_into data with
    | Err err => (st, Some (Errorf "failed to unmarshal chunk: %w" [ArgErr err]))
    | Ok chunk => cb chunk st
    end.

(** The error the JSON endpoints make of a response whose status is not
    200 (each of them repeats these lines). *)
Definition remote_error (resp : Response) : error :=
  match Decode_map resp with
  | Ok errResp => Errorf "API error: %v" [ArgMap errResp]
  | Err _ => Errorf "API error with status code: %d" [ArgInt (StatusCode resp)]
  end.

(** What a JSON endpoint makes of the transport's answer. *)
Definition json_endpoint_outcome {T} `{Unmarshal T} (answer : result Response) : result T :=
  match answer with
  | Err err => Err err
  | Ok resp =>
      if negb (Z.eqb (StatusCode resp) StatusOK) then Err (remote_error resp)
      else wrap "failed to decode response: %w" (Decode_into resp)
  end.


(** [io.ReadAll(resp.Body)]. *)
Definition ReadAll (resp : Response) : string * option error :=
  (Body resp, match BodyErr resp with
              | Some EOF => None
              | other => other
              end).

(* ===================================================================== *)
(** * Client configuration (client.go) *)
(* ===================================================================== *)

Module client.

Record config : Type := {
  APIKey       : string;
  EUCompliance : bool
}.

Definition defaultConfig : config :=
  {| APIKey := EmptyString; EUCompliance := false |}.

Definition Option := config -> config.

Record Client : Type := { cfg : config }.

Definition NewClient (options : list Option) : Client :=
  {| cfg := fold_left (fun c option => option c) options defaultConfig |}.

Definition WithAPIKey (apiKey : string) : Option :=
  fun c => {| APIKey := apiKey; EUCompliance := EUCompliance c |}.

Definition WithEUCompliance : Option :=
  fun c => {| APIKey := APIKey c; EUCompliance := true |}.

(** The options the package offers, as data. *)
Inductive setting : Type :=
| Key (apiKey : string)
| EU.

Definition option_of (s : setting) : Option :=
  match s with
  | Key apiKey => WithAPIKey apiKey
  | EU => WithEUCompliance
  end.

Definition is_EU (s : setting) : bool :=
  match s with
  | EU => true
  | Key _ => false
  end.

End client.

Definition Client : Type := client.Client.

(** The three header lines every JSON endpoint repeats. *)
Definition json_headers (cl : Client) (accept : string) (httpReq : Request) : Request :=
  let httpReq := with_header (Header_Set "Content-Type" "application/json") httpReq in
  let httpReq := with_header (Header_Set "Accept" accept) httpReq in
  if nonempty (client.APIKey (client.cfg cl))
  then with_header (Header_Set "Authorization" ("Bearer " +:+ client.APIKey (client.cfg cl))) httpReq
  else httpReq.

Definition add_if (cond : bool) (k v : string) (h : Header) : Header :=
  if cond then Header_Add k v h else h.

(** The header lines of a table, applied in order. *)
Definition add_table (table : list (bool * string * string)) (h : Header) : Header :=
  fold_left (fun h e => add_if (fst (fst e)) (snd (fst e)) (snd e) h) table h.

(** [strconv.Itoa] and [fmt.Sprintf] with the verb [%d]. *)
Definition Itoa (n : Z) : string := pretty n.

(** [client.Do(httpReq)], the one place a request leaves the process. *)
Definition Do (transport : Request -> result Response) (httpReq : Request) : IO Response :=
  ([httpReq], transport httpReq).

(* ===================================================================== *)
(** * Segmenter: the token decoder (segmenter.go) *)
(* ===================================================================== *)

Module Segmenter.

Record Token : Type := {
  Text : string;
  IDs  : slice Z
}.

(** [json.Unmarshal(data, &raw)] with [raw []interface{}]. *)
Definition Unmarshal_slice (data : string) : result (slice json) :=
  match json_parse data with
  | None => Err (SyntaxError "invalid JSON")
  | Some (JArr l) => Ok (Some l)
  | Some JNull => Ok None
  | Some _ => Err (UnmarshalTypeError "cannot unmarshal into Go value of type []interface {}")
  end.

(** The loop over [idsRaw]: [ids[i] = int(idFloat)], or the first element
    that is not a number. *)
Fixpoint fill_ids (idsRaw : list json) (i : nat) (ids : list Z) : list Z * option error :=
  match idsRaw with
  | [] => (ids, None)
  | JNum m e :: rest => fill_ids rest (S i) (<[i := int_of_number m e]> ids)
  | _ :: _ => (ids, Some (Errorf "invalid token ID: not a number" []))
  end.

(** The method has a pointer receiver: it returns the token it leaves
    behind and the error. *)
Definition UnmarshalJSON (t : Token) (data : string) : Token * option error :=
  match Unmarshal_slice data with
  | Err err => (t, Some err)
  | Ok raw =>
      if negb (Z.eqb (len raw) 2) then
        (t, Some (Errorf "invalid token format: expected 2 elements, got %d" [ArgInt (len raw)]))
      else
        match elems raw with
        | raw0 :: raw1 :: _ =>
            match raw0 with
            | JStr text =>
                let t := {| Text := text; IDs := IDs t |} in
                match raw1 with
                | JArr idsRaw =>
                    let '(ids, err) := fill_ids idsRaw 0 (replicate (length idsRaw) 0) in
                    ({| Text := Text t; IDs := Some ids |}, err)
                | _ => (t, Some (Errorf "invalid token format: second element is not array" []))
                end
            | _ => (t, Some (Errorf "invalid token format: first element is not string" []))
            end
        | _ => (t, None)
        end
  end.

Record SegmenterRequest : Type := {
  Content        : string;   (* `json:"content"` *)
  Tokenizer      : string;   (* `json:"tokenizer,omitempty"` *)
  ReturnTokens   : bool;     (* `json:"return_tokens,omitempty"` *)
  ReturnChunks   : bool;     (* `json:"return_chunks,omitempty"` *)
  MaxChunkLength : Z;        (* `json:"max_chunk_length,omitempty"` *)
  Head           : Z;        (* `json:"head,omitempty"` *)
  Tail           : Z         (* `json:"tail,omitempty"` *)
}.

Definition Marshal (req : SegmenterRequest) : result json :=
  Ok (JObj ([("content", JStr (Content req))]
            ++ omitempty_str "tokenizer" (Tokenizer req)
            ++ omitempty_bool "return_tokens" (ReturnTokens req)
            ++ omitempty_bool "return_chunks" (ReturnChunks req)
            ++ omitempty_int "max_chunk_length" (MaxChunkLength req)
            ++ omitempty_int "head" (Head req)
            ++ omitempty_int "tail" (Tail req))%list).

Section Call.
Variable transport : Request -> result Response.
Context {SegmenterResponse : Type} {decoder : Unmarshal SegmenterResponse}.

Definition Segment (cl : Client) (req : SegmenterRequest) : IO SegmenterResponse :=
  let url := "https://segment.jina.ai/" in
  let* jsonData := lift (wrap "failed to marshal request: %w" (Marshal req)) in
  let httpReq := json_headers cl "application/json" (NewRequest url jsonData) in
  let* resp := Do transport httpReq in
  if negb (Z.eqb (StatusCode resp) StatusOK) then
    match Decode_map resp with
    | Ok errResp => fail (Errorf "API error: %v" [ArgMap errResp])
    | Err _ => fail (Errorf "API error with status code: %d" [ArgInt (StatusCode resp)])
    end
  else lift (wrap "failed to decode response: %w" (Decode_into resp)).

End Call.



(** The shapes [UnmarshalJSON] asks for. *)
Definition is_string (v : json) : bool :=
  match v with
  | JStr _ => true
  | _ => false
  end.

Definition is_number (v : json) : bool :=
  match v with
  | JNum _ _ => true
  | _ => false
  end.

Definition is_number_array (v : json) : bool :=
  match v with
  | JArr l => forallb is_number l
  | _ => false
  end.

End Segmenter.

(* ===================================================================== *)
(** * Classification (classification.go) *)
(* ===================================================================== *)

Module Classification.

Record ClassificationInput : Type := {
  Text  : string;
  Image : string
}.

Definition MarshalJSON (c : ClassificationInput) : json :=
  if nonempty (Image c) then JObj (map_set "image" (JStr (Image c)) [])
  else JStr (Text c).

Definition NewClassificationInputText (text : string) : ClassificationInput :=
  {| Text := text; Image := EmptyString |}.

Definition NewClassificationInputImage (imageURLOrBase64 : string) : ClassificationInput :=
  {| Text := EmptyString; Image := imageURLOrBase64 |}.

Record ClassificationRequest : Type := {
  Model        : string;                       (* `json:"model,omitempty"` *)
  ClassifierID : string;                       (* `json:"classifier_id,omitempty"` *)
  Input        : slice ClassificationInput;    (* `json:"input"` *)
  Labels       : slice string                  (* `json:"labels"` *)
}.

Definition Marshal (req : ClassificationRequest) : result json :=
  Ok (JObj (omitempty_str "model" (Model req)
            ++ omitempty_str "classifier_id" (ClassifierID req)
            ++ [("input", json_of_slice MarshalJSON (Input req));
                ("labels", json_of_slice JStr (Labels req))])%list).

Section Call.
Variable transport : Request -> result Response.
Context {ClassificationResponse : Type} {decoder : Unmarshal ClassificationResponse}.

Definition Classify (cl : Client) (req : ClassificationRequest) : IO ClassificationResponse :=
  let url := "https://api.jina.ai/v1/classify" in
  let* jsonData := lift (wrap "failed to marshal request: %w" (Marshal req)) in
  let httpReq := json_headers cl "application/json" (NewRequest url jsonData) in
  let* resp := Do transport httpReq in
  if negb (Z.eqb (StatusCode resp) StatusOK) then
    match Decode_map resp with
    | Ok errResp => fail (Errorf "API error: %v" [ArgMap errResp])
    | Err _ => fail (Errorf "API error with status code: %d" [ArgInt (StatusCode resp)])
    end
  else lift (wrap "failed to decode response: %w" (Decode_into resp)).

End Call.

End Classification.

(* ===================================================================== *)
(** * Rerank *)
(* ===================================================================== *)

Module Rerank.

Record RerankInput : Type := {
  Text  : string;    (* `json:"text,omitempty"` *)
  Image : string     (* `json:"image,omitempty"` *)
}.

Record RerankRequest : Type := {
  Model           : string;
  Query           : string;
  Documents       : slice string;
  QueryInput      : option RerankInput;     (* *RerankInput *)
  DocumentsInput  : slice RerankInput;
  TopN            : Z;
  ReturnDocuments : option bool             (* *bool *)
}.

(** The default struct encoding of [RerankInput]. *)
Definition RerankInput_json (i : RerankInput) : json :=
  JObj (omitempty_str "text" (Text i) ++ omitempty_str "image" (Image i))%list.

Definition MarshalJSON (r : RerankRequest) : json :=
  let data : gomap := [] in
  let data := map_set "model" (JStr (Model r)) data in
  let data := if Z.ltb 0 (TopN r) then map_set "top_n" (JInt (TopN r)) data else data in
  let data := match ReturnDocuments r with
              | Some b => map_set "return_documents" (JBool b) data
              | None => data
              end in
  let data := match QueryInput r with
              | Some qi => map_set "query" (RerankInput_json qi) data
              | None => map_set "query" (JStr (Query r)) data
              end in
  let data := if Z.ltb 0 (len (DocumentsInput r))
              then map_set "documents" (json_of_slice RerankInput_json (DocumentsInput r)) data
              else map_set "documents" (json_of_slice JStr (Documents r)) data in
  JObj data.

Section Call.
Variable transport : Request -> result Response.
Context {RerankResponse : Type} {decoder : Unmarshal RerankResponse}.

Definition Rerank (cl : Client) (req : RerankRequest) : IO RerankResponse :=
  let url := "https://api.jina.ai/v1/rerank" in
  let* jsonData := lift (wrap "failed to marshal request: %w" (Ok (MarshalJSON req))) in
  let httpReq := json_headers cl "application/json" (NewRequest url jsonData) in
  let* resp := Do transport httpReq in
  if negb (Z.eqb (StatusCode resp) StatusOK) then
    match Decode_map resp with
    | Ok errResp => fail (Errorf "API error: %v" [ArgMap errResp])
    | Err _ => fail (Errorf "API error with status code: %d" [ArgInt (StatusCode resp)])
    end
  else lift (wrap "failed to decode response: %w" (Decode_into resp)).

End Call.

End Rerank.

(* ===================================================================== *)
(** * Vision-language chat: VLM and VLMStream *)
(* ===================================================================== *)

Module VLM.

Definition VLMModelDefault : string := "jina-vlm".

Record VLMImageURL : Type := { URL : string }.

Record VLMContentPart : Type := {
  Type_    : string;                 (* `json:"type"` *)
  PartText : string;                 (* Text, `json:"text,omitempty"` *)
  ImageURL : option VLMImageURL      (* `json:"image_url,omitempty"` *)
}.

Record VLMMessageContent : Type := {
  Text  : string;
  Parts : slice VLMContentPart
}.

Record VLMMessage : Type := {
  Role    : string;
  Content : VLMMessageContent
}.

Record VLMRequest : Type := {
  Model    : string;                 (* `json:"model"` *)
  Messages : slice VLMMessage;       (* `json:"messages"` *)
  Stream   : bool                    (* `json:"stream,omitempty"` *)
}.

Definition VLMContentPart_json (p : VLMContentPart) : json :=
  JObj ([("type", JStr (Type_ p))]
        ++ omitempty_str "text" (PartText p)
        ++ match ImageURL p with
           | Some u => [("image_url", JObj [("url", JStr (URL u))])]
           | None => []
           end)%list.

(** [VLMMessageContent.MarshalJSON]. *)
Definition MarshalJSON (c : VLMMessageContent) : json :=
  if Z.ltb 0 (len (Parts c)) then json_of_slice VLMContentPart_json (Parts c)
  else JStr (Text c).

Definition VLMMessage_json (m : VLMMessage) : json :=
  JObj [("role", JStr (Role m)); ("content", MarshalJSON (Content m))].

Definition NewVLMMessage (role text : string) : VLMMessage :=
  {| Role := role; Content := {| Text := text; Parts := None |} |}.


(** ** Decoding message content

    How [encoding/json] binds a JSON value to the Go types of this file.  A
    member selects the field whose JSON name it equals up to the case of
    ASCII letters (no name here has a letter with another fold); members
    that select no field are skipped.  A value of the wrong kind makes
    [json.Unmarshal] return an error, and [UnmarshalJSON] below only looks
    at whether it did: [None] stands for that error. *)

Fixpoint lower (s : string) : string :=
  match s with
  | EmptyString => EmptyString
  | String c rest => String (to_lower c) (lower rest)
  end.

Definition selects (name key : string) : bool := String.eqb (lower key) name.

(** Into a [string]: a JSON string is stored, [null] changes nothing. *)
Definition decode_string (v : json) (cur : string) : option string :=
  match v with
  | JStr s => Some s
  | JNull => Some cur
  | _ => None
  end.

Fixpoint decode_VLMImageURL (fields : list (string * json)) (cur : VLMImageURL)
  : option VLMImageURL :=
  match fields with
  | [] => Some cur
  | (k, v) :: rest =>
      if selects "url" k then
        match decode_string v (URL cur) with
        | Some u => decode_VLMImageURL rest {| URL := u |}
        | None => None
        end
      else decode_VLMImageURL rest cur
  end.

(** Into a [*VLMImageURL]: [null] sets the pointer to nil, an object fills
    the struct the pointer holds (a new one when it is nil). *)
Definition decode_ImageURL (v : json) (cur : option VLMImageURL)
  : option (option VLMImageURL) :=
  match v with
  | JNull => Some None
  | JObj fields =>
      match decode_VLMImageURL fields (default {| URL := EmptyString |} cur) with
      | Some u => Some (Some u)
      | None => None
      end
  | _ => None
  end.

Fixpoint decode_VLMContentPart (fields : list (string * json)) (cur : VLMContentPart)
  : option VLMContentPart :=
  match fields with
  | [] => Some cur
  | (k, v) :: rest =>
      if selects "type" k then
        match decode_string v (Type_ cur) with
        | Some t => decode_VLMContentPart rest
                      {| Type_ := t; PartText := PartText cur; ImageURL := ImageURL cur |}
        | None => None
        end
      else if selects "text" k then
        match decode_string v (PartText cur) with
        | Some t => decode_VLMContentPart rest
                      {| Type_ := Type_ cur; PartText := t; ImageURL := ImageURL cur |}
        | None => None
        end
      else if selects "image_url" k then
        match decode_ImageURL v (ImageURL cur) with
        | Some u => decode_VLMContentPart rest
                      {| Type_ := Type_ cur; PartText := PartText cur; ImageURL := u |}
        | None => None
        end
      else decode_VLMContentPart rest cur
  end.

Definition zero_part : VLMContentPart :=
  {| Type_ := EmptyString; PartText := EmptyString; ImageURL := None |}.

(** One element of the array, into a fresh element of the slice. *)
Definition decode_part (v : json) : option VLMContentPart :=
  match v with
  | JObj fields => decode_VLMContentPart fields zero_part
  | JNull => Some zero_part
  | _ => None
  end.

Fixpoint decode_elements (l : list json) : option (list VLMContentPart) :=
  match l with
  | [] => Some []
  | v :: rest =>
      match decode_part v, decode_elements rest with
      | Some p, Some ps => Some (p :: ps)
      | _, _ => None
      end
  end.

(** Into a [[]VLMContentPart] that is nil. *)
Definition decode_parts (v : json) : option (slice VLMContentPart) :=
  match v with
  | JArr l =>
      match decode_elements l with
      | Some ps => Some (Some ps)
      | None => None
      end
  | JNull => Some None
  | _ => None
  end.

(** [VLMMessageContent.UnmarshalJSON]: the receiver it leaves and the
    error.  Bytes that are not JSON fail both attempts. *)
Definition UnmarshalJSON (c : VLMMessageContent) (data : string)
  : VLMMessageContent * option error :=
  match match json_parse data with
        | Some v => decode_string v EmptyString
        | None => None
        end
  with
  | Some text => ({| Text := text; Parts := Parts c |}, None)
  | None =>
      match match json_parse data with
            | Some v => decode_parts v
            | None => None
            end
      with
      | Some parts => ({| Text := Text c; Parts := parts |}, None)
      | None => (c, Some (Errorf "invalid VLMMessageContent: not a string or array of parts" []))
      end
  end.

Definition Marshal (req : VLMRequest) : result json :=
  Ok (JObj ([("model", JStr (Model req));
             ("messages", json_of_slice VLMMessage_json (Messages req))]
            ++ omitempty_bool "stream" (Stream req))%list).

Definition set_Model (m : string) (req : VLMRequest) : VLMRequest :=
  {| Model := m; Messages := Messages req; Stream := Stream req |}.

Definition set_Stream (b : bool) (req : VLMRequest) : VLMRequest :=
  {| Model := Model req; Messages := Messages req; Stream := b |}.

Section Call.
Variable transport : Request -> result Response.
Context {VLMResponse : Type} {decoder : Unmarshal VLMResponse}.

Definition VLM (cl : Client) (req : VLMRequest) : IO VLMResponse :=
  let url := "https://api-beta-vlm.jina.ai/v1/chat/completions" in
  let req := if nonempty (Model req) then req else set_Model VLMModelDefault req in
  let req := set_Stream false req in
  let* jsonData := lift (wrap "failed to marshal request: %w" (Marshal req)) in
  let httpReq := json_headers cl "application/json" (NewRequest url jsonData) in
  let* resp := Do transport httpReq in
  if negb (Z.eqb (StatusCode resp) StatusOK) then
    match Decode_map resp with
    | Ok errResp => fail (Errorf "API error: %v" [ArgMap errResp])
    | Err _ => fail (Errorf "API error with status code: %d" [ArgInt (StatusCode resp)])
    end
  else lift (wrap "failed to decode response: %w" (Decode_into resp)).

Definition VLMStream {S} (cl : Client) (req : VLMRequest)
           (cb : callback VLMResponse S) (st : S)
  : list Request * (S * option error) :=
  let url := "https://api-beta-vlm.jina.ai/v1/chat/completions" in
  let req := if nonempty (Model req) then req else set_Model VLMModelDefault req in
  let req := set_Stream true req in
  match Marshal req with
  | Err err => ([], (st, Some (Errorf "failed to marshal request: %w" [ArgErr err])))
  | Ok jsonData =>
      let httpReq := json_headers cl "text/event-stream" (NewRequest url jsonData) in
      doStream transport httpReq (chunk_callback cb) st
  end.

End Call.

End VLM.

(* ===================================================================== *)
(** * DeepSearch (deepsearch.go) *)
(* ===================================================================== *)

Module DeepSearch.

Definition DeepSearchModelDefault : string := "jina-deepsearch-v1".

Record DeepSearchResponseFormat : Type := {
  Type_      : string;          (* `json:"type"` *)
  JSONSchema : slice ascii      (* json.RawMessage, `json:"json_schema"` *)
}.

Record DeepSearchRequest : Type := {
  Model           : string;                            (* `json:"model"` *)
  Messages        : slice VLM.VLMMessage;              (* `json:"messages"` *)
  Stream          : bool;                              (* `json:"stream,omitempty"` *)
  ReasoningEffort : string;                            (* `json:"reasoning_effort,omitempty"` *)
  BudgetTokens    : Z;                                 (* `json:"budget_tokens,omitempty"` *)
  MaxAttempts     : Z;                                 (* `json:"max_attempts,omitempty"` *)
  NoDirectAnswer  : bool;                              (* `json:"no_direct_answer,omitempty"` *)
  MaxReturnedURLs : Z;                                 (* `json:"max_returned_urls,omitempty"` *)
  ResponseFormat  : option DeepSearchResponseFormat;   (* `json:"response_format,omitempty"` *)
  BoostHostnames  : slice string                       (* `json:"boost_hostnames,omitempty"` *)
}.

(** [json.RawMessage]: nil is written [null]; other bytes have to be valid
    JSON and are written as they are. *)
Definition RawMessage_json (m : slice ascii) : result json :=
  match m with
  | None => Ok JNull
  | Some bytes =>
      match json_parse (string_of_list_ascii bytes) with
      | Some v => Ok v
      | None => Err (MarshalerError "json: error calling MarshalJSON for type json.RawMessage")
      end
  end.

Definition Marshal (req : DeepSearchRequest) : result json :=
  match match ResponseFormat req with
        | None => Ok []
        | Some rf =>
            match RawMessage_json (JSONSchema rf) with
            | Ok schema =>
                Ok [("response_format",
                     JObj [("type", JStr (Type_ rf)); ("json_schema", schema)])]
            | Err e => Err e
            end
        end
  with
  | Err e => Err e
  | Ok response_format =>
      Ok (JObj ([("model", JStr (Model req));
                 ("messages", json_of_slice VLM.VLMMessage_json (Messages req))]
                ++ omitempty_bool "stream" (Stream req)
                ++ omitempty_str "reasoning_effort" (ReasoningEffort req)
                ++ omitempty_int "budget_tokens" (BudgetTokens req)
                ++ omitempty_int "max_attempts" (MaxAttempts req)
                ++ omitempty_bool "no_direct_answer" (NoDirectAnswer req)
                ++ omitempty_int "max_returned_urls" (MaxReturnedURLs req)
                ++ response_format
                ++ (if Z.ltb 0 (len (BoostHostnames req))
                    then [("boost_hostnames", json_of_slice JStr (BoostHostnames req))]
                    else []))%list)
  end.

Definition set_Model (m : string) (req : DeepSearchRequest) : DeepSearchRequest :=
  {| Model := m; Messages := Messages req; Stream := Stream req;
     ReasoningEffort := ReasoningEffort req; BudgetTokens := BudgetTokens req;
     MaxAttempts := MaxAttempts req; NoDirectAnswer := NoDirectAnswer req;
     MaxReturnedURLs := MaxReturnedURLs req; ResponseFormat := ResponseFormat req;
     BoostHostnames := BoostHostnames req |}.

Definition set_Stream (b : bool) (req : DeepSearchRequest) : DeepSearchRequest :=
  {| Model := Model req; Messages := Messages req; Stream := b;
     ReasoningEffort := ReasoningEffort req; BudgetTokens := BudgetTokens req;
     MaxAttempts := MaxAttempts req; NoDirectAnswer := NoDirectAnswer req;
     MaxReturnedURLs := MaxReturnedURLs req; ResponseFormat := ResponseFormat req;
     BoostHostnames := BoostHostnames req |}.

Section Call.
Variable transport : Request -> result Response.
Context {DeepSearchResponse : Type} {decoder : Unmarshal DeepSearchResponse}.

Definition DeepSearch (cl : Client) (req : DeepSearchRequest) : IO DeepSearchResponse :=
  let url := "https://deepsearch.jina.ai/v1/chat/completions" in
  let req := if nonempty (Model req) then req else set_Model DeepSearchModelDefault req in
  let req := set_Stream false req in
  let* jsonData := lift (wrap "failed to marshal request: %w" (Marshal req)) in
  let httpReq := json_headers cl "application/json" (NewRequest url jsonData) in
  let* resp := Do transport httpReq in
  if negb (Z.eqb (StatusCode resp) StatusOK) then
    match Decode_map resp with
    | Ok errResp => fail (Errorf "API error: %v" [ArgMap errResp])
    | Err _ => fail (Errorf "API error with status code: %d" [ArgInt (StatusCode resp)])
    end
  else lift (wrap "failed to decode response: %w" (Decode_into resp)).

Definition DeepSearchStream {S} (cl : Client) (req : DeepSearchRequest)
           (cb : callback DeepSearchResponse S) (st : S)
  : list Request * (S * option error) :=
  let url := "https://deepsearch.jina.ai/v1/chat/completions" in
  let req := if nonempty (Model req) then req else set_Model DeepSearchModelDefault req in
  let req := set_Stream true req in
  match Marshal req with
  | Err err => ([], (st, Some (Errorf "failed to marshal request: %w" [ArgErr err])))
  | Ok jsonData =>
      let httpReq := json_headers cl "text/event-stream" (NewRequest url jsonData) in
      doStream transport httpReq (chunk_callback cb) st
  end.

End Call.

End DeepSearch.

(* ===================================================================== *)
(** * Reader *)
(* ===================================================================== *)

Module Reader.

(** The struct [Viewport]; the name is taken by the field of
    [ReaderRequest] below. *)
Record Viewport_t : Type := {
  Width  : Z;
  Height : Z
}.

(** Of the fields below only [URL], [Viewport] and [InjectPageScript] are
    part of the JSON body; the others are tagged [json:"-"] and travel as
    headers. *)
Record ReaderRequest : Type := {
  URL                  : string;
  Viewport             : option Viewport_t;
  InjectPageScript     : string;
  JSONResponse         : bool;
  BrowserEngine        : string;
  ContentFormat        : string;
  Timeout              : Z;
  TargetSelector       : string;
  WaitForSelector      : string;
  RemoveSelector       : string;
  GatherLinks          : string;
  GatherImages         : string;
  ImageCaption         : bool;
  BypassCachedContent  : bool;
  WithIframe           : bool;
  TokenBudget          : Z;
  RemoveAllImages      : bool;
  RespondWith          : string;
  SetCookie            : string;
  ProxyURL             : string;
  ProxyCountry         : string;
  DNT                  : Z;
  NoGfm                : string;
  BrowserLocale        : string;
  RobotsTxt            : string;
  WithShadowDom        : bool;
  Base                 : string;
  MdHeadingStyle       : string;
  MdHr                 : string;
  MdBulletListMarker   : string;
  MdEmDelimiter        : string;
  MdStrongDelimiter    : string;
  MdLinkStyle          : string;
  MdLinkReferenceStyle : string;
  EUCompliance         : bool
}.

Definition set_EUCompliance (b : bool) (req : ReaderRequest) : ReaderRequest :=
  {| URL := URL req; Viewport := Viewport req;
     InjectPageScript := InjectPageScript req;
     JSONResponse := JSONResponse req; BrowserEngine := BrowserEngine req;
     ContentFormat := ContentFormat req; Timeout := Timeout req;
     TargetSelector := TargetSelector req;
     WaitForSelector := WaitForSelector req;
     RemoveSelector := RemoveSelector req; GatherLinks := GatherLinks req;
     GatherImages := GatherImages req; ImageCaption := ImageCaption req;
     BypassCachedContent := BypassCachedContent req;
     WithIframe := WithIframe req; TokenBudget := TokenBudget req;
     RemoveAllImages := RemoveAllImages req; RespondWith := RespondWith req;
     SetCookie := SetCookie req; ProxyURL := ProxyURL req;
     ProxyCountry := ProxyCountry req; DNT := DNT req; NoGfm := NoGfm req;
     BrowserLocale := BrowserLocale req; RobotsTxt := RobotsTxt req;
     WithShadowDom := WithShadowDom req; Base := Base req;
     MdHeadingStyle := MdHeadingStyle req; MdHr := MdHr req;
     MdBulletListMarker := MdBulletListMarker req;
     MdEmDelimiter := MdEmDelimiter req;
     MdStrongDelimiter := MdStrongDelimiter req;
     MdLinkStyle := MdLinkStyle req;
     MdLinkReferenceStyle := MdLinkReferenceStyle req; EUCompliance := b |}.

Definition Marshal (req : ReaderRequest) : result json :=
  Ok (JObj ([("url", JStr (URL req))]
            ++ match Viewport req with
               | Some v => [("viewport", JObj [("width", JInt (Width v));
                                               ("height", JInt (Height v))])]
               | None => []
               end
            ++ omitempty_str "injectPageScript" (InjectPageScript req))%list).

Definition buildReaderURL (args : ReaderRequest) : string :=
  if EUCompliance args then "https://eu.r.jina.ai/" else "https://r.jina.ai/".

Definition setReaderHeaders (cl : Client) (httpReq : Request) (req : ReaderRequest) : Request :=
  with_header (fun h =>
    let h := Header_Add "Authorization" ("Bearer " +:+ client.APIKey (client.cfg cl)) h in
    let h := add_if (Z.ltb 0 (TokenBudget req)) "X-Token-Budget" (Itoa (TokenBudget req)) h in
    let h := add_if (nonempty (ContentFormat req)) "X-Return-Format" (ContentFormat req) h in
    let h := add_if (nonempty (BrowserEngine req)) "X-Engine" (BrowserEngine req) h in
    let h := add_if (Z.ltb 0 (Timeout req)) "X-Timeout" (Itoa (Timeout req)) h in
    let h := add_if (nonempty (GatherLinks req)) "X-With-Links-Summary" (GatherLinks req) h in
    let h := add_if (RemoveAllImages req) "X-Retain-Images" ("none") h in
    let h := add_if (nonempty (GatherImages req)) "X-With-Images-Summary" (GatherImages req) h in
    let h := add_if (ImageCaption req) "X-With-Generated-Alt" ("true") h in
    let h := add_if (nonempty (ProxyCountry req)) "X-Proxy" (ProxyCountry req) h in
    let h := add_if (nonempty (ProxyURL req)) "X-Proxy-Url" (ProxyURL req) h in
    let h := add_if (nonempty (BrowserLocale req)) "X-Locale" (BrowserLocale req) h in
    let h := add_if (BypassCachedContent req) "X-No-Cache" ("true") h in
    let h := add_if (nonempty (TargetSelector req)) "X-Target-Selector" (TargetSelector req) h in
    let h := add_if (nonempty (WaitForSelector req)) "X-Wait-For-Selector" (WaitForSelector req) h in
    let h := add_if (nonempty (RemoveSelector req)) "X-Remove-Selector" (RemoveSelector req) h in
    let h := add_if (WithIframe req) "X-With-Iframe" ("true") h in
    let h := add_if (WithShadowDom req) "X-With-Shadow-Dom" ("true") h in
    let h := add_if (nonempty (RespondWith req)) "X-Respond-With" (RespondWith req) h in
    let h := add_if (nonempty (SetCookie req)) "X-Set-Cookie" (SetCookie req) h in
    let h := add_if (Z.ltb 0 (DNT req)) "DNT" (Itoa (DNT req)) h in
    let h := add_if (nonempty (NoGfm req)) "X-No-Gfm" (NoGfm req) h in
    let h := add_if (nonempty (RobotsTxt req)) "X-Robots-Txt" (RobotsTxt req) h in
    let h := add_if (nonempty (Base req)) "X-Base" (Base req) h in
    let h := add_if (nonempty (MdHeadingStyle req)) "X-Md-Heading-Style" (MdHeadingStyle req) h in
    let h := add_if (nonempty (MdHr req)) "X-Md-Hr" (MdHr req) h in
    let h := add_if (nonempty (MdBulletListMarker req)) "X-Md-Bullet-List-Marker" (MdBulletListMarker req) h in
    let h := add_if (nonempty (MdEmDelimiter req)) "X-Md-Em-Delimiter" (MdEmDelimiter req) h in
    let h := add_if (nonempty (MdStrongDelimiter req)) "X-Md-Strong-Delimiter" (MdStrongDelimiter req) h in
    let h := add_if (nonempty (MdLinkStyle req)) "X-Md-Link-Style" (MdLinkStyle req) h in
    let h := add_if (nonempty (MdLinkReferenceStyle req)) "X-Md-Link-Reference-Style" (MdLinkReferenceStyle req) h in
    let h := add_if (JSONResponse req) "Accept" ("application/json") h in
    h) httpReq.

(** The lines of [setReaderHeaders] read as a table: whether the header is
    added, its name, its value.  The first entry is the Authorization
    line, which has no condition. *)
Definition header_table (cl : Client) (req : ReaderRequest) : list (bool * string * string) :=
  [(true, "Authorization", "Bearer " +:+ client.APIKey (client.cfg cl));
   (Z.ltb 0 (TokenBudget req), "X-Token-Budget", Itoa (TokenBudget req));
   (nonempty (ContentFormat req), "X-Return-Format", ContentFormat req);
   (nonempty (BrowserEngine req), "X-Engine", BrowserEngine req);
   (Z.ltb 0 (Timeout req), "X-Timeout", Itoa (Timeout req));
   (nonempty (GatherLinks req), "X-With-Links-Summary", GatherLinks req);
   (RemoveAllImages req, "X-Retain-Images", "none");
   (nonempty (GatherImages req), "X-With-Images-Summary", GatherImages req);
   (ImageCaption req, "X-With-Generated-Alt", "true");
   (nonempty (ProxyCountry req), "X-Proxy", ProxyCountry req);
   (nonempty (ProxyURL req), "X-Proxy-Url", ProxyURL req);
   (nonempty (BrowserLocale req), "X-Locale", BrowserLocale req);
   (BypassCachedContent req, "X-No-Cache", "true");
   (nonempty (TargetSelector req), "X-Target-Selector", TargetSelector req);
   (nonempty (WaitForSelector req), "X-Wait-For-Selector", WaitForSelector req);
   (nonempty (RemoveSelector req), "X-Remove-Selector", RemoveSelector req);
   (WithIframe req, "X-With-Iframe", "true");
   (WithShadowDom req, "X-With-Shadow-Dom", "true");
   (nonempty (RespondWith req), "X-Respond-With", RespondWith req);
   (nonempty (SetCookie req), "X-Set-Cookie", SetCookie req);
   (Z.ltb 0 (DNT req), "DNT", Itoa (DNT req));
   (nonempty (NoGfm req), "X-No-Gfm", NoGfm req);
   (nonempty (RobotsTxt req), "X-Robots-Txt", RobotsTxt req);
   (nonempty (Base req), "X-Base", Base req);
   (nonempty (MdHeadingStyle req), "X-Md-Heading-Style", MdHeadingStyle req);
   (nonempty (MdHr req), "X-Md-Hr", MdHr req);
   (nonempty (MdBulletListMarker req), "X-Md-Bullet-List-Marker", MdBulletListMarker req);
   (nonempty (MdEmDelimiter req), "X-Md-Em-Delimiter", MdEmDelimiter req);
   (nonempty (MdStrongDelimiter req), "X-Md-Strong-Delimiter", MdStrongDelimiter req);
   (nonempty (MdLinkStyle req), "X-Md-Link-Style", MdLinkStyle req);
   (nonempty (MdLinkReferenceStyle req), "X-Md-Link-Reference-Style", MdLinkReferenceStyle req);
   (JSONResponse req, "Accept", "application/json")].

Section Call.
Variable transport : Request -> result Response.
Context {StructuredReaderResponse : Type} {decoder : Unmarshal StructuredReaderResponse}.

Record ReaderResponse : Type := {
    Text       : string;
    Structured : option StructuredReaderResponse
  }.

Definition parseReaderResponse (body : string) (jsonResponse : bool) : result ReaderResponse :=
  if jsonResponse then
    match Unmarshal_into body with
    | Err err => Err (Errorf "unmarshal response body: %w" [ArgErr err])
    | Ok structured => Ok {| Text := EmptyString; Structured := Some structured |}
    end
  else Ok {| Text := body; Structured := None |}.

Definition Reader (cl : Client) (req : ReaderRequest) : IO ReaderResponse :=
  if negb (nonempty (URL req)) then fail (Errorf "URL is required" [])
  else
    let req := if client.EUCompliance (client.cfg cl) then set_EUCompliance true req else req in
    let requestURL := buildReaderURL req in
    let* jsonData := lift (wrap "failed to marshal request: %w" (Marshal req)) in
    let httpReq := NewRequest requestURL jsonData in
    let httpReq := with_header (Header_Set "Content-Type" "application/json") httpReq in
    let httpReq := setReaderHeaders cl httpReq req in
    let* resp := wrap_io "do request: %w" (Do transport httpReq) in
    if negb (Z.eqb (StatusCode resp) StatusOK) then
      let body := fst (ReadAll resp) in
      fail (Errorf "API error: status %d, body: %s" [ArgInt (StatusCode resp); ArgStr body])
    else
      match ReadAll resp with
      | (_, Some err) => fail (Errorf "read response body: %w" [ArgErr err])
      | (body, None) => lift (parseReaderResponse body (JSONResponse req))
      end.

End Call.

End Reader.

(* ===================================================================== *)
(** * Search *)
(* ===================================================================== *)

Module Search.

(** [Query] to [PageOffset] are the JSON body; the others are headers. *)
Record SearchRequest : Type := {
  Query             : string;
  CountryCode       : string;
  Location          : string;
  LanguageCode      : string;
  MaxResults        : Z;
  PageOffset        : Z;
  JSONResponse      : bool;
  Site              : string;
  WithLinksSummary  : bool;
  WithImagesSummary : bool;
  RetainImages      : string;
  NoCache           : bool;
  WithGeneratedAlt  : bool;
  RespondWith       : string;
  WithFavicon       : bool;
  ReturnFormat      : string;
  Engine            : string;
  WithFavicons      : bool;
  Timeout           : Z;
  SetCookie         : string;
  ProxyURL          : string;
  Locale            : string;
  EUCompliance      : bool
}.

Definition set_EUCompliance (b : bool) (req : SearchRequest) : SearchRequest :=
  {| Query := Query req; CountryCode := CountryCode req;
     Location := Location req; LanguageCode := LanguageCode req;
     MaxResults := MaxResults req; PageOffset := PageOffset req;
     JSONResponse := JSONResponse req; Site := Site req;
     WithLinksSummary := WithLinksSummary req;
     WithImagesSummary := WithImagesSummary req;
     RetainImages := RetainImages req; NoCache := NoCache req;
     WithGeneratedAlt := WithGeneratedAlt req;
     RespondWith := RespondWith req; WithFavicon := WithFavicon req;
     ReturnFormat := ReturnFormat req; Engine := Engine req;
     WithFavicons := WithFavicons req; Timeout := Timeout req;
     SetCookie := SetCookie req; ProxyURL := ProxyURL req;
     Locale := Locale req; EUCompliance := b |}.

Definition Marshal (req : SearchRequest) : result json :=
  Ok (JObj ([("q", JStr (Query req))]
            ++ omitempty_str "gl" (CountryCode req)
            ++ omitempty_str "location" (Location req)
            ++ omitempty_str "hl" (LanguageCode req)
            ++ omitempty_int "num" (MaxResults req)
            ++ omitempty_int "page" (PageOffset req))%list).

Definition buildSearchURL (args : SearchRequest) : string :=
  if EUCompliance args then "https://eu.s.jina.ai/" else "https://s.jina.ai/".

Definition setSearchHeaders (cl : Client) (req : Request) (args : SearchRequest) : Request :=
  with_header (fun h =>
    let h := Header_Add "Authorization" ("Bearer " +:+ client.APIKey (client.cfg cl)) h in
    let h := add_if (JSONResponse args) "Accept" ("application/json") h in
    let h := add_if (nonempty (Site args)) "X-Site" (Site args) h in
    let h := add_if (WithLinksSummary args) "X-With-Links-Summary" ("true") h in
    let h := add_if (WithImagesSummary args) "X-With-Images-Summary" ("true") h in
    let h := add_if (nonempty (RetainImages args)) "X-Retain-Images" (RetainImages args) h in
    let h := add_if (NoCache args) "X-No-Cache" ("true") h in
    let h := add_if (WithGeneratedAlt args) "X-With-Generated-Alt" ("true") h in
    let h := add_if (nonempty (RespondWith args)) "X-Respond-With" (RespondWith args) h in
    let h := add_if (WithFavicon args) "X-With-Favicon" ("true") h in
    let h := add_if (nonempty (ReturnFormat args)) "X-Return-Format" (ReturnFormat args) h in
    let h := add_if (nonempty (Engine args)) "X-Engine" (Engine args) h in
    let h := add_if (WithFavicons args) "X-With-Favicons" ("true") h in
    let h := add_if (Z.ltb 0 (Timeout args)) "X-Timeout" (Itoa (Timeout args)) h in
    let h := add_if (nonempty (SetCookie args)) "X-Set-Cookie" (SetCookie args) h in
    let h := add_if (nonempty (ProxyURL args)) "X-Proxy-Url" (ProxyURL args) h in
    let h := add_if (nonempty (Locale args)) "X-Locale" (Locale args) h in
    h) req.

(** The lines of [setSearchHeaders] read as a table: whether the header is
    added, its name, its value. *)
Definition header_table (cl : Client) (args : SearchRequest) : list (bool * string * string) :=
  [(true, "Authorization", "Bearer " +:+ client.APIKey (client.cfg cl));
   (JSONResponse args, "Accept", "application/json");
   (nonempty (Site args), "X-Site", Site args);
   (WithLinksSummary args, "X-With-Links-Summary", "true");
   (WithImagesSummary args, "X-With-Images-Summary", "true");
   (nonempty (RetainImages args), "X-Retain-Images", RetainImages args);
   (NoCache args, "X-No-Cache", "true");
   (WithGeneratedAlt args, "X-With-Generated-Alt", "true");
   (nonempty (RespondWith args), "X-Respond-With", RespondWith args);
   (WithFavicon args, "X-With-Favicon", "true");
   (nonempty (ReturnFormat args), "X-Return-Format", ReturnFormat args);
   (nonempty (Engine args), "X-Engine", Engine args);
   (WithFavicons args, "X-With-Favicons", "true");
   (Z.ltb 0 (Timeout args), "X-Timeout", Itoa (Timeout args));
   (nonempty (SetCookie args), "X-Set-Cookie", SetCookie args);
   (nonempty (ProxyURL args), "X-Proxy-Url", ProxyURL args);
   (nonempty (Locale args), "X-Locale", Locale args)].

Section Call.
Variable transport : Request -> result Response.
Context {StructuredSearchResponse : Type} {decoder : Unmarshal StructuredSearchResponse}.

Record SearchResponse : Type := {
    Text       : string;
    Structured : option StructuredSearchResponse
  }.

Definition parseSearchResponse (body : string) (jsonResponse : bool) : result SearchResponse :=
  if jsonResponse then
    match Unmarshal_into body with
    | Err err => Err (Errorf "unmarshal response body: %w" [ArgErr err])
    | Ok structured => Ok {| Text := EmptyString; Structured := Some structured |}
    end
  else Ok {| Text := body; Structured := None |}.

Definition Search (cl : Client) (req : SearchRequest) : IO SearchResponse :=
  if negb (nonempty (Query req)) then fail (Errorf "query is required" [])
  else
    let req := if client.EUCompliance (client.cfg cl) then set_EUCompliance true req else req in
    let requestURL := buildSearchURL req in
    let* jsonData := lift (wrap "failed to marshal request: %w" (Marshal req)) in
    let httpReq := NewRequest requestURL jsonData in
    let httpReq := with_header (Header_Set "Content-Type" "application/json") httpReq in
    let httpReq := setSearchHeaders cl httpReq req in
    let* resp := wrap_io "do request: %w" (Do transport httpReq) in
    if negb (Z.eqb (StatusCode resp) StatusOK) then
      let body := fst (ReadAll resp) in
      fail (Errorf "API error: status %d, body: %s" [ArgInt (StatusCode resp); ArgStr body])
    else
      match ReadAll resp with
      | (_, Some err) => fail (Errorf "read response body: %w" [ArgErr err])
      | (body, None) => lift (parseSearchResponse body (JSONResponse req))
      end.

End Call.

End Search.

(* ===================================================================== *)
(** * Sample values used by the concrete instances below *)
(* ===================================================================== *)

Module Samples.

Definition chunk1 : string := "{" +:+ quoted "n" +:+ ":1}".
Definition chunk2 : string := "{" +:+ quoted "n" +:+ ":2}".
Definition chunk3 : string := "{" +:+ quoted "n" +:+ ":3}".

(** A server that answers every request with [resp]. *)
Definition server (resp : Response) : Request -> result Response := fun _ => Ok resp.

Definition ok_response (body : string) : Response :=
  {| StatusCode := 200; Body := body; BodyErr := None |}.

(** Two chunks, the sentinel, and a chunk after it. *)
Definition sse_done : Response :=
  ok_response (body_of_lines [": ping"; "data: " +:+ chunk1; EmptyString;
                              "data: " +:+ chunk2; EmptyString;
                              "data: [DONE]"; "data: " +:+ chunk3]).

(** Two chunks and the end of the body. *)
Definition sse_eof : Response :=
  ok_response (body_of_lines ["data: " +:+ chunk1; EmptyString; "data: " +:+ chunk2]).

(** A chunk, a payload that is not JSON, a chunk. *)
Definition sse_malformed : Response :=
  ok_response (body_of_lines ["data: " +:+ chunk1; "data: {oops"; "data: " +:+ chunk3]).

Definition a_request : Request :=
  NewRequest "https://api-beta-vlm.jina.ai/v1/chat/completions" (JObj []).

(** A callback that counts its invocations and never fails. *)
Definition count {T} : callback T Z := fun _ n => (n + 1, None).

(** A callback that fails on its second invocation. *)
Definition fail_second {T} : callback T Z :=
  fun _ n => (n + 1, if Z.eqb n 1 then Some (OtherError "stop") else None).

(** Chunks kept as the JSON value they were written as. *)
Definition json_chunk : Unmarshal json := fun v => Ok v.

(** Three chunks and no sentinel. *)
Definition sse_three : Response :=
  ok_response (body_of_lines ["data: " +:+ chunk1; "data: " +:+ chunk2; "data: " +:+ chunk3]).

Definition json1 : json := JObj [("n", JInt 1)].
Definition json2 : json := JObj [("n", JInt 2)].

Definition vlm_request (stream : bool) : VLM.VLMRequest :=
  {| VLM.Model := EmptyString;
     VLM.Messages := Some [VLM.NewVLMMessage "user" "Describe this image"];
     VLM.Stream := stream |}.

(** A structured query that is present and has nothing in it. *)
Definition rerank_empty_query_input : Rerank.RerankRequest :=
  {| Rerank.Model := "jina-reranker-m0";
     Rerank.Query := "programming languages";
     Rerank.Documents := Some ["flat"];
     Rerank.QueryInput := Some {| Rerank.Text := EmptyString; Rerank.Image := EmptyString |};
     Rerank.DocumentsInput := None;
     Rerank.TopN := 0;
     Rerank.ReturnDocuments := None |}.

(** Both a flat and a structured document list. *)
Definition rerank_both : Rerank.RerankRequest :=
  {| Rerank.Model := "jina-reranker-m0";
     Rerank.Query := "programming languages";
     Rerank.Documents := Some ["flat"];
     Rerank.QueryInput := None;
     Rerank.DocumentsInput := Some [{| Rerank.Text := "structured"; Rerank.Image := EmptyString |}];
     Rerank.TopN := 3;
     Rerank.ReturnDocuments := Some false |}.

Definition token_pair : string := "[" +:+ quoted "hello" +:+ ", [1,2,3]]".

(** A reader request for [url] with every option left at its zero value. *)
Definition reader_request (url : string) : Reader.ReaderRequest :=
  {| Reader.URL := url; Reader.Viewport := None;
     Reader.InjectPageScript := EmptyString; Reader.JSONResponse := false;
     Reader.BrowserEngine := EmptyString; Reader.ContentFormat := EmptyString;
     Reader.Timeout := 0; Reader.TargetSelector := EmptyString;
     Reader.WaitForSelector := EmptyString;
     Reader.RemoveSelector := EmptyString; Reader.GatherLinks := EmptyString;
     Reader.GatherImages := EmptyString; Reader.ImageCaption := false;
     Reader.BypassCachedContent := false; Reader.WithIframe := false;
     Reader.TokenBudget := 0; Reader.RemoveAllImages := false;
     Reader.RespondWith := EmptyString; Reader.SetCookie := EmptyString;
     Reader.ProxyURL := EmptyString; Reader.ProxyCountry := EmptyString;
     Reader.DNT := 0; Reader.NoGfm := EmptyString;
     Reader.BrowserLocale := EmptyString; Reader.RobotsTxt := EmptyString;
     Reader.WithShadowDom := false; Reader.Base := EmptyString;
     Reader.MdHeadingStyle := EmptyString; Reader.MdHr := EmptyString;
     Reader.MdBulletListMarker := EmptyString;
     Reader.MdEmDelimiter := EmptyString;
     Reader.MdStrongDelimiter := EmptyString;
     Reader.MdLinkStyle := EmptyString;
     Reader.MdLinkReferenceStyle := EmptyString; Reader.EUCompliance := false |}.

(** A search request for [query] with every option left at its zero value. *)
Definition search_request (query : string) : Search.SearchRequest :=
  {| Search.Query := query; Search.CountryCode := EmptyString;
     Search.Location := EmptyString; Search.LanguageCode := EmptyString;
     Search.MaxResults := 0; Search.PageOffset := 0;
     Search.JSONResponse := false; Search.Site := EmptyString;
     Search.WithLinksSummary := false; Search.WithImagesSummary := false;
     Search.RetainImages := EmptyString; Search.NoCache := false;
     Search.WithGeneratedAlt := false; Search.RespondWith := EmptyString;
     Search.WithFavicon := false; Search.ReturnFormat := EmptyString;
     Search.Engine := EmptyString; Search.WithFavicons := false;
     Search.Timeout := 0; Search.SetCookie := EmptyString;
     Search.ProxyURL := EmptyString; Search.Locale := EmptyString;
     Search.EUCompliance := false |}.

Definition classification_request : Classification.ClassificationRequest :=
  {| Classification.Model := "jina-embeddings-v3";
     Classification.ClassifierID := EmptyString;
     Classification.Input :=
       Some [Classification.NewClassificationInputText "The product is amazing!"];
     Classification.Labels := Some ["Positive"; "Negative"] |}.

Definition deepsearch_request (stream : bool) : DeepSearch.DeepSearchRequest :=
  {| DeepSearch.Model := EmptyString;
     DeepSearch.Messages := Some [VLM.NewVLMMessage "user" "Who discovered penicillin?"];
     DeepSearch.Stream := stream;
     DeepSearch.ReasoningEffort := "low";
     DeepSearch.BudgetTokens := 0;
     DeepSearch.MaxAttempts := 0;
     DeepSearch.NoDirectAnswer := false;
     DeepSearch.MaxReturnedURLs := 0;
     DeepSearch.ResponseFormat := None;
     DeepSearch.BoostHostnames := None |}.

Definition empty_token : Segmenter.Token :=
  {| Segmenter.Text := EmptyString; Segmenter.IDs := None |}.




(** Responses with a status other than 200. *)
Definition bad_model : Response :=
  {| StatusCode := 422;
     Body := "{" +:+ quoted "detail" +:+ ": " +:+ quoted "bad model" +:+ "}";
     BodyErr := None |}.



Definition a_client : Client := client.NewClient [client.WithAPIKey "secret"].
Definition keyless_client : Client := client.NewClient [].

(** A reader request with some options set: a JSON answer, a timeout, no
    images, the EU host, and a negative DNT. *)
Definition reader_options : Reader.ReaderRequest :=
  {| Reader.URL := "https://example.com"; Reader.Viewport := None;
     Reader.InjectPageScript := EmptyString; Reader.JSONResponse := true;
     Reader.BrowserEngine := EmptyString; Reader.ContentFormat := EmptyString;
     Reader.Timeout := 30; Reader.TargetSelector := EmptyString;
     Reader.WaitForSelector := EmptyString;
     Reader.RemoveSelector := EmptyString; Reader.GatherLinks := EmptyString;
     Reader.GatherImages := EmptyString; Reader.ImageCaption := false;
     Reader.BypassCachedContent := false; Reader.WithIframe := false;
     Reader.TokenBudget := 0; Reader.RemoveAllImages := true;
     Reader.RespondWith := EmptyString; Reader.SetCookie := EmptyString;
     Reader.ProxyURL := EmptyString; Reader.ProxyCountry := EmptyString;
     Reader.DNT := -1; Reader.NoGfm := EmptyString;
     Reader.BrowserLocale := EmptyString; Reader.RobotsTxt := EmptyString;
     Reader.WithShadowDom := false; Reader.Base := EmptyString;
     Reader.MdHeadingStyle := EmptyString; Reader.MdHr := EmptyString;
     Reader.MdBulletListMarker := EmptyString;
     Reader.MdEmDelimiter := EmptyString;
     Reader.MdStrongDelimiter := EmptyString;
     Reader.MdLinkStyle := EmptyString;
     Reader.MdLinkReferenceStyle := EmptyString; Reader.EUCompliance := true |}.

(** A search request with some options set: a site, no cache, and a
    negative timeout. *)
Definition search_options : Search.SearchRequest :=
  {| Search.Query := "Jina AI"; Search.CountryCode := EmptyString;
     Search.Location := EmptyString; Search.LanguageCode := EmptyString;
     Search.MaxResults := 0; Search.PageOffset := 0;
     Search.JSONResponse := false; Search.Site := "jina.ai";
     Search.WithLinksSummary := false; Search.WithImagesSummary := false;
     Search.RetainImages := EmptyString; Search.NoCache := true;
     Search.WithGeneratedAlt := false; Search.RespondWith := EmptyString;
     Search.WithFavicon := false; Search.ReturnFormat := EmptyString;
     Search.Engine := EmptyString; Search.WithFavicons := false;
     Search.Timeout := -5; Search.SetCookie := EmptyString;
     Search.ProxyURL := EmptyString; Search.Locale := EmptyString;
     Search.EUCompliance := false |}.

(** A DeepSearch request whose schema is cut short. *)
Definition deepsearch_bad_schema : DeepSearch.DeepSearchRequest :=
  {| DeepSearch.Model := EmptyString;
     DeepSearch.Messages := Some [VLM.NewVLMMessage "user" "Who discovered penicillin?"];
     DeepSearch.Stream := false;
     DeepSearch.ReasoningEffort := "low";
     DeepSearch.BudgetTokens := 0;
     DeepSearch.MaxAttempts := 0;
     DeepSearch.NoDirectAnswer := false;
     DeepSearch.MaxReturnedURLs := 0;
     DeepSearch.ResponseFormat :=
       Some {| DeepSearch.Type_ := "json_schema";
               DeepSearch.JSONSchema := Some (list_ascii_of_string "{") |};
     DeepSearch.BoostHostnames := None |}.

(** A 200 answer: an object, then bytes that are not JSON. *)
Definition object_then_more : Response :=
  ok_response ("{" +:+ quoted "n" +:+ ":1}<html>").

(** A transport that cannot connect. *)
Definition unreachable : Request -> result Response :=
  fun _ => Err (OtherError "dial tcp: connection refused").

(** The data lines of [sse_done] and nothing else. *)
Definition sse_done_bare : Response :=
  ok_response (body_of_lines ["data: " +:+ chunk1; "data: " +:+ chunk2;
                              "data: [DONE]"; "data: " +:+ chunk3]).

(** [n] bytes without a line break. *)
Fixpoint pad (n : nat) : string :=
  match n with
  | O => EmptyString
  | S n' => String (byte 97) (pad n')
  end.

(** A chunk, then a line as long as the scanner's buffer. *)
Definition sse_long_line : Response :=
  {| StatusCode := StatusOK;
     Body := body_of_lines ["data: " +:+ chunk1]
             +:+ pad (Z.to_nat MaxScanTokenSize) +:+ EmptyString;
     BodyErr := None |}.

(** Two chunks, then the connection is reset. *)
Definition sse_reset : Response :=
  {| StatusCode := StatusOK;
     Body := body_of_lines ["data: " +:+ chunk1; "data: " +:+ chunk2];
     BodyErr := Some (OtherError "connection reset by peer") |}.

End Samples.

(* ===================================================================== *)
(** * Theorems *)
(* ===================================================================== *)

(** ** Strings *)

Lemma substring_all (s : string) : String.substring 0 (String.length s) s = s.
Proof. induction s as [|c s IH]; simpl; [reflexivity | now rewrite IH]. Qed.

Lemma HasPrefix_data (c : string) : HasPrefix ("data: " +:+ c) "data: " = true.
Proof. unfold HasPrefix. simpl. now destruct c. Qed.

Lemma TrimPrefix_data (c : string) : TrimPrefix ("data: " +:+ c) "data: " = c.
Proof.
  unfold TrimPrefix. rewrite HasPrefix_data. simpl.
  rewrite Nat.sub_0_r. apply substring_all.
Qed.

Lemma payload_data (c : string) : payload ("data: " +:+ c) = Some c.
Proof. unfold payload. now rewrite HasPrefix_data, TrimPrefix_data. Qed.

Lemma payload_other (line : string) :
  HasPrefix line "data: " = false -> payload line = None.
Proof. unfold payload. now intros ->. Qed.

Lemma payloads_app (l1 l2 : list string) :
  payloads (l1 ++ l2) = payloads l1 ++ payloads l2.
Proof. apply omap_app. Qed.

Lemma payloads_cons_data (c : string) (rest : list string) :
  payloads (("data: " +:+ c) :: rest) = c :: payloads rest.
Proof. unfold payloads. simpl. now rewrite payload_data. Qed.

Lemma payloads_ignored (pre : list string) :
  Forall (fun line => HasPrefix line "data: " = false) pre -> payloads pre = [].
Proof.
  induction 1 as [|line pre Hline _ IH]; [reflexivity|].
  unfold payloads in *. simpl. now rewrite (payload_other _ Hline).
Qed.

(** ** Lines of a body *)

Lemma append_cons (c : ascii) (s t : string) : String c s +:+ t = String c (s +:+ t).
Proof. reflexivity. Qed.

Lemma append_empty (s : string) : s +:+ EmptyString = s.
Proof. induction s as [|c s IH]; [reflexivity|]. now rewrite append_cons, IH. Qed.

Lemma rev_onto_involutive (s a b : string) :
  rev_onto (rev_onto s a) b = rev_onto a (s +:+ b).
Proof.
  revert a b. induction s as [|c s IH]; intros a b; [reflexivity|].
  cbn [rev_onto]. now rewrite IH, append_cons.
Qed.

Lemma no_line_break_rev_onto (s acc : string) :
  no_line_break s = true -> no_line_break acc = true ->
  no_line_break (rev_onto s acc) = true.
Proof.
  revert acc. induction s as [|c s IH]; intros acc Hs Hacc; [assumption|].
  simpl in Hs |- *. apply andb_prop in Hs as [Hc Hs]. apply IH; [assumption|].
  simpl. now rewrite Hc, Hacc.
Qed.

(** A line without a carriage return comes out of [finish_line] whole. *)
Lemma finish_line_rev (line : string) :
  no_line_break line = true -> finish_line (rev_onto line EmptyString) = line.
Proof.
  intros Hline.
  pose proof (no_line_break_rev_onto line EmptyString Hline eq_refl) as Hrev.
  pose proof (rev_onto_involutive line EmptyString EmptyString) as Hinv.
  cbn [rev_onto] in Hinv. rewrite append_empty in Hinv.
  destruct (rev_onto line EmptyString) as [|c rest] eqn:Hr.
  - simpl in Hinv. now rewrite <- Hinv.
  - simpl in Hrev. unfold finish_line.
    destruct (Z.eqb (code c) 13).
    + rewrite andb_false_r in Hrev. discriminate.
    + exact Hinv.
Qed.

(** The bytes of one line and its line feed make one token. *)
Lemma scan_lines_line (line rest cur : string) (n : Z) :
  no_line_break line = true ->
  n + Z.of_nat (String.length line) < MaxScanTokenSize ->
  scan_lines (line +:+ String (byte 10) rest) cur n
  = (finish_line (rev_onto line cur) :: fst (scan_lines rest EmptyString 0),
     snd (scan_lines rest EmptyString 0)).
Proof.
  revert cur n. induction line as [|c line IH]; intros cur n Hline Hlen.
  - simpl. now destruct (scan_lines rest EmptyString 0).
  - simpl in Hline. apply andb_prop in Hline as [Hc Hline].
    apply andb_prop in Hc as [Hlf _]. apply negb_true_iff in Hlf.
    rewrite append_cons. cbn [scan_lines]. rewrite Hlf.
    cbn [String.length] in Hlen.
    destruct (Z.leb_spec MaxScanTokenSize (n + 1)) as [Hlong|_]; [lia|].
    rewrite IH by (assumption || lia). reflexivity.
Qed.

(** A body of lines that fit is scanned back into those lines. *)
Lemma scan_lines_body (lines : list string) :
  Forall fits lines ->
  scan_lines (body_of_lines lines) EmptyString 0 = (lines, false).
Proof.
  induction 1 as [|line lines [Hline Hlen] _ IH]; [reflexivity|].
  cbn [body_of_lines]. unfold newline.
  change (String (byte 10) EmptyString +:+ body_of_lines lines)
    with (String (byte 10) (body_of_lines lines)).
  rewrite scan_lines_line by (assumption || lia).
  rewrite IH. cbn [fst snd]. now rewrite finish_line_rev.
Qed.

Lemma Scanner_body (lines : list string) :
  Forall fits lines ->
  Scanner {| StatusCode := StatusOK; Body := body_of_lines lines; BodyErr := None |}
  = (lines, None).
Proof. intros Hfit. unfold Scanner. cbn [Body BodyErr]. now rewrite scan_lines_body. Qed.

(** A line of [MaxScanTokenSize] bytes or more does not fit the buffer: the
    scan stops there with [ErrTooLong], and the line is not delivered. *)
Lemma scan_lines_too_long (line rest cur : string) (n : Z) :
  no_line_break line = true ->
  n < MaxScanTokenSize ->
  MaxScanTokenSize <= n + Z.of_nat (String.length line) ->
  scan_lines (line +:+ rest) cur n = ([], true).
Proof.
  revert cur n. induction line as [|c line IH]; intros cur n Hline Hn Hlen.
  - simpl in Hlen. lia.
  - simpl in Hline. apply andb_prop in Hline as [Hc Hline].
    apply andb_prop in Hc as [Hlf _]. apply negb_true_iff in Hlf.
    rewrite append_cons. cbn [scan_lines]. rewrite Hlf.
    cbn [String.length] in Hlen.
    destruct (Z.leb_spec MaxScanTokenSize (n + 1)) as [Hlong|Hshort]; [reflexivity|].
    apply IH; [assumption | lia | lia].
Qed.

(** A carriage return before the line feed is dropped; a last line without
    a line feed is delivered all the same. *)
Example Scanner_crlf :
  Scanner (Samples.ok_response
             ("data: a" +:+ String (byte 13) newline +:+ newline +:+ "tail"))
  = (["data: a"; EmptyString; "tail"], None).
Proof. reflexivity. Qed.

(** ** The loop of [doStream] *)

Section Loop.
Context {S : Type} (cb : callback string S).

(** A line that is not a data line is skipped. *)
Lemma loop_skip (line : string) (rest : list string) (st : S) :
  payload line = None -> stream_loop cb (line :: rest) st = stream_loop cb rest st.
Proof.
  unfold payload. simpl. destruct (HasPrefix line "data: "); [discriminate | reflexivity].
Qed.

(** The sentinel ends the loop with success, whatever follows. *)
Lemma loop_done (line : string) (rest : list string) (st : S) :
  payload line = Some "[DONE]" -> stream_loop cb (line :: rest) st = (st, Returned None).
Proof.
  unfold payload. simpl. destruct (HasPrefix line "data: "); [|discriminate].
  intros [= ->]. reflexivity.
Qed.

(** Any other data line is handed to the callback. *)
Lemma loop_data (line d : string) (rest : list string) (st : S) :
  payload line = Some d -> d <> "[DONE]" ->
  stream_loop cb (line :: rest) st =
    match cb d st with
    | (st', Some err) => (st', Returned (Some err))
    | (st', None) => stream_loop cb rest st'
    end.
Proof.
  unfold payload. simpl. destruct (HasPrefix line "data: "); [|discriminate].
  intros [= ->] Hd. apply String.eqb_neq in Hd. now rewrite Hd.
Qed.

(** Lines the callback accepts, none of them the sentinel, are consumed. *)
Lemma loop_app (pre rest : list string) (st : S) :
  "[DONE]" ∉ payloads pre ->
  accepts cb (payloads pre) st = true ->
  stream_loop cb (pre ++ rest) st
  = stream_loop cb rest (final_state cb (payloads pre) st).
Proof.
  revert st. induction pre as [|line pre IH]; intros st Hdone Hacc; [reflexivity|].
  change ((line :: pre) ++ rest) with (line :: (pre ++ rest)).
  destruct (payload line) as [d|] eqn:Hp.
  - assert (Hcons : payloads (line :: pre) = d :: payloads pre)
      by (unfold payloads; simpl; now rewrite Hp).
    rewrite Hcons in Hdone, Hacc |- *.
    apply not_elem_of_cons in Hdone as [Hd Hdone].
    rewrite (loop_data line d) by (assumption || congruence).
    simpl in Hacc |- *.
    destruct (cb d st) as [st' [err|]]; [discriminate|]. simpl.
    now apply IH.
  - assert (Hcons : payloads (line :: pre) = payloads pre)
      by (unfold payloads; simpl; now rewrite Hp).
    rewrite Hcons in Hdone, Hacc |- *.
    rewrite loop_skip by assumption. now apply IH.
Qed.

Lemma loop_exhausted (lines : list string) (st : S) :
  "[DONE]" ∉ payloads lines ->
  accepts cb (payloads lines) st = true ->
  stream_loop cb lines st = (final_state cb (payloads lines) st, ScanEnded).
Proof.
  intros Hdone Hacc.
  rewrite <- (app_nil_r lines) at 1. now rewrite loop_app.
Qed.

(** The callback seen through [spy]. *)
Lemma accepts_spy {T : Type} (f : callback T S) (xs : list T) (st : S) (log : list T) :
  accepts (spy f) xs (st, log) = accepts f xs st.
Proof.
  revert st log. induction xs as [|x xs IH]; intros st log; [reflexivity|].
  simpl. unfold spy at 1. simpl. destruct (f x st) as [st' [err|]]; [reflexivity|]. apply IH.
Qed.

Lemma final_state_spy {T : Type} (f : callback T S) (xs : list T) (st : S) (log : list T) :
  final_state (spy f) xs (st, log) = (final_state f xs st, log ++ xs).
Proof.
  revert st log. induction xs as [|x xs IH]; intros st log; simpl.
  - now rewrite app_nil_r.
  - unfold spy at 2. simpl. destruct (f x st) as [st' r]. simpl.
    rewrite IH. now rewrite <- app_assoc.
Qed.

End Loop.

Section ChunkCallback.
Context {T : Type} `{!Unmarshal T} {S : Type} (cb : callback T S).

(** Payloads that decode, and whose chunks the caller accepts, are accepted. *)
Lemma accepts_chunks (good : list string) (chunks : list T) (st : S) :
  Forall2 (fun d c => Unmarshal_into d = Ok c) good chunks ->
  accepts cb chunks st = true ->
  accepts (chunk_callback cb) good st = true.
Proof.
  intros Hdec. revert st. induction Hdec as [|d c good chunks Hd _ IH]; intros st Hacc;
    [reflexivity|].
  simpl in Hacc |- *. unfold chunk_callback at 1. rewrite Hd.
  destruct (cb c st) as [st' [err|]]; [discriminate|]. now apply IH.
Qed.

Lemma final_state_chunks (good : list string) (chunks : list T) (st : S) :
  Forall2 (fun d c => Unmarshal_into d = Ok c) good chunks ->
  final_state (chunk_callback cb) good st = final_state cb chunks st.
Proof.
  intros Hdec. revert st. induction Hdec as [|d c good chunks Hd _ IH]; intros st;
    [reflexivity|].
  simpl. unfold chunk_callback at 2. rewrite Hd. apply IH.
Qed.

End ChunkCallback.

Section LoopExits.
Context {S : Type} (cb : callback string S).

(** The first data line the callback fails on ends the loop with its error. *)
Lemma loop_error (lines good later : list string) (bad : string) (st st' : S) (e : error) :
  payloads lines = good ++ bad :: later ->
  "[DONE]" ∉ good -> bad <> "[DONE]" ->
  accepts cb good st = true ->
  cb bad (final_state cb good st) = (st', Some e) ->
  stream_loop cb lines st = (st', Returned (Some e)).
Proof.
  revert good st. induction lines as [|line lines IH]; intros good st Hp Hdone Hbad Hacc Hcb.
  - destruct good; discriminate.
  - destruct (payload line) as [d|] eqn:Hline.
    + assert (Hcons : payloads (line :: lines) = d :: payloads lines)
        by (unfold payloads; simpl; now rewrite Hline).
      rewrite Hcons in Hp. destruct good as [|g good]; simpl in Hp, Hacc, Hcb.
      * injection Hp as -> Hp. rewrite (loop_data cb line bad) by assumption.
        now rewrite Hcb.
      * injection Hp as -> Hp. apply not_elem_of_cons in Hdone as [Hg Hdone].
        rewrite (loop_data cb line g) by (assumption || congruence).
        destruct (cb g st) as [st1 [err|]]; [discriminate|]. simpl in Hcb.
        now apply (IH good).
    + assert (Hcons : payloads (line :: lines) = payloads lines)
        by (unfold payloads; simpl; now rewrite Hline).
      rewrite Hcons in Hp. rewrite loop_skip by assumption. now apply (IH good).
Qed.

End LoopExits.

(** ** [doStream] *)

Section DoStream.
Variable transport : Request -> result Response.
Context {S : Type}.

(** C2.  A body whose data lines are chunk1, chunk2 and the sentinel, in
    that order, with any lines that are not data lines between them and any
    lines at all after the sentinel: the callback is invoked exactly twice,
    with chunk1 and then chunk2, and [doStream] returns nil.  Nothing after
    the sentinel is looked at: [rest] and the scanner's final error are
    arbitrary. *)
Theorem doStream_two_chunks_then_done
    (req : Request) (resp : Response) (cb : callback string S)
    (pre0 pre1 pre2 rest : list string) (c1 c2 : string)
    (err : option error) (st st1 st2 : S) :
  transport req = Ok resp ->
  StatusCode resp = StatusOK ->
  Scanner resp = (pre0 ++ ("data: " +:+ c1) :: pre1 ++ ("data: " +:+ c2) :: pre2
                       ++ "data: [DONE]" :: rest, err) ->
  Forall (fun line => HasPrefix line "data: " = false) (pre0 ++ pre1 ++ pre2) ->
  c1 <> "[DONE]" -> c2 <> "[DONE]" ->
  cb c1 st = (st1, None) -> cb c2 st1 = (st2, None) ->
  doStream transport req (spy cb) (st, []) = ([req], ((st2, [c1; c2]), None)).
Proof.
  intros Htr Hst Hscan Hpre Hc1 Hc2 Hcb1 Hcb2.
  apply Forall_app in Hpre as [Hpre0 Hpre]. apply Forall_app in Hpre as [Hpre1 Hpre2].
  unfold doStream. rewrite Htr, Hst, Hscan. simpl negb. cbv iota.
  set (pre := pre0 ++ ("data: " +:+ c1) :: pre1 ++ ("data: " +:+ c2) :: pre2).
  assert (Hpay : payloads pre = [c1; c2]).
  { unfold pre. rewrite payloads_app, payloads_cons_data, payloads_app, payloads_cons_data.
    now rewrite !payloads_ignored by assumption. }
  replace (pre0 ++ ("data: " +:+ c1) :: pre1 ++ ("data: " +:+ c2) :: pre2
                ++ "data: [DONE]" :: rest)
    with (pre ++ "data: [DONE]" :: rest)
    by (unfold pre; now rewrite <- !app_assoc, <- !app_comm_cons, <- !app_assoc).
  rewrite loop_app.
  - rewrite Hpay, final_state_spy. cbn [final_state]. rewrite Hcb1. cbn [fst].
    rewrite Hcb2. cbn [fst app].
    now rewrite (loop_done _ "data: [DONE]") by apply (payload_data "[DONE]").
  - rewrite Hpay. intros Hin. apply elem_of_cons in Hin as [Hin|Hin]; [congruence|].
    apply elem_of_cons in Hin as [Hin|Hin]; [congruence|]. inversion Hin.
  - rewrite Hpay, accepts_spy. simpl. rewrite Hcb1, Hcb2. reflexivity.
Qed.

(** C6.  The scanner reaches the end of the body without an error and no
    data line was the sentinel: if the callback accepted every chunk,
    [doStream] returns nil and the callback was invoked once per data line,
    in order. *)
Theorem doStream_end_without_sentinel
    (req : Request) (resp : Response) (cb : callback string S)
    (lines : list string) (st : S) :
  transport req = Ok resp ->
  StatusCode resp = StatusOK ->
  Scanner resp = (lines, None) ->
  "[DONE]" ∉ payloads lines ->
  accepts cb (payloads lines) st = true ->
  doStream transport req (spy cb) (st, [])
  = ([req], ((final_state cb (payloads lines) st, payloads lines), None)).
Proof.
  intros Htr Hst Hscan Hdone Hacc.
  unfold doStream. rewrite Htr, Hst, Hscan. simpl negb. cbv iota.
  rewrite loop_exhausted by (assumption || now rewrite accepts_spy).
  now rewrite final_state_spy.
Qed.

(** A read that ends in an error other than the end of the stream is
    reported, after the chunks before it were delivered. *)
Lemma doStream_read_error
    (req : Request) (resp : Response) (cb : callback string S)
    (lines : list string) (e : error) (st : S) :
  transport req = Ok resp ->
  StatusCode resp = StatusOK ->
  Scanner resp = (lines, Some e) ->
  wraps_EOF e = false ->
  "[DONE]" ∉ payloads lines ->
  accepts cb (payloads lines) st = true ->
  doStream transport req cb st = ([req], (final_state cb (payloads lines) st, Some e)).
Proof.
  intros Htr Hst Hscan He Hdone Hacc.
  unfold doStream. rewrite Htr, Hst, Hscan. simpl negb. cbv iota.
  rewrite loop_exhausted by assumption. simpl. now rewrite He.
Qed.

(** The first chunk the callback fails on: its error is returned at once. *)
Lemma doStream_callback_error
    (req : Request) (resp : Response) (cb : callback string S)
    (lines good later : list string) (bad : string) (err : option error)
    (st st' : S) (e : error) :
  transport req = Ok resp ->
  StatusCode resp = StatusOK ->
  Scanner resp = (lines, err) ->
  payloads lines = good ++ bad :: later ->
  "[DONE]" ∉ good -> bad <> "[DONE]" ->
  accepts cb good st = true ->
  cb bad (final_state cb good st) = (st', Some e) ->
  doStream transport req cb st = ([req], (st', Some e)).
Proof.
  intros Htr Hst Hscan Hp Hdone Hbad Hacc Hcb.
  unfold doStream. rewrite Htr, Hst, Hscan. simpl negb. cbv iota.
  now rewrite (loop_error cb lines good later bad st st' e).
Qed.

(** A status other than 200 fails before the body is read. *)
Lemma doStream_status (req : Request) (resp : Response) (cb : callback string S) (st : S) :
  transport req = Ok resp ->
  StatusCode resp <> StatusOK ->
  doStream transport req cb st
  = ([req], (st, Some (Errorf "API error with status code: %d" [ArgInt (StatusCode resp)]))).
Proof.
  intros Htr Hst. unfold doStream. rewrite Htr.
  apply Z.eqb_neq in Hst. now rewrite Hst.
Qed.

(** The same on the wire: the body is the given lines, each ended by a
    line feed, and the read ends cleanly. *)
Corollary doStream_wire_end_without_sentinel
    (req : Request) (cb : callback string S) (lines : list string) (st : S) :
  transport req = Ok {| StatusCode := StatusOK; Body := body_of_lines lines;
                        BodyErr := None |} ->
  Forall fits lines ->
  "[DONE]" ∉ payloads lines ->
  accepts cb (payloads lines) st = true ->
  doStream transport req cb st = ([req], (final_state cb (payloads lines) st, None)).
Proof.
  intros Htr Hfit Hdone Hacc. unfold doStream. rewrite Htr. cbn [StatusCode].
  rewrite Z.eqb_refl. cbn [negb]. rewrite (Scanner_body lines Hfit).
  now rewrite loop_exhausted.
Qed.

(** A first line that does not fit the scanner's buffer: the scan error is
    returned and the callback is not invoked. *)
Lemma doStream_line_too_long
    (req : Request) (cb : callback string S) (line rest : string)
    (read_err : option error) (st : S) :
  transport req = Ok {| StatusCode := StatusOK; Body := line +:+ rest;
                        BodyErr := read_err |} ->
  no_line_break line = true ->
  MaxScanTokenSize <= Z.of_nat (String.length line) ->
  doStream transport req cb st = ([req], (st, Some ErrTooLong)).
Proof.
  intros Htr Hline Hlen. unfold doStream. rewrite Htr. cbn [StatusCode].
  rewrite Z.eqb_refl. cbn [negb]. unfold Scanner. cbn [Body BodyErr].
  rewrite (scan_lines_too_long line rest EmptyString 0) by (assumption || reflexivity || lia).
  reflexivity.
Qed.

End DoStream.

Lemma doStream_two_chunks_then_done_witness :
  doStream (Samples.server Samples.sse_done) Samples.a_request
           (spy Samples.count) (0, [])
  = ([Samples.a_request], ((2, [Samples.chunk1; Samples.chunk2]), None)).
Proof.
  apply (doStream_two_chunks_then_done
           (Samples.server Samples.sse_done) Samples.a_request Samples.sse_done
           Samples.count [": ping"] [EmptyString] [EmptyString]
           ["data: " +:+ Samples.chunk3] Samples.chunk1 Samples.chunk2 None 0 1 2);
    try reflexivity.
  - repeat constructor.
  - discriminate.
  - discriminate.
Defined.

Lemma doStream_end_without_sentinel_witness :
  doStream (Samples.server Samples.sse_eof) Samples.a_request
           (spy Samples.count) (0, [])
  = ([Samples.a_request], ((2, [Samples.chunk1; Samples.chunk2]), None)).
Proof.
  apply (doStream_end_without_sentinel
           (Samples.server Samples.sse_eof) Samples.a_request Samples.sse_eof
           Samples.count
           ["data: " +:+ Samples.chunk1; EmptyString; "data: " +:+ Samples.chunk2] 0);
    try reflexivity.
  vm_compute. intros Hin.
  repeat (apply elem_of_cons in Hin as [Hin|Hin]; [discriminate Hin|]).
  inversion Hin.
Defined.

(** ** The streaming calls *)

Lemma DeepSearch_Marshal_fails (req : DeepSearch.DeepSearchRequest) (b : bool) (m : string) :
  is_Err (DeepSearch.Marshal (DeepSearch.set_Stream b req)) = is_Err (DeepSearch.Marshal req)
  /\ is_Err (DeepSearch.Marshal (DeepSearch.set_Model m req)) = is_Err (DeepSearch.Marshal req).
Proof.
  unfold DeepSearch.Marshal. cbn.
  destruct (DeepSearch.ResponseFormat req) as [rf|]; [|split; reflexivity].
  destruct (DeepSearch.RawMessage_json _); split; reflexivity.
Qed.


Module StreamFacts.

Section VLMStream.
Context {VLMResponse : Type} {decoder : Unmarshal VLMResponse} {S : Type}.

(** C7.  The data lines carry [good], then [bad], then anything.  The
    payloads of [good] decode to [chunks] and the caller's callback accepts
    them.  If [bad] does not decode, [VLMStream] returns the decode error
    and the callback was invoked on [chunks] only: as many times as there
    are payloads before [bad], not for [bad], not for a later line.  If
    [bad] decodes but the callback fails on it, that error is returned as
    it is and no later line is processed. *)
Theorem VLMStream_stops_at_first_failure
    (cl : Client) (req : VLM.VLMRequest) (resp : Response)
    (cb : callback VLMResponse S) (lines good later : list string) (bad : string)
    (chunks : list VLMResponse) (err : option error) (st : S) :
  StatusCode resp = StatusOK ->
  Scanner resp = (lines, err) ->
  payloads lines = good ++ bad :: later ->
  "[DONE]" ∉ good -> bad <> "[DONE]" ->
  Forall2 (fun d c => Unmarshal_into d = Ok c) good chunks ->
  accepts cb chunks st = true ->
  length chunks = length good
  /\ (forall e, Unmarshal_into (T := VLMResponse) bad = Err e ->
        snd (VLM.VLMStream (fun _ => Ok resp) cl req (spy cb) (st, []))
        = ((final_state cb chunks st, chunks),
           Some (Errorf "failed to unmarshal chunk: %w" [ArgErr e])))
  /\ (forall c st' e, Unmarshal_into bad = Ok c ->
        cb c (final_state cb chunks st) = (st', Some e) ->
        snd (VLM.VLMStream (fun _ => Ok resp) cl req (spy cb) (st, []))
        = ((st', chunks ++ [c]), Some e)).
Proof.
  intros Hst Hscan Hp Hdone Hbad Hdec Hacc.
  assert (Hacc' : accepts (chunk_callback (spy cb)) good (st, []) = true)
    by (apply (accepts_chunks _ good chunks); [assumption | now rewrite accepts_spy]).
  assert (Hfin : final_state (chunk_callback (spy cb)) good (st, [])
                 = (final_state cb chunks st, chunks))
    by (now rewrite (final_state_chunks _ good chunks), final_state_spy).
  split; [symmetry; eapply Forall2_length; eassumption|]. split.
  - intros e He. unfold VLM.VLMStream. cbn [VLM.Marshal].
    rewrite (doStream_callback_error _ _ resp (chunk_callback (spy cb)) lines good later
               bad err (st, []) (final_state cb chunks st, chunks)
               (Errorf "failed to unmarshal chunk: %w" [ArgErr e]));
      try (reflexivity || assumption).
    rewrite Hfin. unfold chunk_callback. now rewrite He.
  - intros c st' e Hc Hcb. unfold VLM.VLMStream. cbn [VLM.Marshal].
    rewrite (doStream_callback_error _ _ resp (chunk_callback (spy cb)) lines good later
               bad err (st, []) (st', chunks ++ [c]) e);
      try (reflexivity || assumption).
    rewrite Hfin. unfold chunk_callback. rewrite Hc. unfold spy. cbn [fst snd].
    now rewrite Hcb.
Qed.

End VLMStream.

Section DeepSearchStream.
Context {DeepSearchResponse : Type} {decoder : Unmarshal DeepSearchResponse} {S : Type}.

(** [DeepSearchStream] hands [doStream] the same closure: when its request
    marshals, it stops at the first failure in the same way. *)
Lemma DeepSearchStream_stops_at_first_failure
    (cl : Client) (req : DeepSearch.DeepSearchRequest) (resp : Response)
    (cb : callback DeepSearchResponse S) (lines good later : list string) (bad : string)
    (chunks : list DeepSearchResponse) (err : option error) (st : S) :
  is_Err (DeepSearch.Marshal req) = false ->
  StatusCode resp = StatusOK ->
  Scanner resp = (lines, err) ->
  payloads lines = good ++ bad :: later ->
  "[DONE]" ∉ good -> bad <> "[DONE]" ->
  Forall2 (fun d c => Unmarshal_into d = Ok c) good chunks ->
  accepts cb chunks st = true ->
  (forall e, Unmarshal_into (T := DeepSearchResponse) bad = Err e ->
     snd (DeepSearch.DeepSearchStream (fun _ => Ok resp) cl req (spy cb) (st, []))
     = ((final_state cb chunks st, chunks),
        Some (Errorf "failed to unmarshal chunk: %w" [ArgErr e])))
  /\ (forall c st' e, Unmarshal_into bad = Ok c ->
        cb c (final_state cb chunks st) = (st', Some e) ->
        snd (DeepSearch.DeepSearchStream (fun _ => Ok resp) cl req (spy cb) (st, []))
        = ((st', chunks ++ [c]), Some e)).
Proof.
  intros Hm Hst Hscan Hp Hdone Hbad Hdec Hacc.
  assert (Hacc' : accepts (chunk_callback (spy cb)) good (st, []) = true)
    by (apply (accepts_chunks _ good chunks); [assumption | now rewrite accepts_spy]).
  assert (Hfin : final_state (chunk_callback (spy cb)) good (st, [])
                 = (final_state cb chunks st, chunks))
    by (now rewrite (final_state_chunks _ good chunks), final_state_spy).
  assert (Hbody : exists body,
             DeepSearch.Marshal
               (DeepSearch.set_Stream true
                  (if nonempty (DeepSearch.Model req) then req
                   else DeepSearch.set_Model DeepSearch.DeepSearchModelDefault req))
             = Ok body).
  { match goal with
    | |- exists body, ?m = Ok body => destruct m as [body|e] eqn:Hmarshal
    end; [now exists body|].
    apply (f_equal is_Err) in Hmarshal.
    rewrite (proj1 (DeepSearch_Marshal_fails _ _ EmptyString)) in Hmarshal.
    destruct (nonempty (DeepSearch.Model req)).
    - rewrite Hm in Hmarshal. discriminate.
    - rewrite (proj2 (DeepSearch_Marshal_fails _ true _)), Hm in Hmarshal. discriminate. }
  destruct Hbody as [body Hbody].
  split.
  - intros e He. unfold DeepSearch.DeepSearchStream. rewrite Hbody.
    rewrite (doStream_callback_error _ _ resp (chunk_callback (spy cb)) lines good later
               bad err (st, []) (final_state cb chunks st, chunks)
               (Errorf "failed to unmarshal chunk: %w" [ArgErr e]));
      try (reflexivity || assumption).
    rewrite Hfin. unfold chunk_callback. now rewrite He.
  - intros c st' e Hc Hcb. unfold DeepSearch.DeepSearchStream. rewrite Hbody.
    rewrite (doStream_callback_error _ _ resp (chunk_callback (spy cb)) lines good later
               bad err (st, []) (st', chunks ++ [c]) e);
      try (reflexivity || assumption).
    rewrite Hfin. unfold chunk_callback. rewrite Hc. unfold spy. cbn [fst snd].
    now rewrite Hcb.
Qed.

End DeepSearchStream.

Lemma VLMStream_stops_at_first_failure_witness :
  snd (VLM.VLMStream (decoder := Samples.json_chunk)
         (fun _ => Ok Samples.sse_malformed) Samples.a_client
         (Samples.vlm_request false) (spy Samples.count) (0, []))
  = ((1, [Samples.json1]),
     Some (Errorf "failed to unmarshal chunk: %w" [ArgErr (SyntaxError "invalid JSON")]))
  /\ snd (VLM.VLMStream (decoder := Samples.json_chunk)
         (fun _ => Ok Samples.sse_three) Samples.a_client
         (Samples.vlm_request false) (spy Samples.fail_second) (0, []))
  = ((2, [Samples.json1; Samples.json2]), Some (OtherError "stop")).
Proof.
  split.
  - destruct (VLMStream_stops_at_first_failure (decoder := Samples.json_chunk)
                Samples.a_client (Samples.vlm_request false) Samples.sse_malformed
                Samples.count
                ["data: " +:+ Samples.chunk1; "data: {oops"; "data: " +:+ Samples.chunk3]
                [Samples.chunk1] [Samples.chunk3] "{oops" [Samples.json1] None 0)
      as (_ & Hdecode & _);
      [ reflexivity | reflexivity | reflexivity
      | intros Hin; apply elem_of_cons in Hin as [Hin|Hin]; [discriminate Hin | inversion Hin]
      | discriminate | repeat constructor | reflexivity
      | exact (Hdecode _ eq_refl) ].
  - destruct (VLMStream_stops_at_first_failure (decoder := Samples.json_chunk)
                Samples.a_client (Samples.vlm_request false) Samples.sse_three
                Samples.fail_second
                ["data: " +:+ Samples.chunk1; "data: " +:+ Samples.chunk2;
                 "data: " +:+ Samples.chunk3]
                [Samples.chunk1] [Samples.chunk3] Samples.chunk2 [Samples.json1] None 0)
      as (_ & _ & Hcallback);
      [ reflexivity | reflexivity | reflexivity
      | intros Hin; apply elem_of_cons in Hin as [Hin|Hin]; [discriminate Hin | inversion Hin]
      | discriminate | repeat constructor | reflexivity
      | exact (Hcallback Samples.json2 2 (OtherError "stop") eq_refl eq_refl) ].
Defined.

End StreamFacts.

(** ** The rerank request marshaler *)

Module RerankFacts.
Import Rerank.

Example MarshalJSON_rerank_both :
  MarshalJSON Samples.rerank_both
  = JObj [("documents", JArr [JObj [("text", JStr "structured")]]);
          ("model", JStr "jina-reranker-m0");
          ("query", JStr "programming languages");
          ("return_documents", JBool false);
          ("top_n", JInt 3)].
Proof. reflexivity. Qed.

Lemma MarshalJSON_query (r : RerankRequest) :
  json_field "query" (MarshalJSON r)
  = Some (match QueryInput r with
          | Some qi => RerankInput_json qi
          | None => JStr (Query r)
          end).
Proof.
  unfold MarshalJSON.
  destruct (Z.ltb 0 (TopN r)), (ReturnDocuments r), (QueryInput r),
    (Z.ltb 0 (len (DocumentsInput r))); reflexivity.
Qed.

Lemma MarshalJSON_documents (r : RerankRequest) :
  json_field "documents" (MarshalJSON r)
  = Some (if Z.ltb 0 (len (DocumentsInput r))
          then json_of_slice RerankInput_json (DocumentsInput r)
          else json_of_slice JStr (Documents r)).
Proof.
  unfold MarshalJSON.
  destruct (Z.ltb 0 (TopN r)), (ReturnDocuments r), (QueryInput r),
    (Z.ltb 0 (len (DocumentsInput r))); reflexivity.
Qed.

(** C1, as the code has it.  The documents slot goes by non-emptiness: a
    structured list with at least one element is what is written, never the
    flat list, and an empty or nil structured list leaves the flat list.
    The query slot goes by presence: a non-nil [QueryInput] is written
    whatever it holds, and the [Query] string is written only when
    [QueryInput] is nil. *)
Theorem MarshalJSON_precedence (r : RerankRequest) :
  (forall qi, QueryInput r = Some qi ->
     json_field "query" (MarshalJSON r) = Some (RerankInput_json qi))
  /\ (QueryInput r = None ->
      json_field "query" (MarshalJSON r) = Some (JStr (Query r)))
  /\ (0 < len (DocumentsInput r) ->
      json_field "documents" (MarshalJSON r)
      = Some (JArr (map RerankInput_json (elems (DocumentsInput r)))))
  /\ (len (DocumentsInput r) = 0 ->
      json_field "documents" (MarshalJSON r) = Some (json_of_slice JStr (Documents r))).
Proof.
  repeat split.
  - intros qi Hq. now rewrite MarshalJSON_query, Hq.
  - intros Hq. now rewrite MarshalJSON_query, Hq.
  - intros Hlen. rewrite MarshalJSON_documents.
    apply Z.ltb_lt in Hlen. rewrite Hlen.
    destruct (DocumentsInput r); [reflexivity | discriminate].
  - intros Hlen. rewrite MarshalJSON_documents. now rewrite Hlen.
Qed.

Lemma MarshalJSON_precedence_witness :
  json_field "documents" (MarshalJSON Samples.rerank_both)
  = Some (JArr [JObj [("text", JStr "structured")]])
  /\ json_field "query" (MarshalJSON Samples.rerank_both)
     = Some (JStr "programming languages").
Proof.
  destruct (MarshalJSON_precedence Samples.rerank_both) as (_ & Hquery & Hdocs & _).
  split; [exact (Hdocs eq_refl) | exact (Hquery eq_refl)].
Defined.

(** C1, as the claim has it, fails on the query slot: a [QueryInput] that
    is present with both fields empty is written (as the empty object), and
    the [Query] string is not. *)
Lemma MarshalJSON_empty_query_input :
  QueryInput Samples.rerank_empty_query_input
    = Some {| Text := EmptyString; Image := EmptyString |}
  /\ json_field "query" (MarshalJSON Samples.rerank_empty_query_input) = Some (JObj [])
  /\ json_field "query" (MarshalJSON Samples.rerank_empty_query_input)
     <> Some (JStr (Query Samples.rerank_empty_query_input)).
Proof. repeat split. discriminate. Qed.

End RerankFacts.

(** ** The classification input marshaler *)

Module ClassificationFacts.
Import Classification.



End ClassificationFacts.

(** ** The token decoder *)

Module SegmenterFacts.
Import Segmenter.

Example parse_token_pair :
  json_parse Samples.token_pair
  = Some (JArr [JStr "hello"; JArr [JInt 1; JInt 2; JInt 3]]).
Proof. reflexivity. Qed.

(** An element that is not a number stops the loop with an error. *)
Lemma fill_ids_error (idsRaw : list json) (i : nat) (ids : list Z) :
  forallb is_number idsRaw = false -> is_Some (snd (fill_ids idsRaw i ids)).
Proof.
  revert i ids. induction idsRaw as [|v idsRaw IH]; intros i ids Hnum; [discriminate|].
  destruct v; simpl in Hnum |- *; try (eexists; reflexivity).
  now apply IH.
Qed.



(** C5.  The pair of hello and 1, 2, 3 decodes to that token; an array of
    another length, a first element that is not a string, and a second
    element that is not an array of numbers each end in an error. *)
Theorem UnmarshalJSON_pair (t : Token) :
  UnmarshalJSON t Samples.token_pair
    = ({| Text := "hello"; IDs := Some [1; 2; 3] |}, None)
  /\ (forall data l, json_parse data = Some (JArr l) -> length l <> 2%nat ->
        is_Some (snd (UnmarshalJSON t data)))
  /\ (forall data a b, json_parse data = Some (JArr [a; b]) -> is_string a = false ->
        is_Some (snd (UnmarshalJSON t data)))
  /\ (forall data a b, json_parse data = Some (JArr [a; b]) -> is_number_array b = false ->
        is_Some (snd (UnmarshalJSON t data))).
Proof.
  repeat split.
  - intros data l Hparse Hlen. unfold UnmarshalJSON, Unmarshal_slice. rewrite Hparse.
    unfold len. destruct (Z.eqb_spec (Z.of_nat (length l)) 2) as [Heq|Hne]; [lia|].
    simpl. eexists; reflexivity.
  - intros data a b Hparse Ha. unfold UnmarshalJSON, Unmarshal_slice. rewrite Hparse.
    simpl. destruct a; try discriminate; eexists; reflexivity.
  - intros data a b Hparse Hb. unfold UnmarshalJSON, Unmarshal_slice. rewrite Hparse.
    simpl. destruct a; try (eexists; reflexivity).
    destruct b; try (eexists; reflexivity). simpl in Hb.
    destruct (fill_ids_error l 0 (replicate (length l) 0) Hb) as [e He].
    destruct (fill_ids l 0 (replicate (length l) 0)) as [ids err]. simpl in He |- *.
    rewrite He. eexists; reflexivity.
Qed.

Lemma UnmarshalJSON_pair_witness :
  UnmarshalJSON Samples.empty_token Samples.token_pair
    = ({| Text := "hello"; IDs := Some [1; 2; 3] |}, None)
  /\ is_Some (snd (UnmarshalJSON Samples.empty_token "[1]"))
  /\ is_Some (snd (UnmarshalJSON Samples.empty_token "[1, [2]]"))
  /\ is_Some (snd (UnmarshalJSON Samples.empty_token
                     ("[" +:+ quoted "a" +:+ ", [true]]"))).
Proof.
  destruct (UnmarshalJSON_pair Samples.empty_token) as (Hpair & Harity & Hfirst & Hsecond).
  split; [exact Hpair|]. split; [|split].
  - apply (Harity "[1]" [JInt 1]); [reflexivity | discriminate].
  - apply (Hfirst "[1, [2]]" (JInt 1) (JArr [JInt 2])); reflexivity.
  - apply (Hsecond ("[" +:+ quoted "a" +:+ ", [true]]") (JStr "a") (JArr [JBool true]));
      reflexivity.
Defined.

End SegmenterFacts.

(** ** Validation before the request *)

Section Validation.
Variable transport : Request -> result Response.
Context {StructuredReaderResponse StructuredSearchResponse : Type}
        {reader_decoder : Unmarshal StructuredReaderResponse}
        {search_decoder : Unmarshal StructuredSearchResponse}.

(** C8.  With an empty URL, [Reader] returns its validation error and has
    handed no request to the transport; so does [Search] with an empty
    query. *)
Theorem validation_precedes_request (cl : Client) :
  (forall req, Reader.URL req = EmptyString ->
     Reader.Reader (decoder := reader_decoder) transport cl req
     = ([], Err (Errorf "URL is required" [])))
  /\ (forall req, Search.Query req = EmptyString ->
        Search.Search (decoder := search_decoder) transport cl req
        = ([], Err (Errorf "query is required" []))).
Proof.
  split; intros req Hempty.
  - unfold Reader.Reader. now rewrite Hempty.
  - unfold Search.Search. now rewrite Hempty.
Qed.

End Validation.

Lemma validation_precedes_request_witness :
  Reader.Reader (decoder := Samples.json_chunk)
    (Samples.server (Samples.ok_response "never read"))
    Samples.a_client (Samples.reader_request EmptyString)
  = ([], Err (Errorf "URL is required" []))
  /\ Search.Search (decoder := Samples.json_chunk)
       (Samples.server (Samples.ok_response "never read"))
       Samples.a_client (Samples.search_request EmptyString)
     = ([], Err (Errorf "query is required" [])).
Proof.
  destruct (validation_precedes_request
              (StructuredReaderResponse := json) (StructuredSearchResponse := json)
              (reader_decoder := Samples.json_chunk) (search_decoder := Samples.json_chunk)
              (Samples.server (Samples.ok_response "never read")) Samples.a_client)
    as (Hreader & Hsearch).
  split; [exact (Hreader (Samples.reader_request EmptyString) eq_refl)
         | exact (Hsearch (Samples.search_request EmptyString) eq_refl)].
Defined.

(** ** What each call sends and returns *)

Ltac run_call :=
  unfold bind, lift, wrap, wrap_io, Do, fail, ret, json_endpoint_outcome, remote_error;
  cbn [fst snd app];
  repeat match goal with
         | |- context [match ?t ?r with Ok _ => _ | Err _ => _ end] =>
             destruct (t r) as [?resp|?err]; cbn [fst snd app]
         | |- context [if negb (Z.eqb (StatusCode ?resp) StatusOK) then _ else _] =>
             destruct (negb (Z.eqb (StatusCode resp) StatusOK)); cbn [fst snd app]
         | |- context [match Decode_map ?resp with Ok _ => _ | Err _ => _ end] =>
             destruct (Decode_map resp); cbn [fst snd app]
         | |- context [match Decode_into ?resp with Ok _ => _ | Err _ => _ end] =>
             destruct (Decode_into resp); cbn [fst snd app]
         end;
  try reflexivity.

Section Runs.
Variable transport : Request -> result Response.

Lemma Classify_run {R : Type} {decoder : Unmarshal R}
    (cl : Client) (req : Classification.ClassificationRequest) :
  exists body,
    Classification.Marshal req = Ok body /\
    let httpReq := json_headers cl "application/json"
                     (NewRequest "https://api.jina.ai/v1/classify" body) in
    Classification.Classify (decoder := decoder) transport cl req
    = ([httpReq], json_endpoint_outcome (transport httpReq)).
Proof.
  eexists. split; [reflexivity|]. unfold Classification.Classify, Classification.Marshal.
  run_call.
Qed.

Lemma Rerank_run {R : Type} {decoder : Unmarshal R}
    (cl : Client) (req : Rerank.RerankRequest) :
  let httpReq := json_headers cl "application/json"
                   (NewRequest "https://api.jina.ai/v1/rerank" (Rerank.MarshalJSON req)) in
  Rerank.Rerank (decoder := decoder) transport cl req
  = ([httpReq], json_endpoint_outcome (transport httpReq)).
Proof. unfold Rerank.Rerank. run_call. Qed.

Lemma Segment_run {R : Type} {decoder : Unmarshal R}
    (cl : Client) (req : Segmenter.SegmenterRequest) :
  exists body,
    Segmenter.Marshal req = Ok body /\
    let httpReq := json_headers cl "application/json"
                     (NewRequest "https://segment.jina.ai/" body) in
    Segmenter.Segment (decoder := decoder) transport cl req
    = ([httpReq], json_endpoint_outcome (transport httpReq)).
Proof.
  eexists. split; [reflexivity|]. unfold Segmenter.Segment, Segmenter.Marshal.
  run_call.
Qed.

(** The request value [VLM] and [VLMStream] marshal: the default model
    filled in, the stream flag overwritten. *)
Lemma VLM_run {R : Type} {decoder : Unmarshal R} (cl : Client) (req : VLM.VLMRequest) :
  let req' := VLM.set_Stream false
                (if nonempty (VLM.Model req) then req
                 else VLM.set_Model VLM.VLMModelDefault req) in
  exists body,
    VLM.Marshal req' = Ok body /\
    let httpReq := json_headers cl "application/json"
                     (NewRequest "https://api-beta-vlm.jina.ai/v1/chat/completions" body) in
    VLM.VLM (decoder := decoder) transport cl req
    = ([httpReq], json_endpoint_outcome (transport httpReq)).
Proof.
  eexists. split; [reflexivity|]. unfold VLM.VLM, VLM.Marshal.
  run_call.
Qed.

Lemma DeepSearch_run {R : Type} {decoder : Unmarshal R}
    (cl : Client) (req : DeepSearch.DeepSearchRequest) :
  let req' := DeepSearch.set_Stream false
                (if nonempty (DeepSearch.Model req) then req
                 else DeepSearch.set_Model DeepSearch.DeepSearchModelDefault req) in
  DeepSearch.DeepSearch (decoder := decoder) transport cl req
  = match DeepSearch.Marshal req' with
    | Err err => ([], Err (Errorf "failed to marshal request: %w" [ArgErr err]))
    | Ok body =>
        let httpReq := json_headers cl "application/json"
                         (NewRequest "https://deepsearch.jina.ai/v1/chat/completions" body) in
        ([httpReq], json_endpoint_outcome (transport httpReq))
    end.
Proof.
  unfold DeepSearch.DeepSearch. cbv zeta.
  destruct (DeepSearch.Marshal _) as [body|err]; run_call.
Qed.

Lemma Reader_run {R : Type} {decoder : Unmarshal R}
    (cl : Client) (req : Reader.ReaderRequest) :
  Reader.URL req <> EmptyString ->
  let req' := if client.EUCompliance (client.cfg cl)
              then Reader.set_EUCompliance true req else req in
  exists body,
    Reader.Marshal req' = Ok body /\
    let httpReq := Reader.setReaderHeaders cl
                     (with_header (Header_Set "Content-Type" "application/json")
                        (NewRequest (Reader.buildReaderURL req') body)) req' in
    Reader.Reader (decoder := decoder) transport cl req
    = ([httpReq],
       match transport httpReq with
       | Err err => Err (Errorf "do request: %w" [ArgErr err])
       | Ok resp =>
           if negb (Z.eqb (StatusCode resp) StatusOK) then
             Err (Errorf "API error: status %d, body: %s"
                         [ArgInt (StatusCode resp); ArgStr (Body resp)])
           else match ReadAll resp with
                | (_, Some err) => Err (Errorf "read response body: %w" [ArgErr err])
                | (body, None) => Reader.parseReaderResponse body (Reader.JSONResponse req')
                end
       end).
Proof.
  intros Hurl. eexists. split; [reflexivity|].
  unfold Reader.Reader, Reader.Marshal.
  destruct (Reader.URL req) eqn:Hu; [congruence|]. cbn [nonempty negb]. cbv zeta.
  unfold bind, lift, wrap_io, Do, fail. unfold wrap. cbn [fst snd app].
  match goal with |- context [transport ?r] => set (httpReq := r) end.
  destruct (transport httpReq) as [resp|err]; cbn [fst snd app]; [|reflexivity].
  destruct (negb _); [reflexivity|]. unfold ReadAll.
  destruct (BodyErr resp) as [[]|]; reflexivity.
Qed.

Lemma Search_run {R : Type} {decoder : Unmarshal R}
    (cl : Client) (req : Search.SearchRequest) :
  Search.Query req <> EmptyString ->
  let req' := if client.EUCompliance (client.cfg cl)
              then Search.set_EUCompliance true req else req in
  exists body,
    Search.Marshal req' = Ok body /\
    let httpReq := Search.setSearchHeaders cl
                     (with_header (Header_Set "Content-Type" "application/json")
                        (NewRequest (Search.buildSearchURL req') body)) req' in
    Search.Search (decoder := decoder) transport cl req
    = ([httpReq],
       match transport httpReq with
       | Err err => Err (Errorf "do request: %w" [ArgErr err])
       | Ok resp =>
           if negb (Z.eqb (StatusCode resp) StatusOK) then
             Err (Errorf "API error: status %d, body: %s"
                         [ArgInt (StatusCode resp); ArgStr (Body resp)])
           else match ReadAll resp with
                | (_, Some err) => Err (Errorf "read response body: %w" [ArgErr err])
                | (body, None) => Search.parseSearchResponse body (Search.JSONResponse req')
                end
       end).
Proof.
  intros Hq. eexists. split; [reflexivity|].
  unfold Search.Search, Search.Marshal.
  destruct (Search.Query req) eqn:Hu; [congruence|]. cbn [nonempty negb]. cbv zeta.
  unfold bind, lift, wrap_io, Do, fail. unfold wrap. cbn [fst snd app].
  match goal with |- context [transport ?r] => set (httpReq := r) end.
  destruct (transport httpReq) as [resp|err]; cbn [fst snd app]; [|reflexivity].
  destruct (negb _); [reflexivity|]. unfold ReadAll.
  destruct (BodyErr resp) as [[]|]; reflexivity.
Qed.

End Runs.

(** ** Responses with a status other than 200 *)








(** ** The Authorization header *)

Example CanonicalHeaderKey_DNT : CanonicalHeaderKey "DNT" = "Dnt".
Proof. reflexivity. Qed.


Lemma add_if_other (cond : bool) (k k' v : string) (h : Header) :
  CanonicalHeaderKey k <> CanonicalHeaderKey k' ->
  add_if cond k v h !! CanonicalHeaderKey k' = h !! CanonicalHeaderKey k'.
Proof.
  intros Hne. unfold add_if, Header_Add. destruct cond; [|reflexivity].
  now rewrite lookup_insert_ne.
Qed.

Ltac other_headers :=
  repeat (rewrite add_if_other by (vm_compute; discriminate)).

(** The JSON endpoints set the header when, and only when, the key is not
    empty. *)
Lemma json_headers_authorization (cl : Client) (accept url : string) (body : json) :
  Header_Values "Authorization" (ReqHeader (json_headers cl accept (NewRequest url body)))
  = if nonempty (client.APIKey (client.cfg cl))
    then Some ["Bearer " +:+ client.APIKey (client.cfg cl)]
    else None.
Proof.
  unfold json_headers. destruct (nonempty _); vm_compute; reflexivity.
Qed.

(** Reader and Search add it whatever the key is. *)
Lemma setReaderHeaders_authorization
    (cl : Client) (httpReq : Request) (req : Reader.ReaderRequest) :
  Header_Values "Authorization" (ReqHeader httpReq) = None ->
  Header_Values "Authorization" (ReqHeader (Reader.setReaderHeaders cl httpReq req))
  = Some ["Bearer " +:+ client.APIKey (client.cfg cl)].
Proof.
  unfold Header_Values, Reader.setReaderHeaders, with_header. cbn [ReqHeader]. intros Hnone.
  other_headers. unfold Header_Add. rewrite lookup_insert_eq, Hnone. reflexivity.
Qed.

Lemma setSearchHeaders_authorization
    (cl : Client) (httpReq : Request) (args : Search.SearchRequest) :
  Header_Values "Authorization" (ReqHeader httpReq) = None ->
  Header_Values "Authorization" (ReqHeader (Search.setSearchHeaders cl httpReq args))
  = Some ["Bearer " +:+ client.APIKey (client.cfg cl)].
Proof.
  unfold Header_Values, Search.setSearchHeaders, with_header. cbn [ReqHeader]. intros Hnone.
  other_headers. unfold Header_Add. rewrite lookup_insert_eq, Hnone. reflexivity.
Qed.

Section Authorization.
Variable transport : Request -> result Response.
Context {R : Type} {decoder : Unmarshal R}.

Lemma Classify_authorization (cl : Client) (req : Classification.ClassificationRequest) :
  map (fun r => Header_Values "Authorization" (ReqHeader r))
      (sent (Classification.Classify (decoder := decoder) transport cl req))
  = [if nonempty (client.APIKey (client.cfg cl))
     then Some ["Bearer " +:+ client.APIKey (client.cfg cl)]
     else None].
Proof.
  destruct (Classify_run transport cl req) as (body & _ & ->).
  unfold sent. cbn [fst map]. now rewrite json_headers_authorization.
Qed.

Lemma Reader_authorization (cl : Client) (req : Reader.ReaderRequest) :
  Reader.URL req <> EmptyString ->
  map (fun r => Header_Values "Authorization" (ReqHeader r))
      (sent (Reader.Reader (decoder := decoder) transport cl req))
  = [Some ["Bearer " +:+ client.APIKey (client.cfg cl)]].
Proof.
  intros Hurl. destruct (Reader_run transport cl req Hurl) as (body & _ & ->).
  unfold sent. cbn [fst map]. now rewrite setReaderHeaders_authorization.
Qed.

Lemma Search_authorization (cl : Client) (req : Search.SearchRequest) :
  Search.Query req <> EmptyString ->
  map (fun r => Header_Values "Authorization" (ReqHeader r))
      (sent (Search.Search (decoder := decoder) transport cl req))
  = [Some ["Bearer " +:+ client.APIKey (client.cfg cl)]].
Proof.
  intros Hq. destruct (Search_run transport cl req Hq) as (body & _ & ->).
  unfold sent. cbn [fst map]. now rewrite setSearchHeaders_authorization.
Qed.

End Authorization.

(** C3 at a client without a key.  Classify sends no Authorization header;
    Reader and Search send one, whose value is the bare scheme. *)
Theorem authorization_without_key :
  client.APIKey (client.cfg Samples.keyless_client) = EmptyString
  /\ map (fun r => Header_Values "Authorization" (ReqHeader r))
         (sent (Classification.Classify (decoder := Samples.json_chunk)
                  (Samples.server (Samples.ok_response "{}"))
                  Samples.keyless_client Samples.classification_request))
     = [None]
  /\ map (fun r => Header_Values "Authorization" (ReqHeader r))
         (sent (Reader.Reader (decoder := Samples.json_chunk)
                  (Samples.server (Samples.ok_response "{}"))
                  Samples.keyless_client (Samples.reader_request "https://example.com")))
     = [Some ["Bearer "]]
  /\ map (fun r => Header_Values "Authorization" (ReqHeader r))
         (sent (Search.Search (decoder := Samples.json_chunk)
                  (Samples.server (Samples.ok_response "{}"))
                  Samples.keyless_client (Samples.search_request "Jina AI")))
     = [Some ["Bearer "]].
Proof.
  split; [reflexivity|]. split; [|split].
  - apply (Classify_authorization _ Samples.keyless_client).
  - apply (Reader_authorization _ Samples.keyless_client). discriminate.
  - apply (Search_authorization _ Samples.keyless_client). discriminate.
Qed.

(** ** The stream flag *)


Lemma doStream_sent {S : Type} (transport : Request -> result Response)
    (req : Request) (cb : callback string S) (st : S) :
  fst (doStream transport req cb st) = [req].
Proof.
  unfold doStream. destruct (transport req) as [resp|err]; [|reflexivity].
  destruct (negb _); [reflexivity|]. destruct (Scanner resp) as [lines scan_err].
  destruct (stream_loop cb lines st) as [st' [r|]]; [reflexivity|].
  destruct (errors_Is scan_err EOF_target); [reflexivity|]. now destruct scan_err.
Qed.



Example DeepSearchStream_body :
  map ReqBody
      (fst (DeepSearch.DeepSearchStream (decoder := Samples.json_chunk)
              (Samples.server Samples.sse_done) Samples.a_client
              (Samples.deepsearch_request false) (@Samples.count json) 0))
  = [JObj [("model", JStr "jina-deepsearch-v1");
           ("messages", JArr [JObj [("role", JStr "user");
                                    ("content", JStr "Who discovered penicillin?")]]);
           ("stream", JBool true);
           ("reasoning_effort", JStr "low")]].
Proof. reflexivity. Qed.

Section StreamFlag.
Variable transport : Request -> result Response.
Context {R : Type} {decoder : Unmarshal R} {S : Type}.


End StreamFlag.



(* ===================================================================== *)
(** * Further properties of the code *)
(* ===================================================================== *)

(** ** More on the streaming loop *)

Lemma stream_loop_feed {S : Type} (cb : callback string S) (lines : list string) (st : S) :
  stream_loop cb lines st = feed cb (payloads lines) st.
Proof.
  revert st. induction lines as [|line lines IH]; intros st; [reflexivity|].
  destruct (payload line) as [d|] eqn:Hline.
  - assert (Hcons : payloads (line :: lines) = d :: payloads lines)
      by (unfold payloads; simpl; now rewrite Hline).
    rewrite Hcons. cbn [feed]. destruct (String.eqb_spec d "[DONE]") as [->|Hd].
    + now apply loop_done.
    + rewrite (loop_data cb line d) by assumption.
      destruct (cb d st) as [st' [err|]]; [reflexivity | apply IH].
  - assert (Hcons : payloads (line :: lines) = payloads lines)
      by (unfold payloads; simpl; now rewrite Hline).
    rewrite Hcons, loop_skip by assumption. apply IH.
Qed.

Lemma scan_lines_no_line_feed (line rest cur : string) (n : Z) :
  no_line_feed line = true ->
  n + Z.of_nat (String.length line) < MaxScanTokenSize ->
  scan_lines (line +:+ String (byte 10) rest) cur n
  = (finish_line (rev_onto line cur) :: fst (scan_lines rest EmptyString 0),
     snd (scan_lines rest EmptyString 0)).
Proof.
  revert cur n. induction line as [|c line IH]; intros cur n Hline Hlen.
  - simpl. now destruct (scan_lines rest EmptyString 0).
  - simpl in Hline. apply andb_prop in Hline as [Hlf Hline]. apply negb_true_iff in Hlf.
    rewrite append_cons. cbn [scan_lines]. rewrite Hlf.
    cbn [String.length] in Hlen.
    destruct (Z.leb_spec MaxScanTokenSize (n + 1)) as [Hlong|_]; [lia|].
    rewrite IH by (assumption || lia). reflexivity.
Qed.

Lemma no_line_break_no_line_feed (s : string) :
  no_line_break s = true -> no_line_feed s = true.
Proof.
  induction s as [|c s IH]; [reflexivity|]. simpl. intros H.
  apply andb_prop in H as [Hc Hs]. apply andb_prop in Hc as [Hlf _].
  now rewrite Hlf, IH.
Qed.

Lemma append_assoc (a b c : string) : (a +:+ b) +:+ c = a +:+ (b +:+ c).
Proof. induction a as [|x a IH]; [reflexivity|]. now rewrite !append_cons, IH. Qed.

Lemma no_line_feed_app (a b : string) :
  no_line_feed a = true -> no_line_feed b = true -> no_line_feed (a +:+ b) = true.
Proof.
  induction a as [|x a IH]; [now intros|]. rewrite append_cons. simpl. intros Ha Hb.
  apply andb_prop in Ha as [Hx Ha]. now rewrite Hx, IH.
Qed.

Lemma length_append (a b : string) :
  String.length (a +:+ b) = (String.length a + String.length b)%nat.
Proof. induction a as [|x a IH]; [reflexivity|]. rewrite append_cons. simpl. now rewrite IH. Qed.

Lemma rev_onto_app (a b acc : string) :
  rev_onto (a +:+ b) acc = rev_onto b (rev_onto a acc).
Proof.
  revert acc. induction a as [|x a IH]; intros acc; [reflexivity|].
  rewrite append_cons. cbn [rev_onto]. apply IH.
Qed.

(** A line, a carriage return and a line feed make the line. *)
Lemma scan_lines_crlf_line (line rest : string) :
  no_line_break line = true ->
  Z.of_nat (String.length line) + 1 < MaxScanTokenSize ->
  scan_lines (line +:+ crlf +:+ rest) EmptyString 0
  = (line :: fst (scan_lines rest EmptyString 0), snd (scan_lines rest EmptyString 0)).
Proof.
  intros Hline Hlen. unfold crlf.
  replace (line +:+ String (byte 13) (String (byte 10) EmptyString) +:+ rest)
    with ((line +:+ String (byte 13) EmptyString) +:+ String (byte 10) rest)
    by (now rewrite append_assoc).
  rewrite scan_lines_no_line_feed.
  - rewrite rev_onto_app. cbn [rev_onto finish_line].
    change (Z.eqb (code (byte 13)) 13) with true. cbv iota.
    pose proof (rev_onto_involutive line EmptyString EmptyString) as Hinv.
    cbn [rev_onto] in Hinv. rewrite append_empty in Hinv. now rewrite Hinv.
  - apply no_line_feed_app; [now apply no_line_break_no_line_feed | reflexivity].
  - rewrite length_append. cbn [String.length]. lia.
Qed.

Lemma scan_lines_crlf_body (lines : list string) :
  Forall (fun line => no_line_break line = true
                      /\ Z.of_nat (String.length line) + 1 < MaxScanTokenSize) lines ->
  scan_lines (body_of_lines_crlf lines) EmptyString 0 = (lines, false).
Proof.
  induction 1 as [|line lines [Hline Hlen] _ IH]; [reflexivity|].
  cbn [body_of_lines_crlf]. rewrite scan_lines_crlf_line by assumption.
  now rewrite IH.
Qed.

(** A last line that is not empty and has no line feed after it. *)
Lemma scan_lines_last (line : string) :
  line <> EmptyString -> fits line ->
  scan_lines line EmptyString 0 = ([line], false).
Proof.
  intros Hne [Hline Hlen].
  assert (Hgen : forall s cur n,
             no_line_break s = true -> 0 <= n ->
             n + Z.of_nat (String.length s) < MaxScanTokenSize ->
             (s <> EmptyString \/ 0 < n) ->
             scan_lines s cur n = ([finish_line (rev_onto s cur)], false)).
  { induction s as [|c s IH]; intros cur n Hs Hn Hl Hpos.
    - cbn [scan_lines rev_onto]. destruct Hpos as [Hs'|Hpos]; [congruence|].
      destruct (Z.eqb_spec n 0); [lia | reflexivity].
    - simpl in Hs. apply andb_prop in Hs as [Hc Hs]. apply andb_prop in Hc as [Hlf _].
      apply negb_true_iff in Hlf. cbn [scan_lines]. rewrite Hlf.
      cbn [String.length] in Hl.
      destruct (Z.leb_spec MaxScanTokenSize (n + 1)) as [Hlong|_]; [lia|].
      cbn [rev_onto]. apply IH; [assumption | lia | lia | right; lia]. }
  rewrite Hgen; [|assumption|lia|lia|now left].
  now rewrite finish_line_rev.
Qed.

Lemma scan_lines_unterminated (init : list string) (last : string) :
  Forall fits init -> last <> EmptyString -> fits last ->
  scan_lines (body_of_lines init +:+ last) EmptyString 0 = (init ++ [last], false).
Proof.
  intros Hinit Hne Hlast. induction Hinit as [|line init [Hline Hlen] _ IH].
  - cbn [body_of_lines]. now apply scan_lines_last.
  - cbn [body_of_lines]. unfold newline.
    replace ((line +:+ String (byte 10) EmptyString +:+ body_of_lines init) +:+ last)
      with (line +:+ String (byte 10) (body_of_lines init +:+ last))
      by (now rewrite !append_assoc).
    rewrite scan_lines_line by (assumption || lia). rewrite IH.
    cbn [fst snd]. now rewrite finish_line_rev.
Qed.

(** Lines that fit, then a line that does not: the lines before it are
    delivered and the scan stops with the buffer full. *)
Lemma scan_lines_then_too_long (pre : list string) (line rest : string) :
  Forall fits pre ->
  no_line_break line = true ->
  MaxScanTokenSize <= Z.of_nat (String.length line) ->
  scan_lines (body_of_lines pre +:+ line +:+ rest) EmptyString 0 = (pre, true).
Proof.
  intros Hpre Hline Hlen. induction Hpre as [|l pre [Hl Hn] _ IH].
  - cbn [body_of_lines]. change (EmptyString +:+ line +:+ rest) with (line +:+ rest).
    apply scan_lines_too_long; [assumption | reflexivity | lia].
  - cbn [body_of_lines]. unfold newline.
    replace ((l +:+ String (byte 10) EmptyString +:+ body_of_lines pre) +:+ line +:+ rest)
      with (l +:+ String (byte 10) (body_of_lines pre +:+ line +:+ rest))
      by (now rewrite !append_assoc).
    rewrite scan_lines_line by (assumption || lia). rewrite IH.
    cbn [fst snd]. now rewrite finish_line_rev.
Qed.

Section DoStreamMore.
Context {S : Type}.

(** X1.  When the transport fails, or answers with a status other than
    200, [doStream] returns that error (the transport's own, or the one
    carrying the status code) after one request, and the callback is not
    invoked: the body is not looked at. *)
Theorem doStream_fails_before_reading
    (transport : Request -> result Response) (req : Request)
    (cb : callback string S) (st : S) :
  (forall e, transport req = Err e ->
     doStream transport req (spy cb) (st, []) = ([req], ((st, []), Some e)))
  /\ (forall resp, transport req = Ok resp -> StatusCode resp <> StatusOK ->
        doStream transport req (spy cb) (st, [])
        = ([req], ((st, []),
                   Some (Errorf "API error with status code: %d"
                                [ArgInt (StatusCode resp)])))).
Proof.
  split.
  - intros e He. unfold doStream. now rewrite He.
  - intros resp Hresp Hst. unfold doStream. rewrite Hresp.
    apply Z.eqb_neq in Hst. now rewrite Hst.
Qed.

(** X2.  What [doStream] does with a 200 response depends on its data
    lines only: two bodies whose lines carry the same payloads in the same
    order, and whose scans end the same way, give the same result, whatever
    other lines (blank lines, comments, other fields, a data field without
    the space after the colon) stand between them. *)
Theorem doStream_payloads_only
    (transport1 transport2 : Request -> result Response) (req : Request)
    (resp1 resp2 : Response) (cb : callback string S)
    (lines1 lines2 : list string) (err : option error) (st : S) :
  transport1 req = Ok resp1 -> transport2 req = Ok resp2 ->
  StatusCode resp1 = StatusOK -> StatusCode resp2 = StatusOK ->
  Scanner resp1 = (lines1, err) -> Scanner resp2 = (lines2, err) ->
  payloads lines1 = payloads lines2 ->
  doStream transport1 req cb st = doStream transport2 req cb st.
Proof.
  intros H1 H2 Hs1 Hs2 Hl1 Hl2 Hp. unfold doStream.
  rewrite H1, H2, Hs1, Hs2, Hl1, Hl2. cbn [negb Z.eqb StatusOK].
  now rewrite !stream_loop_feed, Hp.
Qed.

(** X3.  Line endings.  A body whose lines end in a carriage return and a
    line feed is handled as the body whose lines end in a line feed; and a
    last line that is not followed by a line feed is handled as if it
    were. *)
Theorem doStream_line_endings
    (req : Request) (cb : callback string S) (lines : list string) (last : string) (st : S) :
  Forall (fun line => no_line_break line = true
                      /\ Z.of_nat (String.length line) + 1 < MaxScanTokenSize) lines ->
  last <> EmptyString -> fits last ->
  let answer body := fun _ : Request =>
        Ok {| StatusCode := StatusOK; Body := body; BodyErr := None |} in
  doStream (answer (body_of_lines_crlf lines)) req cb st
  = doStream (answer (body_of_lines lines)) req cb st
  /\ doStream (answer (body_of_lines lines +:+ last)) req cb st
     = doStream (answer (body_of_lines (lines ++ [last]))) req cb st.
Proof.
  intros Hlines Hne Hlast answer.
  assert (Hfit : Forall fits lines).
  { eapply Forall_impl; [exact Hlines|]. intros l [Hl Hn]. split; [assumption | lia]. }
  assert (Hfit' : Forall fits (lines ++ [last]))
    by (apply Forall_app; split; [assumption | now constructor]).
  unfold doStream, answer, Scanner. cbn [StatusCode Body BodyErr].
  rewrite (scan_lines_crlf_body lines Hlines), (scan_lines_body lines Hfit),
    (scan_lines_unterminated lines last Hfit Hne Hlast), (scan_lines_body _ Hfit').
  split; reflexivity.
Qed.

(** X4.  A line of 65536 bytes or more does not fit the scanner's buffer:
    [doStream] delivers the chunks of the lines before it and returns
    [bufio.ErrTooLong]; the long line and what follows are not processed. *)
Theorem doStream_stops_at_long_line
    (transport : Request -> result Response) (req : Request) (cb : callback string S)
    (pre : list string) (line rest : string) (read_err : option error) (st : S) :
  transport req = Ok {| StatusCode := StatusOK;
                        Body := body_of_lines pre +:+ line +:+ rest;
                        BodyErr := read_err |} ->
  Forall fits pre ->
  no_line_break line = true ->
  MaxScanTokenSize <= Z.of_nat (String.length line) ->
  "[DONE]" ∉ payloads pre ->
  accepts cb (payloads pre) st = true ->
  doStream transport req (spy cb) (st, [])
  = ([req], ((final_state cb (payloads pre) st, payloads pre), Some ErrTooLong)).
Proof.
  intros Htr Hpre Hline Hlen Hdone Hacc. unfold doStream. rewrite Htr.
  unfold Scanner. cbn [StatusCode Body BodyErr].
  rewrite (scan_lines_then_too_long pre line rest Hpre Hline Hlen).
  rewrite Z.eqb_refl. cbn [negb].
  rewrite loop_exhausted by (assumption || now rewrite accepts_spy).
  now rewrite final_state_spy.
Qed.


End DoStreamMore.

Lemma doStream_fails_before_reading_witness :
  doStream Samples.unreachable Samples.a_request (spy Samples.count) (0, [])
  = ([Samples.a_request], ((0, []), Some (OtherError "dial tcp: connection refused")))
  /\ doStream (Samples.server Samples.bad_model) Samples.a_request
       (spy Samples.count) (0, [])
     = ([Samples.a_request],
        ((0, []), Some (Errorf "API error with status code: %d" [ArgInt 422]))).
Proof.
  split.
  - apply (proj1 (doStream_fails_before_reading Samples.unreachable Samples.a_request
                    Samples.count 0)).
    reflexivity.
  - apply (proj2 (doStream_fails_before_reading (Samples.server Samples.bad_model)
                    Samples.a_request Samples.count 0) Samples.bad_model).
    + reflexivity.
    + discriminate.
Defined.

Lemma doStream_payloads_only_witness :
  doStream (Samples.server Samples.sse_done) Samples.a_request (spy Samples.count) (0, [])
  = doStream (Samples.server Samples.sse_done_bare) Samples.a_request
      (spy Samples.count) (0, []).
Proof.
  apply (doStream_payloads_only (Samples.server Samples.sse_done)
           (Samples.server Samples.sse_done_bare) Samples.a_request
           Samples.sse_done Samples.sse_done_bare (spy Samples.count)
           (fst (Scanner Samples.sse_done)) (fst (Scanner Samples.sse_done_bare)) None);
    reflexivity.
Defined.

Lemma doStream_line_endings_witness :
  doStream (fun _ => Ok {| StatusCode := StatusOK;
                           Body := body_of_lines_crlf
                                     ["data: " +:+ Samples.chunk1; "data: [DONE]"];
                           BodyErr := None |})
           Samples.a_request (spy Samples.count) (0, [])
  = doStream (fun _ => Ok {| StatusCode := StatusOK;
                             Body := body_of_lines
                                       ["data: " +:+ Samples.chunk1; "data: [DONE]"];
                             BodyErr := None |})
             Samples.a_request (spy Samples.count) (0, []).
Proof.
  apply (doStream_line_endings Samples.a_request (spy Samples.count)
           ["data: " +:+ Samples.chunk1; "data: [DONE]"] "data: [DONE]" (0, [])).
  - repeat constructor.
  - discriminate.
  - split; reflexivity.
Defined.

Lemma pad_no_line_break (n : nat) : no_line_break (Samples.pad n) = true.
Proof. induction n as [|n IH]; [reflexivity | exact IH]. Qed.

Lemma pad_length (n : nat) : String.length (Samples.pad n) = n.
Proof. induction n as [|n IH]; [reflexivity | simpl; now rewrite IH]. Qed.

Lemma doStream_stops_at_long_line_witness :
  doStream (Samples.server Samples.sse_long_line) Samples.a_request
           (spy Samples.count) (0, [])
  = ([Samples.a_request], ((1, [Samples.chunk1]), Some ErrTooLong)).
Proof.
  apply (doStream_stops_at_long_line (Samples.server Samples.sse_long_line)
           Samples.a_request Samples.count ["data: " +:+ Samples.chunk1]
           (Samples.pad (Z.to_nat MaxScanTokenSize)) EmptyString None 0).
  - reflexivity.
  - repeat constructor.
  - apply pad_no_line_break.
  - rewrite pad_length, Z2Nat.id; [reflexivity | discriminate].
  - intros Hin. apply elem_of_cons in Hin as [Hin|Hin]; [discriminate Hin | inversion Hin].
  - reflexivity.
Defined.


(** ** More on the token decoder *)

Module TokenFacts.
Import Segmenter.







End TokenFacts.

(** ** Message content on the wire (VLM) *)

Module ContentFacts.
Import VLM.





(** X9.  A decode that fails leaves the receiver as it was; [null] is not
    a failure: it empties the text and leaves the parts; a number, a
    boolean and an object are refused with the one error the method has. *)
Theorem UnmarshalJSON_refusals (c : VLMMessageContent) (data : string) :
  (forall e, snd (UnmarshalJSON c data) = Some e ->
     UnmarshalJSON c data
     = (c, Some (Errorf "invalid VLMMessageContent: not a string or array of parts" [])))
  /\ (json_parse data = Some JNull ->
      UnmarshalJSON c data = ({| Text := EmptyString; Parts := Parts c |}, None))
  /\ (forall v, json_parse data = Some v ->
        match v with JNum _ _ | JBool _ | JObj _ => True | _ => False end ->
        UnmarshalJSON c data
        = (c, Some (Errorf "invalid VLMMessageContent: not a string or array of parts" []))).
Proof.
  repeat apply conj.
  - intros e. unfold UnmarshalJSON.
    destruct (json_parse data) as [v|]; [|reflexivity].
    destruct (decode_string v EmptyString); [discriminate|].
    destruct (decode_parts v); [discriminate|reflexivity].
  - intros Hparse. unfold UnmarshalJSON. now rewrite Hparse.
  - intros v Hparse Hkind. unfold UnmarshalJSON. rewrite Hparse.
    destruct v; try contradiction; reflexivity.
Qed.

Lemma UnmarshalJSON_refusals_witness :
  UnmarshalJSON (Content (NewVLMMessage "user" "kept")) "[1]"
  = (Content (NewVLMMessage "user" "kept"),
     Some (Errorf "invalid VLMMessageContent: not a string or array of parts" []))
  /\ UnmarshalJSON (Content (NewVLMMessage "user" "kept")) "null"
     = ({| Text := EmptyString; Parts := None |}, None)
  /\ UnmarshalJSON (Content (NewVLMMessage "user" "kept")) "{}"
     = (Content (NewVLMMessage "user" "kept"),
        Some (Errorf "invalid VLMMessageContent: not a string or array of parts" [])).
Proof.
  destruct (UnmarshalJSON_refusals (Content (NewVLMMessage "user" "kept")) "[1]")
    as (Hfail & _).
  destruct (UnmarshalJSON_refusals (Content (NewVLMMessage "user" "kept")) "null")
    as (_ & Hnull & _).
  destruct (UnmarshalJSON_refusals (Content (NewVLMMessage "user" "kept")) "{}")
    as (_ & _ & Hkind).
  split; [|split].
  - apply (Hfail (Errorf "invalid VLMMessageContent: not a string or array of parts" [])).
    reflexivity.
  - apply Hnull. reflexivity.
  - apply (Hkind (JObj [])); [reflexivity | exact I].
Defined.

End ContentFacts.

(** ** Client options *)

Module ClientFacts.
Import client.

Lemma options_EUCompliance (ss : list setting) (c : config) :
  EUCompliance (fold_left (fun c option => option c) (map option_of ss) c)
  = EUCompliance c || existsb is_EU ss.
Proof.
  revert c. induction ss as [|s ss IH]; intros c; cbn [map fold_left existsb].
  - now rewrite orb_false_r.
  - rewrite IH. destruct s; cbn; [reflexivity|]. now rewrite orb_true_r.
Qed.

Lemma options_APIKey_kept (ss : list setting) (c : config) :
  forallb is_EU ss = true ->
  APIKey (fold_left (fun c option => option c) (map option_of ss) c) = APIKey c.
Proof.
  revert c. induction ss as [|s ss IH]; intros c; cbn [map fold_left forallb];
    [reflexivity|].
  intros [Hs Hss]%andb_prop. rewrite (IH _ Hss). now destruct s.
Qed.

(** X10.  [NewClient] applies its options in order over the default
    configuration: the client routes to the EU hosts exactly when
    [WithEUCompliance] is among them (no option switches it off again),
    its key is the one of the last [WithAPIKey], and without one the key
    is empty. *)
Theorem NewClient_options (ss : list setting) :
  EUCompliance (cfg (NewClient (map option_of ss))) = existsb is_EU ss
  /\ (forall pre k post, ss = (pre ++ Key k :: post)%list -> forallb is_EU post = true ->
        APIKey (cfg (NewClient (map option_of ss))) = k)
  /\ (forallb is_EU ss = true -> APIKey (cfg (NewClient (map option_of ss))) = EmptyString).
Proof.
  unfold NewClient. cbn [cfg]. repeat apply conj.
  - now rewrite options_EUCompliance.
  - intros pre k post -> Hpost.
    rewrite map_app, fold_left_app. cbn [map fold_left option_of].
    now rewrite (options_APIKey_kept post _ Hpost).
  - intros Hss. now rewrite (options_APIKey_kept ss _ Hss).
Qed.

Lemma NewClient_options_witness :
  EUCompliance (cfg (NewClient [WithAPIKey "first"; WithEUCompliance; WithAPIKey "second";
                                WithEUCompliance])) = true
  /\ APIKey (cfg (NewClient [WithAPIKey "first"; WithEUCompliance; WithAPIKey "second";
                             WithEUCompliance])) = "second"
  /\ APIKey (cfg (NewClient [WithEUCompliance])) = EmptyString.
Proof.
  destruct (NewClient_options [Key "first"; EU; Key "second"; EU]) as (Heu & Hkey & _).
  destruct (NewClient_options [EU]) as (_ & _ & Hnone).
  split; [exact Heu|]. split.
  - apply (Hkey [Key "first"; EU] "second" [EU]); reflexivity.
  - apply Hnone. reflexivity.
Defined.

End ClientFacts.

(** ** The headers of a Reader and of a Search request *)

Lemma elem_of_map_1 {A B : Type} (f : A -> B) (l : list A) (x : A) :
  x ∈ l -> f x ∈ map f l.
Proof.
  induction 1; cbn [map]; [apply list_elem_of_here | now apply list_elem_of_further].
Qed.

Lemma add_table_cons (e : bool * string * string) (table : list (bool * string * string))
    (h : Header) :
  add_table (e :: table) h
  = add_table table (add_if (fst (fst e)) (snd (fst e)) (snd e) h).
Proof. reflexivity. Qed.

Lemma add_if_lookup_other (c : bool) (k v : string) (h : Header) (key : string) :
  key <> CanonicalHeaderKey k -> add_if c k v h !! key = h !! key.
Proof.
  intros Hne. unfold add_if, Header_Add. destruct c; [|reflexivity].
  now rewrite lookup_insert_ne.
Qed.

Lemma add_if_lookup_fresh (c : bool) (k v : string) (h : Header) :
  h !! CanonicalHeaderKey k = None ->
  add_if c k v h !! CanonicalHeaderKey k = if c then Some [v] else None.
Proof.
  intros Hfresh. unfold add_if, Header_Add. destruct c; [|exact Hfresh].
  rewrite Hfresh. cbn [default app]. apply lookup_insert_eq.
Qed.

(** A name that no line of the table writes keeps its values. *)
Lemma add_table_lookup_other (table : list (bool * string * string)) (h : Header)
    (key : string) :
  key ∉ map (fun e => CanonicalHeaderKey (snd (fst e))) table ->
  add_table table h !! key = h !! key.
Proof.
  revert h. induction table as [|e table IH]; intros h Hnot; [reflexivity|].
  rewrite add_table_cons. cbn [map] in Hnot.
  apply not_elem_of_cons in Hnot as [Hne Hnot].
  rewrite (IH _ Hnot). now apply add_if_lookup_other.
Qed.

(** A table that names every header once, over headers that have none of
    them: each line decides its header alone. *)
Lemma add_table_entry (table : list (bool * string * string)) (h : Header)
    (c : bool) (k v : string) :
  NoDup (map (fun e => CanonicalHeaderKey (snd (fst e))) table) ->
  (c, k, v) ∈ table ->
  h !! CanonicalHeaderKey k = None ->
  add_table table h !! CanonicalHeaderKey k = if c then Some [v] else None.
Proof.
  revert h. induction table as [|e table IH]; intros h Hdup Hin Hfresh.
  - inversion Hin.
  - rewrite add_table_cons. cbn [map] in Hdup. apply NoDup_cons in Hdup as [Hnot Hdup].
    apply elem_of_cons in Hin as [<-|Hin].
    + cbn [fst snd] in *. rewrite (add_table_lookup_other _ _ _ Hnot).
      now apply add_if_lookup_fresh.
    + apply (IH _ Hdup Hin). rewrite add_if_lookup_other; [exact Hfresh|].
      intros Heq. apply Hnot. rewrite <- Heq.
      apply (elem_of_map_1 (fun e => CanonicalHeaderKey (snd (fst e))) _ _ Hin).
Qed.

(** Nothing else is written: a header of the result was there before or
    is the single value of a line whose condition holds. *)
Lemma add_table_values (table : list (bool * string * string)) (h : Header)
    (key : string) (vs : list string) :
  NoDup (map (fun e => CanonicalHeaderKey (snd (fst e))) table) ->
  Forall (fun e => h !! CanonicalHeaderKey (snd (fst e)) = None) table ->
  add_table table h !! key = Some vs ->
  h !! key = Some vs
  \/ exists k v : string, (true, k, v) ∈ table /\ key = CanonicalHeaderKey k /\ vs = [v].
Proof.
  revert h. induction table as [|e table IH]; intros h Hdup Hfresh Hlook.
  - left. exact Hlook.
  - rewrite add_table_cons in Hlook. cbn [map] in Hdup.
    apply NoDup_cons in Hdup as [Hnot Hdup].
    apply Forall_cons in Hfresh as [He Hfresh].
    destruct e as [[c k] v]. cbn [fst snd] in *.
    destruct (IH (add_if c k v h) Hdup) with (2 := Hlook) as [Hhere|(k' & v' & Hin & -> & ->)].
    + apply Forall_forall. intros e' Hin'.
      rewrite add_if_lookup_other.
      * revert e' Hin'. now apply Forall_forall.
      * intros Heq. apply Hnot. rewrite <- Heq.
        apply (elem_of_map_1 (fun e => CanonicalHeaderKey (snd (fst e))) _ _ Hin').
    + destruct (decide (key = CanonicalHeaderKey k)) as [->|Hne].
      * rewrite (add_if_lookup_fresh c k v h He) in Hhere.
        destruct c; [|discriminate]. injection Hhere as <-.
        right. exists k, v. split; [apply list_elem_of_here | split; reflexivity].
      * rewrite (add_if_lookup_other c k v h key Hne) in Hhere. now left.
    + right. exists k', v'. split; [now apply list_elem_of_further | split; reflexivity].
Qed.

(** Membership in a table that is written out. *)
Ltac in_table :=
  repeat first [apply list_elem_of_here | apply list_elem_of_further].

Module ReaderHeaders.
Import Reader.

Lemma setReaderHeaders_table (cl : Client) (httpReq : Request) (req : ReaderRequest) :
  ReqHeader (setReaderHeaders cl httpReq req)
  = add_table (header_table cl req) (ReqHeader httpReq).
Proof. reflexivity. Qed.

Lemma Reader_header_table_names (cl : Client) (req : ReaderRequest) :
  NoDup (map (fun e => CanonicalHeaderKey (snd (fst e))) (header_table cl req)).
Proof. refine (bool_decide_unpack _ _). vm_compute. exact I. Qed.

Lemma Reader_header_table_fresh (cl : Client) (req : ReaderRequest) (url : string) (body : json) :
  Forall (fun e => ReqHeader (with_header (Header_Set "Content-Type" "application/json")
                                (NewRequest url body))
                   !! CanonicalHeaderKey (snd (fst e)) = None)
         (header_table cl req).
Proof. unfold header_table. repeat constructor. Qed.

Section Sent.
Variable transport : Request -> result Response.
Context {R : Type} {decoder : Unmarshal R}.

(** X11.  The request [Reader] sends carries Content-Type
    application/json, and for every line of [setReaderHeaders] the header
    it names holds the line's one value when the line's condition holds
    (a positive number, a non-empty string, a set flag) and is absent
    otherwise; no header has two values and no other header is sent.  The
    Authorization line has no condition. *)
Theorem Reader_headers (cl : Client) (req : ReaderRequest) :
  URL req <> EmptyString ->
  exists r,
    sent (Reader (decoder := decoder) transport cl req) = [r]
    /\ Header_Values "Content-Type" (ReqHeader r) = Some ["application/json"]
    /\ (forall (c : bool) (k v : string), (c, k, v) ∈ header_table cl req ->
          Header_Values k (ReqHeader r) = if c then Some [v] else None)
    /\ (forall key vs, ReqHeader r !! key = Some vs ->
          key = "Content-Type" /\ vs = ["application/json"]
          \/ exists k v : string, (true, k, v) ∈ header_table cl req
                         /\ key = CanonicalHeaderKey k /\ vs = [v]).
Proof.
  intros Hurl.
  destruct (Reader_run transport (decoder := decoder) cl req Hurl) as (body & _ & Hrun).
  cbv zeta in Hrun. eexists. split; [unfold sent; rewrite Hrun; reflexivity|].
  set (req' := if client.EUCompliance (client.cfg cl) then set_EUCompliance true req else req).
  assert (Htable : header_table cl req' = header_table cl req).
  { unfold req'. now destruct (client.EUCompliance (client.cfg cl)). }
  rewrite setReaderHeaders_table, Htable. unfold Header_Values. repeat apply conj.
  - rewrite add_table_lookup_other; [reflexivity|].
    refine (bool_decide_unpack _ _). vm_compute. exact I.
  - intros c k v Hin. apply add_table_entry; [apply Reader_header_table_names | exact Hin |].
    pose proof (Reader_header_table_fresh cl req (buildReaderURL req') body) as Hfresh.
    rewrite Forall_forall in Hfresh. exact (Hfresh _ Hin).
  - intros key vs Hlook.
    apply add_table_values in Hlook;
      [| apply Reader_header_table_names | apply Reader_header_table_fresh].
    destruct Hlook as [Hbase|Hline]; [left | right; exact Hline].
    cbn [ReqHeader with_header NewRequest] in Hbase. unfold Header_Set in Hbase.
    apply lookup_insert_Some in Hbase as [[<- <-]|[_ Hempty]]; [now split|].
    now rewrite lookup_empty in Hempty.
Qed.

End Sent.

Lemma Reader_headers_witness :
  match sent (Reader (decoder := Samples.json_chunk)
                (Samples.server (Samples.ok_response "{}"))
                Samples.a_client Samples.reader_options) with
  | [r] =>
      Header_Values "Authorization" (ReqHeader r) = Some ["Bearer secret"]
      /\ Header_Values "X-Timeout" (ReqHeader r) = Some ["30"]
      /\ Header_Values "X-Retain-Images" (ReqHeader r) = Some ["none"]
      /\ Header_Values "Accept" (ReqHeader r) = Some ["application/json"]
      /\ Header_Values "DNT" (ReqHeader r) = None
      /\ Header_Values "X-Engine" (ReqHeader r) = None
  | _ => False
  end.
Proof.
  destruct (Reader_headers (Samples.server (Samples.ok_response "{}"))
              (decoder := Samples.json_chunk) Samples.a_client Samples.reader_options)
    as (r & -> & _ & Hline & _); [discriminate|].
  repeat apply conj.
  - apply (Hline true "Authorization" "Bearer secret"). in_table.
  - apply (Hline true "X-Timeout" "30"). in_table.
  - apply (Hline true "X-Retain-Images" "none"). in_table.
  - apply (Hline true "Accept" "application/json"). in_table.
  - apply (Hline false "DNT" "-1"). in_table.
  - apply (Hline false "X-Engine" EmptyString). in_table.
Defined.

End ReaderHeaders.

Module SearchHeaders.
Import Search.

Lemma setSearchHeaders_table (cl : Client) (httpReq : Request) (args : SearchRequest) :
  ReqHeader (setSearchHeaders cl httpReq args)
  = add_table (header_table cl args) (ReqHeader httpReq).
Proof. reflexivity. Qed.

Lemma Search_header_table_names (cl : Client) (args : SearchRequest) :
  NoDup (map (fun e => CanonicalHeaderKey (snd (fst e))) (header_table cl args)).
Proof. refine (bool_decide_unpack _ _). vm_compute. exact I. Qed.

Lemma Search_header_table_fresh (cl : Client) (args : SearchRequest) (url : string) (body : json) :
  Forall (fun e => ReqHeader (with_header (Header_Set "Content-Type" "application/json")
                                (NewRequest url body))
                   !! CanonicalHeaderKey (snd (fst e)) = None)
         (header_table cl args).
Proof. unfold header_table. repeat constructor. Qed.

Section Sent.
Variable transport : Request -> result Response.
Context {R : Type} {decoder : Unmarshal R}.

(** X12.  The request [Search] sends carries Content-Type
    application/json, and for every line of [setSearchHeaders] the header
    it names holds the line's one value when the line's condition holds
    and is absent otherwise; no header has two values and no other header
    is sent. *)
Theorem Search_headers (cl : Client) (req : SearchRequest) :
  Query req <> EmptyString ->
  exists r,
    sent (Search (decoder := decoder) transport cl req) = [r]
    /\ Header_Values "Content-Type" (ReqHeader r) = Some ["application/json"]
    /\ (forall (c : bool) (k v : string), (c, k, v) ∈ header_table cl req ->
          Header_Values k (ReqHeader r) = if c then Some [v] else None)
    /\ (forall key vs, ReqHeader r !! key = Some vs ->
          key = "Content-Type" /\ vs = ["application/json"]
          \/ exists k v : string, (true, k, v) ∈ header_table cl req
                         /\ key = CanonicalHeaderKey k /\ vs = [v]).
Proof.
  intros Hquery.
  destruct (Search_run transport (decoder := decoder) cl req Hquery) as (body & _ & Hrun).
  cbv zeta in Hrun. eexists. split; [unfold sent; rewrite Hrun; reflexivity|].
  set (req' := if client.EUCompliance (client.cfg cl) then set_EUCompliance true req else req).
  assert (Htable : header_table cl req' = header_table cl req).
  { unfold req'. now destruct (client.EUCompliance (client.cfg cl)). }
  rewrite setSearchHeaders_table, Htable. unfold Header_Values. repeat apply conj.
  - rewrite add_table_lookup_other; [reflexivity|].
    refine (bool_decide_unpack _ _). vm_compute. exact I.
  - intros c k v Hin. apply add_table_entry; [apply Search_header_table_names | exact Hin |].
    pose proof (Search_header_table_fresh cl req (buildSearchURL req') body) as Hfresh.
    rewrite Forall_forall in Hfresh. exact (Hfresh _ Hin).
  - intros key vs Hlook.
    apply add_table_values in Hlook;
      [| apply Search_header_table_names | apply Search_header_table_fresh].
    destruct Hlook as [Hbase|Hline]; [left | right; exact Hline].
    cbn [ReqHeader with_header NewRequest] in Hbase. unfold Header_Set in Hbase.
    apply lookup_insert_Some in Hbase as [[<- <-]|[_ Hempty]]; [now split|].
    now rewrite lookup_empty in Hempty.
Qed.

End Sent.

Lemma Search_headers_witness :
  match sent (Search (decoder := Samples.json_chunk)
                (Samples.server (Samples.ok_response "{}"))
                Samples.a_client Samples.search_options) with
  | [r] =>
      Header_Values "Authorization" (ReqHeader r) = Some ["Bearer secret"]
      /\ Header_Values "X-Site" (ReqHeader r) = Some ["jina.ai"]
      /\ Header_Values "X-No-Cache" (ReqHeader r) = Some ["true"]
      /\ Header_Values "X-Timeout" (ReqHeader r) = None
      /\ Header_Values "Accept" (ReqHeader r) = None
  | _ => False
  end.
Proof.
  destruct (Search_headers (Samples.server (Samples.ok_response "{}"))
              (decoder := Samples.json_chunk) Samples.a_client Samples.search_options)
    as (r & -> & _ & Hline & _); [discriminate|].
  repeat apply conj.
  - apply (Hline true "Authorization" "Bearer secret"). in_table.
  - apply (Hline true "X-Site" "jina.ai"). in_table.
  - apply (Hline true "X-No-Cache" "true"). in_table.
  - apply (Hline false "X-Timeout" "-5"). in_table.
  - apply (Hline false "Accept" "application/json"). in_table.
Defined.

End SearchHeaders.

(** ** Reader and Search: where the request goes, what the answer becomes *)

Module CallFacts.

Section Calls.
Variable transport : Request -> result Response.
Context {R : Type} {decoder : Unmarshal R}.

(** X13.  [Reader] and [Search] send one POST request, to the EU host
    when the client was built with [WithEUCompliance] or the request asks
    for it and to the global host otherwise; the body holds the fields
    with a JSON name and none of the options that travel as headers. *)
Theorem EU_routing (cl : Client) :
  (forall req, Reader.URL req <> EmptyString ->
     exists r,
       sent (Reader.Reader (decoder := decoder) transport cl req) = [r]
       /\ ReqMethod r = "POST"
       /\ ReqURL r = (if client.EUCompliance (client.cfg cl) || Reader.EUCompliance req
                      then "https://eu.r.jina.ai/" else "https://r.jina.ai/")
       /\ Reader.Marshal req = Ok (ReqBody r))
  /\ (forall req, Search.Query req <> EmptyString ->
        exists r,
          sent (Search.Search (decoder := decoder) transport cl req) = [r]
          /\ ReqMethod r = "POST"
          /\ ReqURL r = (if client.EUCompliance (client.cfg cl) || Search.EUCompliance req
                         then "https://eu.s.jina.ai/" else "https://s.jina.ai/")
          /\ Search.Marshal req = Ok (ReqBody r)).
Proof.
  split; intros req Hreq.
  - destruct (Reader_run transport (decoder := decoder) cl req Hreq) as (body & Hbody & Hrun).
    cbv zeta in Hrun. eexists. split; [unfold sent; rewrite Hrun; reflexivity|].
    cbn [ReqMethod ReqURL ReqBody Reader.setReaderHeaders with_header NewRequest].
    split; [reflexivity|]. rewrite <- Hbody.
    destruct (client.EUCompliance (client.cfg cl)); [split; reflexivity|].
    cbn [orb]. split; reflexivity.
  - destruct (Search_run transport (decoder := decoder) cl req Hreq) as (body & Hbody & Hrun).
    cbv zeta in Hrun. eexists. split; [unfold sent; rewrite Hrun; reflexivity|].
    cbn [ReqMethod ReqURL ReqBody Search.setSearchHeaders with_header NewRequest].
    split; [reflexivity|]. rewrite <- Hbody.
    destruct (client.EUCompliance (client.cfg cl)); [split; reflexivity|].
    cbn [orb]. split; reflexivity.
Qed.

(** X14.  A 200 answer whose body was read to its end.  Without
    [JSONResponse] the call cannot fail and the text is the body, byte for
    byte, whatever it holds.  With [JSONResponse] a result has an empty
    text and the decoded body, and a body that is not JSON gives the error
    that wraps the decoder's. *)
Theorem Reader_answer (cl : Client) (req : Reader.ReaderRequest) (resp : Response) :
  Reader.URL req <> EmptyString ->
  (forall r, transport r = Ok resp) ->
  StatusCode resp = StatusOK -> BodyErr resp = None ->
  (Reader.JSONResponse req = false ->
     outcome (Reader.Reader (decoder := decoder) transport cl req)
     = Ok {| Reader.Text := Body resp; Reader.Structured := None |})
  /\ (Reader.JSONResponse req = true ->
      forall out, outcome (Reader.Reader (decoder := decoder) transport cl req) = Ok out ->
        Reader.Text out = EmptyString
        /\ exists v s, json_parse (Body resp) = Some v /\ unmarshal v = Ok s
                       /\ Reader.Structured out = Some s)
  /\ (Reader.JSONResponse req = true -> json_parse (Body resp) = None ->
      exists msg,
        outcome (Reader.Reader (decoder := decoder) transport cl req)
        = Err (Errorf "unmarshal response body: %w" [ArgErr (SyntaxError msg)])).
Proof.
  intros Hurl Hanswer Hstatus Hread.
  destruct (Reader_run transport (decoder := decoder) cl req Hurl) as (body & _ & Hrun).
  cbv zeta in Hrun. unfold outcome. rewrite Hrun, Hanswer, Hstatus. cbn [snd].
  change (negb (Z.eqb StatusOK StatusOK)) with false. cbv iota.
  unfold ReadAll. rewrite Hread.
  assert (Hjson : Reader.JSONResponse
                    (if client.EUCompliance (client.cfg cl)
                     then Reader.set_EUCompliance true req else req)
                  = Reader.JSONResponse req)
    by now destruct (client.EUCompliance (client.cfg cl)).
  rewrite Hjson. unfold Reader.parseReaderResponse, Unmarshal_into. repeat apply conj.
  - intros ->. reflexivity.
  - intros -> out. destruct (json_parse (Body resp)) as [v|]; [|discriminate].
    destruct (unmarshal v) as [s|e] eqn:Hs; [|discriminate].
    intros [= <-]. split; [reflexivity|]. now exists v, s.
  - intros -> ->. eexists. reflexivity.
Qed.

(** X15.  The same for [Search]. *)
Theorem Search_answer (cl : Client) (req : Search.SearchRequest) (resp : Response) :
  Search.Query req <> EmptyString ->
  (forall r, transport r = Ok resp) ->
  StatusCode resp = StatusOK -> BodyErr resp = None ->
  (Search.JSONResponse req = false ->
     outcome (Search.Search (decoder := decoder) transport cl req)
     = Ok {| Search.Text := Body resp; Search.Structured := None |})
  /\ (Search.JSONResponse req = true ->
      forall out, outcome (Search.Search (decoder := decoder) transport cl req) = Ok out ->
        Search.Text out = EmptyString
        /\ exists v s, json_parse (Body resp) = Some v /\ unmarshal v = Ok s
                       /\ Search.Structured out = Some s)
  /\ (Search.JSONResponse req = true -> json_parse (Body resp) = None ->
      exists msg,
        outcome (Search.Search (decoder := decoder) transport cl req)
        = Err (Errorf "unmarshal response body: %w" [ArgErr (SyntaxError msg)])).
Proof.
  intros Hquery Hanswer Hstatus Hread.
  destruct (Search_run transport (decoder := decoder) cl req Hquery) as (body & _ & Hrun).
  cbv zeta in Hrun. unfold outcome. rewrite Hrun, Hanswer, Hstatus. cbn [snd].
  change (negb (Z.eqb StatusOK StatusOK)) with false. cbv iota.
  unfold ReadAll. rewrite Hread.
  assert (Hjson : Search.JSONResponse
                    (if client.EUCompliance (client.cfg cl)
                     then Search.set_EUCompliance true req else req)
                  = Search.JSONResponse req)
    by now destruct (client.EUCompliance (client.cfg cl)).
  rewrite Hjson. unfold Search.parseSearchResponse, Unmarshal_into. repeat apply conj.
  - intros ->. reflexivity.
  - intros -> out. destruct (json_parse (Body resp)) as [v|]; [|discriminate].
    destruct (unmarshal v) as [s|e] eqn:Hs; [|discriminate].
    intros [= <-]. split; [reflexivity|]. now exists v, s.
  - intros -> ->. eexists. reflexivity.
Qed.

(** X16.  A body that breaks off.  On a 200 answer [Reader] and [Search]
    return the read error, wrapped, whatever was read and whatever the
    request asked for; on any other status the read error is dropped and
    the error of the call embeds the status and the bytes that were
    read. *)
Theorem body_read_error (cl : Client) (resp : Response) (e : error) :
  (forall r, transport r = Ok resp) ->
  BodyErr resp = Some e -> e <> EOF ->
  (forall req, Reader.URL req <> EmptyString ->
     outcome (Reader.Reader (decoder := decoder) transport cl req)
     = Err (if Z.eqb (StatusCode resp) StatusOK
            then Errorf "read response body: %w" [ArgErr e]
            else Errorf "API error: status %d, body: %s"
                        [ArgInt (StatusCode resp); ArgStr (Body resp)]))
  /\ (forall req, Search.Query req <> EmptyString ->
        outcome (Search.Search (decoder := decoder) transport cl req)
        = Err (if Z.eqb (StatusCode resp) StatusOK
               then Errorf "read response body: %w" [ArgErr e]
               else Errorf "API error: status %d, body: %s"
                           [ArgInt (StatusCode resp); ArgStr (Body resp)])).
Proof.
  intros Hanswer Hread Hne. split; intros req Hreq.
  - destruct (Reader_run transport (decoder := decoder) cl req Hreq) as (body & _ & Hrun).
    cbv zeta in Hrun. unfold outcome. rewrite Hrun, Hanswer. cbn [snd].
    destruct (Z.eqb (StatusCode resp) StatusOK); cbn [negb]; [|reflexivity].
    unfold ReadAll. rewrite Hread. destruct e; try reflexivity. congruence.
  - destruct (Search_run transport (decoder := decoder) cl req Hreq) as (body & _ & Hrun).
    cbv zeta in Hrun. unfold outcome. rewrite Hrun, Hanswer. cbn [snd].
    destruct (Z.eqb (StatusCode resp) StatusOK); cbn [negb]; [|reflexivity].
    unfold ReadAll. rewrite Hread. destruct e; try reflexivity. congruence.
Qed.

End Calls.

Lemma EU_routing_witness :
  map ReqURL (sent (Reader.Reader (decoder := Samples.json_chunk)
                      (Samples.server (Samples.ok_response "{}"))
                      Samples.a_client Samples.reader_options))
  = ["https://eu.r.jina.ai/"]
  /\ map ReqURL (sent (Search.Search (decoder := Samples.json_chunk)
                         (Samples.server (Samples.ok_response "{}"))
                         (client.NewClient [client.WithEUCompliance])
                         Samples.search_options))
     = ["https://eu.s.jina.ai/"]
  /\ map ReqURL (sent (Search.Search (decoder := Samples.json_chunk)
                         (Samples.server (Samples.ok_response "{}"))
                         Samples.a_client Samples.search_options))
     = ["https://s.jina.ai/"].
Proof.
  destruct (EU_routing (Samples.server (Samples.ok_response "{}"))
              (decoder := Samples.json_chunk) Samples.a_client) as (Hreader & Hsearch).
  destruct (EU_routing (Samples.server (Samples.ok_response "{}"))
              (decoder := Samples.json_chunk) (client.NewClient [client.WithEUCompliance]))
    as (_ & Hsearch_eu).
  destruct (Hreader Samples.reader_options) as (r1 & Hs1 & _ & Hu1 & _); [discriminate|].
  destruct (Hsearch_eu Samples.search_options) as (r2 & Hs2 & _ & Hu2 & _); [discriminate|].
  destruct (Hsearch Samples.search_options) as (r3 & Hs3 & _ & Hu3 & _); [discriminate|].
  rewrite Hs1, Hs2, Hs3. cbn [map]. rewrite Hu1, Hu2, Hu3. repeat split.
Defined.

Lemma Reader_answer_witness :
  outcome (Reader.Reader (decoder := Samples.json_chunk)
             (Samples.server (Samples.ok_response "{not json"))
             Samples.a_client (Samples.reader_request "https://example.com"))
  = Ok {| Reader.Text := "{not json"; Reader.Structured := None |}
  /\ exists msg,
       outcome (Reader.Reader (decoder := Samples.json_chunk)
                  (Samples.server (Samples.ok_response "{not json"))
                  Samples.a_client Samples.reader_options)
       = Err (Errorf "unmarshal response body: %w" [ArgErr (SyntaxError msg)]).
Proof.
  split.
  - apply (Reader_answer (Samples.server (Samples.ok_response "{not json"))
             (decoder := Samples.json_chunk) Samples.a_client
             (Samples.reader_request "https://example.com")
             (Samples.ok_response "{not json"));
      [discriminate | reflexivity | reflexivity | reflexivity | reflexivity].
  - apply (Reader_answer (Samples.server (Samples.ok_response "{not json"))
             (decoder := Samples.json_chunk) Samples.a_client
             Samples.reader_options (Samples.ok_response "{not json"));
      [discriminate | reflexivity | reflexivity | reflexivity | reflexivity | reflexivity].
Defined.

Lemma Search_answer_witness :
  outcome (Search.Search (decoder := Samples.json_chunk)
             (Samples.server (Samples.ok_response "1. Jina AI"))
             Samples.a_client Samples.search_options)
  = Ok {| Search.Text := "1. Jina AI"; Search.Structured := None |}.
Proof.
  apply (Search_answer (Samples.server (Samples.ok_response "1. Jina AI"))
           (decoder := Samples.json_chunk) Samples.a_client
           Samples.search_options (Samples.ok_response "1. Jina AI"));
    [discriminate | reflexivity | reflexivity | reflexivity | reflexivity].
Defined.

Lemma body_read_error_witness :
  outcome (Reader.Reader (decoder := Samples.json_chunk)
             (Samples.server Samples.sse_reset)
             Samples.a_client (Samples.reader_request "https://example.com"))
  = Err (Errorf "read response body: %w" [ArgErr (OtherError "connection reset by peer")])
  /\ outcome (Search.Search (decoder := Samples.json_chunk)
                (Samples.server Samples.sse_reset)
                Samples.a_client Samples.search_options)
     = Err (Errorf "read response body: %w" [ArgErr (OtherError "connection reset by peer")]).
Proof.
  destruct (body_read_error (Samples.server Samples.sse_reset)
              (decoder := Samples.json_chunk) Samples.a_client Samples.sse_reset
              (OtherError "connection reset by peer"))
    as (Hreader & Hsearch); [reflexivity | reflexivity | discriminate |].
  split.
  - apply (Hreader (Samples.reader_request "https://example.com")). discriminate.
  - apply (Hsearch Samples.search_options). discriminate.
Defined.

End CallFacts.

(** ** When the request cannot be sent, and what is sent *)

Module EndpointFacts.

Lemma DeepSearch_ResponseFormat_kept (req : DeepSearch.DeepSearchRequest) (b : bool) :
  DeepSearch.ResponseFormat
    (DeepSearch.set_Stream b
       (if nonempty (DeepSearch.Model req) then req
        else DeepSearch.set_Model DeepSearch.DeepSearchModelDefault req))
  = DeepSearch.ResponseFormat req.
Proof. now destruct (nonempty (DeepSearch.Model req)). Qed.

Lemma DeepSearch_Marshal_invalid_schema (req : DeepSearch.DeepSearchRequest)
    (rf : DeepSearch.DeepSearchResponseFormat) (bytes : list ascii) :
  DeepSearch.ResponseFormat req = Some rf ->
  DeepSearch.JSONSchema rf = Some bytes ->
  json_parse (string_of_list_ascii bytes) = None ->
  exists msg, DeepSearch.Marshal req = Err (MarshalerError msg).
Proof.
  intros Hrf Hschema Hparse. unfold DeepSearch.Marshal, DeepSearch.RawMessage_json.
  rewrite Hrf, Hschema, Hparse. eexists. reflexivity.
Qed.

Lemma json_headers_body (cl : Client) (accept : string) (httpReq : Request) :
  ReqBody (json_headers cl accept httpReq) = ReqBody httpReq.
Proof. unfold json_headers. now destruct (nonempty _). Qed.

Section Endpoints.
Variable transport : Request -> result Response.
Context {R : Type} {decoder : Unmarshal R} {S : Type}.

(** X17.  When the transport fails, Classify, Rerank, Segment, VLM and
    DeepSearch return its error as it is, the two streaming calls return
    it as it is without invoking the callback, and Reader and Search
    return it wrapped in one more error. *)
Theorem transport_error (cl : Client) (err : error) :
  (forall r, transport r = Err err) ->
  (forall req, outcome (Classification.Classify (decoder := decoder) transport cl req)
               = Err err)
  /\ (forall req, outcome (Rerank.Rerank (decoder := decoder) transport cl req) = Err err)
  /\ (forall req, outcome (Segmenter.Segment (decoder := decoder) transport cl req) = Err err)
  /\ (forall req, outcome (VLM.VLM (decoder := decoder) transport cl req) = Err err)
  /\ (forall req, is_Err (DeepSearch.Marshal req) = false ->
        outcome (DeepSearch.DeepSearch (decoder := decoder) transport cl req) = Err err)
  /\ (forall req (cb : callback R S) st,
        snd (VLM.VLMStream (decoder := decoder) transport cl req (spy cb) (st, []))
        = ((st, []), Some err))
  /\ (forall req (cb : callback R S) st,
        is_Err (DeepSearch.Marshal req) = false ->
        snd (DeepSearch.DeepSearchStream (decoder := decoder) transport cl req
               (spy cb) (st, []))
        = ((st, []), Some err))
  /\ (forall req, Reader.URL req <> EmptyString ->
        outcome (Reader.Reader (decoder := decoder) transport cl req)
        = Err (Errorf "do request: %w" [ArgErr err]))
  /\ (forall req, Search.Query req <> EmptyString ->
        outcome (Search.Search (decoder := decoder) transport cl req)
        = Err (Errorf "do request: %w" [ArgErr err])).
Proof.
  intros Hdown. repeat apply conj.
  - intros req. destruct (Classify_run transport (decoder := decoder) cl req)
      as (body & _ & Hrun).
    cbv zeta in Hrun. unfold outcome. now rewrite Hrun, Hdown.
  - intros req. pose proof (Rerank_run transport (decoder := decoder) cl req) as Hrun.
    cbv zeta in Hrun. unfold outcome. now rewrite Hrun, Hdown.
  - intros req. destruct (Segment_run transport (decoder := decoder) cl req)
      as (body & _ & Hrun).
    cbv zeta in Hrun. unfold outcome. now rewrite Hrun, Hdown.
  - intros req. destruct (VLM_run transport (decoder := decoder) cl req)
      as (body & _ & Hrun).
    cbv zeta in Hrun. unfold outcome. now rewrite Hrun, Hdown.
  - intros req Hmarshal.
    pose proof (DeepSearch_run transport (decoder := decoder) cl req) as Hrun.
    cbv zeta in Hrun. unfold outcome. rewrite Hrun.
    destruct (DeepSearch_Marshal_fails
                (if nonempty (DeepSearch.Model req) then req
                 else DeepSearch.set_Model DeepSearch.DeepSearchModelDefault req)
                false EmptyString) as (Hstream & _).
    destruct (DeepSearch_Marshal_fails req false DeepSearch.DeepSearchModelDefault)
      as (_ & Hmodel).
    match goal with
    | |- context [match DeepSearch.Marshal ?r with Ok _ => _ | Err _ => _ end] =>
        destruct (DeepSearch.Marshal r) as [body|e] eqn:Hbody
    end.
    + cbn [snd]. now rewrite Hdown.
    + exfalso. cbn [is_Err] in Hstream.
      destruct (nonempty (DeepSearch.Model req)); congruence.
  - intros req cb st. unfold VLM.VLMStream, VLM.Marshal. cbv zeta.
    unfold doStream. now rewrite Hdown.
  - intros req cb st Hmarshal. unfold DeepSearch.DeepSearchStream. cbv zeta.
    destruct (DeepSearch_Marshal_fails
                (if nonempty (DeepSearch.Model req) then req
                 else DeepSearch.set_Model DeepSearch.DeepSearchModelDefault req)
                true EmptyString) as (Hstream & _).
    destruct (DeepSearch_Marshal_fails req false DeepSearch.DeepSearchModelDefault)
      as (_ & Hmodel).
    match goal with
    | |- context [match DeepSearch.Marshal ?r with Ok _ => _ | Err _ => _ end] =>
        destruct (DeepSearch.Marshal r) as [body|e] eqn:Hbody
    end.
    + unfold doStream. now rewrite Hdown.
    + exfalso. cbn [is_Err] in Hstream.
      destruct (nonempty (DeepSearch.Model req)); congruence.
  - intros req Hurl. destruct (Reader_run transport (decoder := decoder) cl req Hurl)
      as (body & _ & Hrun).
    cbv zeta in Hrun. unfold outcome. now rewrite Hrun, Hdown.
  - intros req Hquery. destruct (Search_run transport (decoder := decoder) cl req Hquery)
      as (body & _ & Hrun).
    cbv zeta in Hrun. unfold outcome. now rewrite Hrun, Hdown.
Qed.

(** X18.  A response format whose schema bytes are not JSON cannot be
    marshalled: [DeepSearch] and [DeepSearchStream] return the wrapped
    marshal error, hand nothing to the transport and, for the stream, do
    not invoke the callback. *)
Theorem invalid_schema_sends_nothing (cl : Client) (req : DeepSearch.DeepSearchRequest)
    (rf : DeepSearch.DeepSearchResponseFormat) (bytes : list ascii)
    (cb : callback R S) (st : S) :
  DeepSearch.ResponseFormat req = Some rf ->
  DeepSearch.JSONSchema rf = Some bytes ->
  json_parse (string_of_list_ascii bytes) = None ->
  exists msg,
    DeepSearch.DeepSearch (decoder := decoder) transport cl req
    = ([], Err (Errorf "failed to marshal request: %w" [ArgErr (MarshalerError msg)]))
    /\ DeepSearch.DeepSearchStream (decoder := decoder) transport cl req (spy cb) (st, [])
       = ([], ((st, []),
               Some (Errorf "failed to marshal request: %w" [ArgErr (MarshalerError msg)]))).
Proof.
  intros Hrf Hschema Hparse.
  assert (Hfails : forall b, exists msg,
             DeepSearch.Marshal
               (DeepSearch.set_Stream b
                  (if nonempty (DeepSearch.Model req) then req
                   else DeepSearch.set_Model DeepSearch.DeepSearchModelDefault req))
             = Err (MarshalerError msg)).
  { intros b. apply (DeepSearch_Marshal_invalid_schema _ rf bytes); [|exact Hschema|exact Hparse].
    now rewrite DeepSearch_ResponseFormat_kept. }
  destruct (Hfails false) as (msg & Hsync). destruct (Hfails true) as (msg' & Hstream).
  assert (msg' = msg) as ->.
  { revert Hsync Hstream. unfold DeepSearch.Marshal, DeepSearch.RawMessage_json.
    rewrite !DeepSearch_ResponseFormat_kept, Hrf, Hschema, Hparse. congruence. }
  exists msg. split.
  - pose proof (DeepSearch_run transport (decoder := decoder) cl req) as Hrun.
    cbv zeta in Hrun. rewrite Hrun, Hsync. reflexivity.
  - unfold DeepSearch.DeepSearchStream. cbv zeta. now rewrite Hstream.
Qed.

(** X19.  The model a request names is the one sent; a request that names
    none is sent with the default of its endpoint, by the plain and by the
    streaming call alike. *)
Theorem default_model (cl : Client) :
  (forall req,
     map (fun r => json_field "model" (ReqBody r))
         (sent (VLM.VLM (decoder := decoder) transport cl req))
     = [Some (JStr (if nonempty (VLM.Model req) then VLM.Model req else "jina-vlm"))])
  /\ (forall req (cb : callback R S) st,
        map (fun r => json_field "model" (ReqBody r))
            (fst (VLM.VLMStream (decoder := decoder) transport cl req cb st))
        = [Some (JStr (if nonempty (VLM.Model req) then VLM.Model req else "jina-vlm"))])
  /\ (forall req, is_Err (DeepSearch.Marshal req) = false ->
        map (fun r => json_field "model" (ReqBody r))
            (sent (DeepSearch.DeepSearch (decoder := decoder) transport cl req))
        = [Some (JStr (if nonempty (DeepSearch.Model req) then DeepSearch.Model req
                       else "jina-deepsearch-v1"))])
  /\ (forall req (cb : callback R S) st, is_Err (DeepSearch.Marshal req) = false ->
        map (fun r => json_field "model" (ReqBody r))
            (fst (DeepSearch.DeepSearchStream (decoder := decoder) transport cl req cb st))
        = [Some (JStr (if nonempty (DeepSearch.Model req) then DeepSearch.Model req
                       else "jina-deepsearch-v1"))]).
Proof.
  assert (Hds : forall req b body,
             DeepSearch.Marshal
               (DeepSearch.set_Stream b
                  (if nonempty (DeepSearch.Model req) then req
                   else DeepSearch.set_Model DeepSearch.DeepSearchModelDefault req))
             = Ok body ->
             json_field "model" body
             = Some (JStr (if nonempty (DeepSearch.Model req) then DeepSearch.Model req
                           else "jina-deepsearch-v1"))).
  { intros req b body. unfold DeepSearch.Marshal.
    destruct (match DeepSearch.ResponseFormat _ with Some _ => _ | None => _ end);
      [|discriminate].
    intros [= <-]. now destruct (nonempty (DeepSearch.Model req)). }
  assert (Hok : forall req b, is_Err (DeepSearch.Marshal req) = false ->
             exists body,
               DeepSearch.Marshal
                 (DeepSearch.set_Stream b
                    (if nonempty (DeepSearch.Model req) then req
                     else DeepSearch.set_Model DeepSearch.DeepSearchModelDefault req))
               = Ok body).
  { intros req b Hmarshal.
    destruct (DeepSearch_Marshal_fails
                (if nonempty (DeepSearch.Model req) then req
                 else DeepSearch.set_Model DeepSearch.DeepSearchModelDefault req)
                b EmptyString) as (Hstream & _).
    destruct (DeepSearch_Marshal_fails req false DeepSearch.DeepSearchModelDefault)
      as (_ & Hmodel).
    destruct (DeepSearch.Marshal (DeepSearch.set_Stream b _)) as [body|e];
      [now exists body|].
    exfalso. cbn [is_Err] in Hstream.
    destruct (nonempty (DeepSearch.Model req)); congruence. }
  repeat apply conj.
  - intros req. destruct (VLM_run transport (decoder := decoder) cl req)
      as (body & Hbody & Hrun).
    cbv zeta in Hrun. unfold sent. rewrite Hrun. cbn [fst map].
    rewrite json_headers_body. unfold VLM.Marshal in Hbody. injection Hbody as <-.
    now destruct (nonempty (VLM.Model req)).
  - intros req cb st. unfold VLM.VLMStream, VLM.Marshal. cbv zeta.
    rewrite doStream_sent. cbn [map]. rewrite json_headers_body.
    now destruct (nonempty (VLM.Model req)).
  - intros req Hmarshal.
    pose proof (DeepSearch_run transport (decoder := decoder) cl req) as Hrun.
    cbv zeta in Hrun. unfold sent. rewrite Hrun.
    destruct (Hok req false Hmarshal) as (body & Hbody). rewrite Hbody.
    cbn [fst map]. rewrite json_headers_body. cbn [ReqBody NewRequest].
    now rewrite (Hds req false body Hbody).
  - intros req cb st Hmarshal. unfold DeepSearch.DeepSearchStream. cbv zeta.
    destruct (Hok req true Hmarshal) as (body & Hbody). rewrite Hbody.
    rewrite doStream_sent. cbn [map]. rewrite json_headers_body. cbn [ReqBody NewRequest].
    now rewrite (Hds req true body Hbody).
Qed.

End Endpoints.

Lemma transport_error_witness :
  outcome (Classification.Classify (decoder := Samples.json_chunk) Samples.unreachable
             Samples.a_client Samples.classification_request)
  = Err (OtherError "dial tcp: connection refused")
  /\ snd (VLM.VLMStream (decoder := Samples.json_chunk) Samples.unreachable
            Samples.a_client (Samples.vlm_request true) (spy Samples.count) (0, []))
     = ((0, []), Some (OtherError "dial tcp: connection refused"))
  /\ outcome (Reader.Reader (decoder := Samples.json_chunk) Samples.unreachable
                Samples.a_client (Samples.reader_request "https://example.com"))
     = Err (Errorf "do request: %w" [ArgErr (OtherError "dial tcp: connection refused")]).
Proof.
  destruct (transport_error Samples.unreachable (decoder := Samples.json_chunk) (S := Z)
              Samples.a_client (OtherError "dial tcp: connection refused"))
    as (Hclassify & _ & _ & _ & _ & Hstream & _ & Hreader & _); [reflexivity|].
  split; [|split].
  - apply Hclassify.
  - apply (Hstream (Samples.vlm_request true) Samples.count 0).
  - apply Hreader. discriminate.
Defined.

Lemma invalid_schema_sends_nothing_witness :
  exists msg,
    DeepSearch.DeepSearch (decoder := Samples.json_chunk)
      (Samples.server Samples.sse_done) Samples.a_client Samples.deepsearch_bad_schema
    = ([], Err (Errorf "failed to marshal request: %w" [ArgErr (MarshalerError msg)]))
    /\ DeepSearch.DeepSearchStream (decoder := Samples.json_chunk)
         (Samples.server Samples.sse_done) Samples.a_client Samples.deepsearch_bad_schema
         (spy Samples.count) (0, [])
       = ([], ((0, []),
               Some (Errorf "failed to marshal request: %w" [ArgErr (MarshalerError msg)]))).
Proof.
  exact (invalid_schema_sends_nothing (Samples.server Samples.sse_done)
           (decoder := Samples.json_chunk) Samples.a_client Samples.deepsearch_bad_schema
           {| DeepSearch.Type_ := "json_schema";
              DeepSearch.JSONSchema := Some (list_ascii_of_string "{") |}
           (list_ascii_of_string "{") Samples.count 0 eq_refl eq_refl eq_refl).
Defined.

Lemma default_model_witness :
  map (fun r => json_field "model" (ReqBody r))
      (sent (DeepSearch.DeepSearch (decoder := Samples.json_chunk)
               (Samples.server (Samples.ok_response "{}")) Samples.a_client
               (Samples.deepsearch_request false)))
  = [Some (JStr "jina-deepsearch-v1")].
Proof.
  destruct (default_model (Samples.server (Samples.ok_response "{}"))
              (decoder := Samples.json_chunk) (S := Z) Samples.a_client)
    as (_ & _ & Hsync & _).
  apply (Hsync (Samples.deepsearch_request false)). reflexivity.
Defined.

End EndpointFacts.

(** ** The members of a rerank request *)

Module RerankMembers.
Import Rerank.

(** X20.  The object [RerankRequest.MarshalJSON] writes has the members
    documents, model and query, then return_documents when the pointer is
    set (a pointer to false is written, as false), then top_n when it is
    positive (zero and negative values are left out), in this order and no
    others. *)
Theorem MarshalJSON_members (r : RerankRequest) :
  exists query documents,
    MarshalJSON r
    = JObj ([("documents", documents); ("model", JStr (Model r)); ("query", query)]
            ++ match ReturnDocuments r with
               | Some b => [("return_documents", JBool b)]
               | None => []
               end
            ++ (if Z.ltb 0 (TopN r) then [("top_n", JInt (TopN r))] else []))%list.
Proof.
  unfold MarshalJSON.
  destruct (Z.ltb 0 (TopN r)), (ReturnDocuments r), (QueryInput r),
    (Z.ltb 0 (len (DocumentsInput r))); eexists; eexists; reflexivity.
Qed.

End RerankMembers.

(** ** What follows the first value of a body *)

Module BodyFacts.

Lemma json_endpoint_outcome_object {T : Type} {decoder : Unmarshal T} (resp : Response)
    (fields : list (string * json)) (rest : string) :
  StatusCode resp = StatusOK ->
  json_parse_prefix (Body resp) = Some (JObj fields, rest) ->
  json_endpoint_outcome (Ok resp)
  = wrap "failed to decode response: %w" (unmarshal (JObj fields)).
Proof.
  intros Hstatus Hprefix. unfold json_endpoint_outcome, Decode_into, Decode_value.
  rewrite Hstatus, Hprefix. reflexivity.
Qed.

Section Bodies.
Variable transport : Request -> result Response.
Context {R : Type} {decoder : Unmarshal R}.

(** X21.  The body of a 200 answer starts with a JSON object.  Classify,
    Rerank, Segment and VLM decode that object and never look at what
    follows it, be it more bytes or a failed read.  Reader and Search,
    asked for a JSON response, take the whole body: bytes other than white
    space after the object make them fail. *)
Theorem first_value_only (cl : Client) (resp : Response)
    (fields : list (string * json)) (rest : string) :
  (forall r, transport r = Ok resp) ->
  StatusCode resp = StatusOK ->
  json_parse_prefix (Body resp) = Some (JObj fields, rest) ->
  (forall req, outcome (Classification.Classify (decoder := decoder) transport cl req)
               = wrap "failed to decode response: %w" (unmarshal (JObj fields)))
  /\ (forall req, outcome (Rerank.Rerank (decoder := decoder) transport cl req)
                  = wrap "failed to decode response: %w" (unmarshal (JObj fields)))
  /\ (forall req, outcome (Segmenter.Segment (decoder := decoder) transport cl req)
                  = wrap "failed to decode response: %w" (unmarshal (JObj fields)))
  /\ (forall req, outcome (VLM.VLM (decoder := decoder) transport cl req)
                  = wrap "failed to decode response: %w" (unmarshal (JObj fields)))
  /\ (skip_ws rest <> EmptyString -> BodyErr resp = None ->
      (forall req, Reader.URL req <> EmptyString -> Reader.JSONResponse req = true ->
         exists msg,
           outcome (Reader.Reader (decoder := decoder) transport cl req)
           = Err (Errorf "unmarshal response body: %w" [ArgErr (SyntaxError msg)]))
      /\ (forall req, Search.Query req <> EmptyString -> Search.JSONResponse req = true ->
            exists msg,
              outcome (Search.Search (decoder := decoder) transport cl req)
              = Err (Errorf "unmarshal response body: %w" [ArgErr (SyntaxError msg)]))).
Proof.
  intros Hanswer Hstatus Hprefix.
  assert (Hparse : skip_ws rest <> EmptyString -> json_parse (Body resp) = None).
  { intros Hrest. unfold json_parse. rewrite Hprefix.
    destruct (skip_ws rest); [congruence | reflexivity]. }
  repeat apply conj.
  - intros req. destruct (Classify_run transport (decoder := decoder) cl req)
      as (body & _ & Hrun).
    cbv zeta in Hrun. unfold outcome. rewrite Hrun, Hanswer. cbn [snd].
    exact (json_endpoint_outcome_object resp fields rest Hstatus Hprefix).
  - intros req. pose proof (Rerank_run transport (decoder := decoder) cl req) as Hrun.
    cbv zeta in Hrun. unfold outcome. rewrite Hrun, Hanswer. cbn [snd].
    exact (json_endpoint_outcome_object resp fields rest Hstatus Hprefix).
  - intros req. destruct (Segment_run transport (decoder := decoder) cl req)
      as (body & _ & Hrun).
    cbv zeta in Hrun. unfold outcome. rewrite Hrun, Hanswer. cbn [snd].
    exact (json_endpoint_outcome_object resp fields rest Hstatus Hprefix).
  - intros req. destruct (VLM_run transport (decoder := decoder) cl req)
      as (body & _ & Hrun).
    cbv zeta in Hrun. unfold outcome. rewrite Hrun, Hanswer. cbn [snd].
    exact (json_endpoint_outcome_object resp fields rest Hstatus Hprefix).
  - intros Hrest Hread. split; intros req Hreq Hjson.
    + destruct (Reader_run transport (decoder := decoder) cl req Hreq) as (body & _ & Hrun).
      cbv zeta in Hrun. unfold outcome. rewrite Hrun, Hanswer, Hstatus. cbn [snd].
      change (negb (Z.eqb StatusOK StatusOK)) with false. cbv iota.
      unfold ReadAll. rewrite Hread.
      assert (Hmode : Reader.JSONResponse
                        (if client.EUCompliance (client.cfg cl)
                         then Reader.set_EUCompliance true req else req) = true)
        by now destruct (client.EUCompliance (client.cfg cl)).
      rewrite Hmode. unfold Reader.parseReaderResponse, Unmarshal_into.
      rewrite (Hparse Hrest). eexists. reflexivity.
    + destruct (Search_run transport (decoder := decoder) cl req Hreq) as (body & _ & Hrun).
      cbv zeta in Hrun. unfold outcome. rewrite Hrun, Hanswer, Hstatus. cbn [snd].
      change (negb (Z.eqb StatusOK StatusOK)) with false. cbv iota.
      unfold ReadAll. rewrite Hread.
      assert (Hmode : Search.JSONResponse
                        (if client.EUCompliance (client.cfg cl)
                         then Search.set_EUCompliance true req else req) = true)
        by now destruct (client.EUCompliance (client.cfg cl)).
      rewrite Hmode. unfold Search.parseSearchResponse, Unmarshal_into.
      rewrite (Hparse Hrest). eexists. reflexivity.
Qed.

End Bodies.

Lemma first_value_only_witness :
  outcome (Classification.Classify (decoder := Samples.json_chunk)
             (Samples.server Samples.object_then_more)
             Samples.a_client Samples.classification_request)
  = Ok (JObj [("n", JInt 1)])
  /\ exists msg,
       outcome (Reader.Reader (decoder := Samples.json_chunk)
                  (Samples.server Samples.object_then_more)
                  Samples.a_client Samples.reader_options)
       = Err (Errorf "unmarshal response body: %w" [ArgErr (SyntaxError msg)]).
Proof.
  destruct (first_value_only (Samples.server Samples.object_then_more)
              (decoder := Samples.json_chunk) Samples.a_client Samples.object_then_more
              [("n", JInt 1)] "<html>")
    as (Hclassify & _ & _ & _ & Hwhole); [reflexivity | reflexivity | reflexivity |].
  split.
  - apply Hclassify.
  - destruct Hwhole as (Hreader & _); [discriminate | reflexivity |].
    apply Hreader; [discriminate | reflexivity].
Defined.

End BodyFacts.
